(** * vrts-bus-performance: the spatial-join and aggregation pipeline of
      [utils.py], embedded in Rocq.

    Data frames are lists of rows (records); a row keeps the index label
    pandas gives it.  The [_point_data] dictionary of a [RouteInfo] is a
    [gmap] keyed by direction.  Python exceptions are values of [exn];
    methods that mutate the object or write files live in a small
    state-and-exception monad.

    Numbers: timestamps are whole epoch seconds ([Z]); coordinates,
    speeds, distances and the statistics are rationals ([Q]), the exact
    value of the finite [float64] the program holds, with sums and
    quotients taken exactly. *)

From Stdlib Require Import ZArith QArith Qminmax Qround List.
From stdpp Require Import base decidable option list sorting numbers strings pretty gmap.

Open Scope Z_scope.

(** ** Exceptions and results *)

Inductive exn : Type :=
  | KeyError (key : string)
  | KeyErrorHour (hour : Z)
  | IndexError
  | ValueErrorMultipleModes (name : string) (value_counts : list (Z * nat))
  | ValueErrorItem
  | ValueErrorNaiveGeometries.

Inductive result (A : Type) : Type :=
  | Ok (a : A)
  | Raise (e : exn).
Arguments Ok {A} a.
Arguments Raise {A} e.

Definition rbind {A B} (r : result A) (k : A -> result B) : result B :=
  match r with
  | Ok a => k a
  | Raise e => Raise e
  end.

(** ** pandas operations *)

Section Pandas.
Context {A K : Type} `{EqDecision K}.

(** Distinct keys, in order of first appearance. *)
Fixpoint unique_keys (ks : list K) : list K :=
  match ks with
  | [] => []
  | k :: ks' => k :: filter (fun k' => k' <> k) (unique_keys ks')
  end.

(** [DataFrame.groupby(key)]: every key with the rows that carry it, in
    their order.  pandas lists the groups by sorted key where the keys
    can be sorted; here they come in order of first appearance. *)
Definition groupby (key : A -> K) (l : list A) : list (K * list A) :=
  map (fun k => (k, filter (fun a => key a = k) l)) (unique_keys (map key l)).
End Pandas.

(** ** [strictmode] (utils.py, lines 14-19) *)

Module Series.

(** A pandas Series of integers: its name and its values. *)
Record t := mk { name : string; values : list Z }.

(** Number of occurrences of [v]. *)
Definition count (v : Z) (s : list Z) : nat :=
  length (filter (fun x => x = v) s).

Definition max_count (s : list Z) : nat :=
  foldr (fun v m => Nat.max (count v s) m) 0%nat s.

(** [pd.Series.mode]: every value of maximal count, sorted ascending. *)
Definition mode (s : list Z) : list Z :=
  merge_sort Z.le
    (filter (fun v => count v s = max_count s) (unique_keys s)).

Definition more_frequent (a b : Z * nat) : Prop := (snd b <= snd a)%nat.

#[global] Instance more_frequent_dec : RelDecision more_frequent.
Proof. intros a b. unfold more_frequent. apply _. Defined.

(** [Series.value_counts]: each distinct value with its count, the
    most frequent first. *)
Definition value_counts (s : list Z) : list (Z * nat) :=
  merge_sort more_frequent
    (map (fun v => (v, count v s)) (unique_keys s)).

(** [Series.item]: the only element, or a [ValueError]. *)
Definition item (m : list Z) : result Z :=
  match m with
  | [x] => Ok x
  | _ => Raise ValueErrorItem
  end.

End Series.

(** The line [print(s.name)] writes to standard output only; the name is
    kept in the exception instead. *)
Definition strictmode (s : Series.t) : result Z :=
  let mode := Series.mode (Series.values s) in
  if (1 <? length mode)%nat
  then Raise (ValueErrorMultipleModes (Series.name s)
                (Series.value_counts (Series.values s)))
  else Series.item mode.

(** ** External libraries as interfaces *)

(** Coordinate reference systems the program names. *)
Inductive CRS : Type := WGS84 | EPSG26910.

#[global] Instance CRS_eq_dec : EqDecision CRS.
Proof. solve_decision. Defined.

(** shapely / pyproj: geometries, the distance between two of them (in
    the units of their reference system) and reprojection. *)
Class Geo (Geom : Type) : Type := {
  Geom_eq_dec :: EqDecision Geom;
  points_from_xy : Q -> Q -> Geom;
  distance : Geom -> Geom -> Q;
  transform : CRS -> CRS -> Geom -> Geom
}.

(** The tz database: offset from UTC, in seconds, of [TIMEZONE]
    (America/Vancouver) at an instant given in epoch seconds. *)
Class Clock : Type := { utcoffset : Z -> Z }.

(** Comparisons of rationals as decidable propositions. *)
#[global] Instance Qle_decision (x y : Q) : Decision (x <= y)%Q :=
  decide (Qnum x * QDen y <= Qnum y * QDen x).
#[global] Instance Qlt_decision (x y : Q) : Decision (x < y)%Q :=
  decide (Qnum x * QDen y < Qnum y * QDen x).
#[global] Instance Qeq_decision (x y : Q) : Decision (x == y)%Q :=
  decide (Qnum x * QDen y = Qnum y * QDen x).

(** ** Rows of the frames *)

(** A row of the [vehicle_positions] table. *)
Module VehiclePosition.
Record t : Type := mk {
  latitude : Q;
  longitude : Q;
  start_time : Z;
  timestamp : Z;
  speed : Q;
  odometer : Q;
  vehicle_id : string;
  route_id : string;
  direction_id : Z;
  stop_id : string;
  current_status : string;
  trip_id : string
}.
End VehiclePosition.

(** A row of [feed.trips_patterns]. *)
Module TripPattern.
Record t : Type := mk {
  trip_id : string;
  route_id : string;
  direction_id : Z;
  shape_id : string;
  pattern_name : string
}.
End TripPattern.

(** A row of [feed.segments]. *)
Module Segment.
Section Row.
Context {Geom : Type}.
Record t : Type := mk {
  route_id : string;
  direction_id : Z;
  shape_id : string;
  segment_id : string;
  stop_sequence : Z;
  start_stop_name : string;
  start_stop_id : string;
  end_stop_name : string;
  end_stop_id : string;
  distance_m : Q;
  geometry : Geom
}.
End Row.
Arguments t : clear implicits.
End Segment.

(** A row of the frame [_vehicle_positions] returns: the table row under
    its index label, the derived columns and the point geometry.  The
    column [timestamp_binned] is read by no method and is left out. *)
Module Ping.
Section Row.
Context {Geom : Type}.
Record t : Type := mk {
  index : nat;
  row : VehiclePosition.t;
  hour_of_day : Z;
  speed_km : Q;
  geometry : Geom
}.
End Row.
Arguments t : clear implicits.
End Ping.

(** A row of the frame [points] returns: a ping, the columns of its
    trip's pattern and the columns of the segment [sjoin_nearest]
    attached, whose projected geometry is the column [shape]. *)
Module Point.
Section Row.
Context {Geom : Type}.
Record t : Type := mk {
  ping : Ping.t Geom;
  pattern : TripPattern.t;
  segment : Segment.t Geom
}.
Definition index (p : t) : nat := Ping.index (ping p).
Definition timestamp (p : t) : Z := VehiclePosition.timestamp (Ping.row (ping p)).
Definition start_time (p : t) : Z := VehiclePosition.start_time (Ping.row (ping p)).
Definition trip_id (p : t) : string := VehiclePosition.trip_id (Ping.row (ping p)).
Definition pattern_name (p : t) : string := TripPattern.pattern_name (pattern p).
Definition segment_id (p : t) : string := Segment.segment_id (segment p).
Definition stop_sequence (p : t) : Z := Segment.stop_sequence (segment p).
Definition shape (p : t) : Geom := Segment.geometry (segment p).
End Row.
Arguments t : clear implicits.
End Point.

(** A GeoDataFrame of joined points: its [crs] attribute and its rows. *)
Module GeoFrame.
Section Frame.
Context {Geom : Type}.
Record t : Type := mk { crs : CRS; rows : list (Point.t Geom) }.
End Frame.
Arguments t : clear implicits.
End GeoFrame.

(** ** More pandas operations *)

(** Running a raising function over a list, left to right. *)
Fixpoint mapM {A B} (f : A -> result B) (l : list A) : result (list B) :=
  match l with
  | [] => Ok []
  | a :: l' => rbind (f a) (fun b => rbind (mapM f l') (fun bs => Ok (b :: bs)))
  end.

Definition Qsum (l : list Q) : Q := foldr Qplus 0%Q l.

(** Arithmetic mean of a non-empty list. *)
Definition Qmean (l : list Q) : Q := (Qsum l / inject_Z (Z.of_nat (length l)))%Q.

(** [Series.median] of whole-second timestamps.  For an even number of
    values pandas returns the midpoint of the two middle ones; it is
    kept to the whole second below, which has the same hour. *)
Definition median (l : list Z) : Z :=
  let s := merge_sort Z.le l in
  let n := length s in
  if Nat.even n
  then (nth (n / 2 - 1) s 0 + nth (n / 2) s 0) / 2
  else nth (n / 2) s 0.

Definition minimum (l : list Z) : Z :=
  match l with [] => 0 | x :: l' => foldr Z.min x l' end.

Definition maximum (l : list Z) : Z :=
  match l with [] => 0 | x :: l' => foldr Z.max x l' end.

(** [.dt.hour] of an instant in the local time zone. *)
Definition hour `{Clock} (t : Z) : Z := ((t + utcoffset t) / 3600) mod 24.

(** ** Rows of the aggregation frames *)

(** A row of [segment_times] in [plot_hourly]: one trip crossing one
    segment. *)
Module SegmentTime.
Section Row.
Context {Geom : Type}.
Record t : Type := mk {
  index : nat;
  segment_id : string;
  trip_id : string;
  start_time : Z;
  geometry : Geom;
  enter_time : Z;
  exit_time : Z;
  travel_time : Q;
  hour_of_day : Z
}.
End Row.
Arguments t : clear implicits.
End SegmentTime.

(** A row of [hourly_segment_times] in [plot_hourly].  Of the columns of
    [describe], the count, the mean and the extremes are kept; the
    standard deviation and the quartiles are not computed here. *)
Module HourlyStat.
Section Row.
Context {Geom : Type}.
Record t : Type := mk {
  index : nat;
  segment_id : string;
  hour_of_day : Z;
  geometry : Geom;
  count : nat;
  mean : Q;
  min : Q;
  max : Q
}.
End Row.
Arguments t : clear implicits.
End HourlyStat.

(** A row of the frame [plot_hourly] hands to the renderer: the
    statistics, the column named by [time_col] and the attribute columns
    of a segment with the same identifier ([None] when there is none). *)
Module HourlyRow.
Section Row.
Context {Geom : Type}.
Record t : Type := mk {
  stat : HourlyStat.t Geom;
  time_value : Q;
  attributes : option (Segment.t Geom)
}.
End Row.
Arguments t : clear implicits.
End HourlyRow.

(** A row of [segment_times] in [plot_hourly_distributions]. *)
Module Crossing.
Section Row.
Context {Geom : Type}.
Record t : Type := mk {
  index : nat;
  pattern_name : string;
  segment_id : string;
  start_stop_name : string;
  start_stop_id : string;
  end_stop_name : string;
  end_stop_id : string;
  trip_id : string;
  start_time : Z;
  shape : Geom;
  enter_time : Z;
  exit_time : Z;
  stop_sequence : Z;
  travel_time : Q;
  hour_of_day : Z
}.
End Row.
Arguments t : clear implicits.
End Crossing.

(** A row of [hourly_segment_times] in [plot_hourly_distributions]: its
    index label, the columns of the crossing ([None] when the frame
    holds NaN in all of them) and the segment name. *)
Module DistRow.
Section Row.
Context {Geom : Type}.
Record t : Type := mk {
  index : nat;
  crossing : option (Crossing.t Geom);
  segment_name : string
}.
End Row.
Arguments t : clear implicits.
End DistRow.

(** plotly express: the four figure constructors, with the parameters
    that carry data.  Colour scales, map style, height, zoom and the
    other keyword arguments are cosmetic and passed through unread. *)
Class Plotly (Geom Fig : Type) : Type := {
  scatter_mapbox : GeoFrame.t Geom -> result Fig;
  density_mapbox : GeoFrame.t Geom -> result Fig;
  choropleth_mapbox : list (HourlyRow.t Geom) -> string -> Q * Q -> result Fig;
  box : list (DistRow.t Geom) -> Q -> bool -> result Fig
}.

(** ** The schedule, the telemetry table and the [RouteInfo] object *)

Module Feed.
Section Obj.
Context {Geom : Type}.
Record t : Type := mk {
  segments : list (Segment.t Geom);
  trips_patterns : list TripPattern.t
}.
End Obj.
Arguments t : clear implicits.
End Feed.

(** The immutable attributes of a [RouteInfo]; [db_path] stands for the
    [vehicle_positions] table of the database it names. *)
Module RouteInfo.
Section Obj.
Context {Geom : Type}.
Record t : Type := mk {
  feed : Feed.t Geom;
  db_path : list VehiclePosition.t;
  route : string;
  directions : string * string;
  _segments : list (Segment.t Geom)
}.
End Obj.
Arguments t : clear implicits.
End RouteInfo.

(** A path is the list of its parts; [save_dir / filename] adds one. *)
Definition Path : Type := list string.
Definition path_join (save_dir : Path) (filename : string) : Path :=
  save_dir ++ [filename].

(** What the methods mutate: the [_point_data] dictionary of the object
    and the files written so far, oldest first. *)
Module State.
Section Obj.
Context {Geom Fig : Type}.
Record t : Type := mk {
  _point_data : gmap Z (GeoFrame.t Geom);
  written : list (Path * Fig)
}.
End Obj.
Arguments t : clear implicits.
End State.

(** Methods: a state transformer that returns or raises. *)
Definition M (Geom Fig A : Type) : Type :=
  State.t Geom Fig -> result A * State.t Geom Fig.

Section Monad.
Context {Geom Fig : Type}.

Definition ret {A} (a : A) : M Geom Fig A := fun st => (Ok a, st).

Definition bind {A B} (m : M Geom Fig A) (k : A -> M Geom Fig B) : M Geom Fig B :=
  fun st =>
    match m st with
    | (Ok a, st') => k a st'
    | (Raise e, st') => (Raise e, st')
    end.

Definition lift {A} (r : result A) : M Geom Fig A := fun st => (r, st).

(** [fig.write_html(path, ...)]. *)
Definition write_html (path : Path) (fig : Fig) : M Geom Fig unit :=
  fun st =>
    (Ok tt, State.mk (State._point_data st) (State.written st ++ [(path, fig)])).
End Monad.

Notation "'call' x <~ m ; k" := (bind m (fun x => k))
  (at level 10, x name, m at level 100, k at level 200).

(** ** The spatial join engine (utils.py, lines 30-122) *)

Definition by_timestamp (a b : VehiclePosition.t) : Prop :=
  VehiclePosition.timestamp a <= VehiclePosition.timestamp b.

#[global] Instance by_timestamp_dec : RelDecision by_timestamp.
Proof. intros a b. unfold by_timestamp. apply _. Defined.

Section Engine.
Context {Geom : Type} `{Geo Geom} `{Clock}.

(** [RouteInfo.__init__], without the empty dictionary it also makes. *)
Definition __init__ (feed : Feed.t Geom) (db_path : list VehiclePosition.t)
    (route : string) (directions : string * string) : RouteInfo.t Geom :=
  RouteInfo.mk feed db_path route directions
    (filter (fun s => Segment.route_id s = route) (Feed.segments feed)).

(** The query of [_vehicle_positions]: the rows of the route and
    direction, ordered by timestamp. *)
Definition read_sql_query (db : list VehiclePosition.t) (route : string)
    (direction : Z) : list VehiclePosition.t :=
  merge_sort by_timestamp
    (filter (fun r => VehiclePosition.route_id r = route
                      /\ VehiclePosition.direction_id r = direction) db).

(** [RouteInfo._vehicle_positions].  The timestamps of the table are
    taken to be instants pandas can hold ([pd.to_datetime] raises for
    one beyond the year 2262), and [speed_km] is the exact product
    where the program holds the nearest [float64]. *)
Definition _vehicle_positions (self : RouteInfo.t Geom) (direction : Z)
    : list (Ping.t Geom) :=
  imap (fun i r =>
          Ping.mk i r
            (hour (VehiclePosition.timestamp r))
            (VehiclePosition.speed r * (36 # 10))%Q
            (points_from_xy (VehiclePosition.longitude r)
                            (VehiclePosition.latitude r)))
       (read_sql_query (RouteInfo.db_path self) (RouteInfo.route self) direction).

Definition ping_to_crs (from to : CRS) (p : Ping.t Geom) : Ping.t Geom :=
  Ping.mk (Ping.index p) (Ping.row p) (Ping.hour_of_day p) (Ping.speed_km p)
          (transform from to (Ping.geometry p)).

Definition segment_to_crs (from to : CRS) (s : Segment.t Geom) : Segment.t Geom :=
  Segment.mk (Segment.route_id s) (Segment.direction_id s) (Segment.shape_id s)
    (Segment.segment_id s) (Segment.stop_sequence s)
    (Segment.start_stop_name s) (Segment.start_stop_id s)
    (Segment.end_stop_name s) (Segment.end_stop_id s)
    (Segment.distance_m s) (transform from to (Segment.geometry s)).

(** [GeoDataFrame.to_crs] on a frame of joined points: the active
    geometry column (the ping's point) is reprojected, the column
    [shape] is not. *)
Definition to_crs (to : CRS) (f : GeoFrame.t Geom) : GeoFrame.t Geom :=
  GeoFrame.mk to
    (map (fun p => Point.mk (ping_to_crs (GeoFrame.crs f) to (Point.ping p))
                            (Point.pattern p) (Point.segment p))
         (GeoFrame.rows f)).

(** The rows of [trips_patterns] whose join columns (trip, route and
    direction) are those of the ping. *)
Definition patterns_of (trips_patterns : list TripPattern.t) (p : Ping.t Geom)
    : list TripPattern.t :=
  filter (fun tp =>
            TripPattern.trip_id tp = VehiclePosition.trip_id (Ping.row p)
            /\ TripPattern.route_id tp = VehiclePosition.route_id (Ping.row p)
            /\ TripPattern.direction_id tp
               = VehiclePosition.direction_id (Ping.row p))
         trips_patterns.

(** [vehicle_positions.join(trips_patterns.set_index(join_cols),
    on=join_cols)]: a left join, one row per matching pattern row and
    one row without pattern columns when none matches. *)
Definition join_patterns (vehicle_positions : list (Ping.t Geom))
    (trips_patterns : list TripPattern.t)
    : list (Ping.t Geom * option TripPattern.t) :=
  flat_map
    (fun p =>
       match patterns_of trips_patterns p with
       | [] => [(p, None)]
       | ms => map (fun tp => (p, Some tp)) ms
       end)
    vehicle_positions.

(** The smallest distance from [g] to the geometries of [right]. *)
Definition nearest_distance (g : Geom) (s : Segment.t Geom)
    (right : list (Segment.t Geom)) : Q :=
  foldr (fun s' m => Qmin (distance g (Segment.geometry s')) m)
        (distance g (Segment.geometry s)) right.

(** The rows of [right] that [sjoin_nearest] attaches to [g]: every
    row at the smallest distance, when that distance is within
    [max_distance]. *)
Definition nearest (g : Geom) (right : list (Segment.t Geom)) (max_distance : Q)
    : list (Segment.t Geom) :=
  match right with
  | [] => []
  | s :: right' =>
      let d := nearest_distance g s right' in
      if decide (d <= max_distance)%Q
      then filter (fun s' => (distance g (Segment.geometry s') == d)%Q) right
      else []
  end.

(** [left.sjoin_nearest(right, max_distance=...)], an inner join. *)
Definition sjoin_nearest (left : list (Ping.t Geom * TripPattern.t))
    (right : list (Segment.t Geom)) (max_distance : Q) : list (Point.t Geom) :=
  flat_map
    (fun '(p, tp) =>
       map (fun s => Point.mk p tp s) (nearest (Ping.geometry p) right max_distance))
    left.

(** [segments_by_shape.get_group(name)]. *)
Definition get_group (route_segments : list (Segment.t Geom)) (name : string)
    : result (list (Segment.t Geom)) :=
  match filter (fun s => Segment.shape_id s = name) route_segments with
  | [] => Raise (KeyError name)
  | g => Ok g
  end.

(** The rows that have a pattern; [groupby("shape_id")] drops the
    others. *)
Definition dropna (l : list (Ping.t Geom * option TripPattern.t))
    : list (Ping.t Geom * TripPattern.t) :=
  omap (fun '(p, o) => match o with Some tp => Some (p, tp) | None => None end) l.

(** Lines 105-107: the segments of the direction, projected. *)
Definition route_segments (self : RouteInfo.t Geom) (direction : Z)
    : list (Segment.t Geom) :=
  map (segment_to_crs WGS84 EPSG26910)
      (filter (fun s => Segment.direction_id s = direction)
              (RouteInfo._segments self)).

(** Lines 110-113: the pings, projected and joined to their patterns. *)
Definition patterned_positions (self : RouteInfo.t Geom) (direction : Z)
    : list (Ping.t Geom * option TripPattern.t) :=
  join_patterns (map (ping_to_crs WGS84 EPSG26910) (_vehicle_positions self direction))
                (Feed.trips_patterns (RouteInfo.feed self)).

(** Lines 104-121: the frame [points] computes on a cache miss.  When
    no ping of the direction has a pattern, [groupby("shape_id")] has
    no group; [apply] then returns an empty frame that has no
    reference system, and [points.to_crs("WGS-84")] in line 121 raises
    a [ValueError] ("cannot transform naive geometries") before
    anything is stored or returned.  With a group, the frame is in
    the reference system of the groups. *)
Definition join_points (self : RouteInfo.t Geom) (direction : Z)
    : result (GeoFrame.t Geom) :=
  let route_segments := route_segments self direction in
  let vehicle_positions := patterned_positions self direction in
  rbind
    (mapM (fun '(name, x) =>
             rbind (get_group route_segments name)
                   (fun g => Ok (sjoin_nearest x g 12)))
          (groupby (fun r => TripPattern.shape_id (snd r)) (dropna vehicle_positions)))
    (fun groups =>
       match groups with
       | [] => Raise ValueErrorNaiveGeometries
       | _ => Ok (GeoFrame.mk EPSG26910 (concat groups))
       end).

Context {Fig : Type}.

(** [RouteInfo.points]. *)
Definition points (self : RouteInfo.t Geom) (direction : Z)
    : M Geom Fig (GeoFrame.t Geom) :=
  fun st =>
    match State._point_data st !! direction with
    | Some points => (Ok points, st)
    | None =>
        match join_points self direction with
        | Ok points =>
            (Ok points,
             State.mk (<[direction := to_crs WGS84 points]> (State._point_data st))
                      (State.written st))
        | Raise e => (Raise e, st)
        end
    end.
End Engine.

(** ** File names *)

(** [self.directions[direction]] on the pair of labels; Python also
    accepts the negative positions. *)
Definition tuple_getitem (t : string * string) (i : Z) : result string :=
  if decide (i = 0 \/ i = -2) then Ok (fst t)
  else if decide (i = 1 \/ i = -1) then Ok (snd t)
  else Raise IndexError.

(** [f"{reference_hour}"] for an optional integer. *)
Definition format_optional (o : option Z) : string :=
  match o with
  | None => "None"
  | Some h => pretty h
  end.

(** [f"{reference_hour:02d}"]. *)
Definition format_02d (h : Z) : string :=
  if decide (0 <= h < 10) then "0" +:+ pretty h else pretty h.

(** [f"{direction}-{self.directions[direction]}_{view}.html"]. *)
Definition filename {Geom} (self : RouteInfo.t Geom) (direction : Z) (view : string)
    : result string :=
  rbind (tuple_getitem (RouteInfo.directions self) direction)
        (fun label => Ok (pretty direction +:+ "-" +:+ label +:+ "_" +:+ view +:+ ".html")).

Section Save.
Context {Geom Fig : Type}.

(** The closing lines of every plot method: write the figure when a
    directory is given, return it. *)
Definition save (self : RouteInfo.t Geom) (direction : Z) (view : string)
    (save_dir : option Path) (fig : Fig) : M Geom Fig Fig :=
  match save_dir with
  | Some dir =>
      call name <~ lift (filename self direction view);
      call _u <~ write_html (path_join dir name) fig;
      ret fig
  | None => ret fig
  end.
End Save.

(** ** Point map and slow-zone map (utils.py, lines 124-207) *)

Section PointMaps.
Context {Geom Fig : Type} `{Geo Geom} `{Clock} `{Plotly Geom Fig}.

Definition plot_points (self : RouteInfo.t Geom) (direction : Z)
    (save_dir : option Path) : M Geom Fig Fig :=
  call points <~ points self direction;
  call fig <~ lift (scatter_mapbox points);
  save self direction "points" save_dir fig.

Definition plot_slow_zones (self : RouteInfo.t Geom) (direction : Z)
    (threshold : Q) (save_dir : option Path) : M Geom Fig Fig :=
  call all_points <~ points self direction;
  let points :=
    GeoFrame.mk (GeoFrame.crs all_points)
      (filter (fun p => (Ping.speed_km (Point.ping p) < threshold)%Q)
              (GeoFrame.rows all_points)) in
  call fig <~ lift (density_mapbox points);
  save self direction "slow_zones" save_dir fig.
End PointMaps.

(** ** Hourly statistics per segment (utils.py, lines 209-304) *)

Definition Qminimum (l : list Q) : Q :=
  match l with [] => 0%Q | x :: l' => foldr Qmin x l' end.

Definition Qmaximum (l : list Q) : Q :=
  match l with [] => 0%Q | x :: l' => foldr Qmax x l' end.

(** The table [pivot_table] builds: row labels, column labels and the
    cells, [None] where the table holds NaN. *)
Record PivotTable : Type := {
  pt_index : list Z;
  pt_columns : list string;
  pt_cell : Z -> string -> option Q
}.

(** [Series.__getitem__] by label on a Series given as label/value
    pairs. *)
Fixpoint getitem (s : list (string * Q)) (label : string) : result Q :=
  match s with
  | [] => Raise (KeyError label)
  | (k, v) :: s' => if decide (k = label) then Ok v else getitem s' label
  end.

Module PlotHourly.
Section Method.
Context {Geom Fig : Type} `{Geo Geom} `{Clock} `{Plotly Geom Fig}.

(** Lines 223-235: one row per (segment_id, trip_id, start_time,
    shape) with the first, last and median timestamp of the group. *)
Definition segment_times (points : GeoFrame.t Geom) : list (SegmentTime.t Geom) :=
  imap
    (fun i '((segment_id, trip_id, start_time, shape), g) =>
       let ts := map Point.timestamp g in
       SegmentTime.mk i segment_id trip_id start_time shape
         (minimum ts) (maximum ts)
         (inject_Z (maximum ts - minimum ts))
         (hour (median ts)))
    (groupby (fun p => (Point.segment_id p, Point.trip_id p,
                        Point.start_time p, Point.shape p))
             (GeoFrame.rows points)).

(** Lines 236-242. *)
Definition hourly_segment_times (segment_times : list (SegmentTime.t Geom))
    : list (HourlyStat.t Geom) :=
  imap
    (fun i '((segment_id, hour_of_day, geometry), g) =>
       let tt := map SegmentTime.travel_time g in
       HourlyStat.mk i segment_id hour_of_day geometry
         (length tt) (Qmean tt) (Qminimum tt) (Qmaximum tt))
    (groupby (fun c => (SegmentTime.segment_id c, SegmentTime.hour_of_day c,
                        SegmentTime.geometry c))
             (filter (fun c => (0 < SegmentTime.travel_time c)%Q) segment_times)).

(** [pivot_table(index="hour_of_day", columns="segment_id",
    values="mean")]: a cell is the mean of the column [mean] over
    the rows of that hour and segment identifier. *)
Definition pivot_table (stats : list (HourlyStat.t Geom)) : PivotTable :=
  {| pt_index := unique_keys (map HourlyStat.hour_of_day stats);
     pt_columns := unique_keys (map HourlyStat.segment_id stats);
     pt_cell := fun h s =>
       match filter (fun r => HourlyStat.hour_of_day r = h
                              /\ HourlyStat.segment_id r = s) stats with
       | [] => None
       | rs => Some (Qmean (map HourlyStat.mean rs))
       end |}.

(** [.loc[label]] on the rows of a pivot table. *)
Definition loc (t : PivotTable) (label : Z) : result (list (string * option Q)) :=
  if decide (label ∈ pt_index t)
  then Ok (map (fun s => (s, pt_cell t label s)) (pt_columns t))
  else Raise (KeyErrorHour label).

Definition fillna (v : Q) (s : list (string * option Q)) : list (string * Q) :=
  map (fun '(k, o) => (k, default v o)) s.

(** Looking up the key column [name] of the statistics.  When no
    crossing has a positive travel time, [describe] is applied to no
    group and the frame of lines 236-242 comes without the key
    columns: the lookup raises [KeyError]. *)
Definition key_column (name : string) (stats : list (HourlyStat.t Geom))
    : result unit :=
  match stats with
  | [] => Raise (KeyError name)
  | _ => Ok tt
  end.

(** Lines 246-253; [pivot_table] looks up its index column first. *)
Definition ref_times (stats : list (HourlyStat.t Geom)) (reference_hour : Z)
    : result (list Q) :=
  rbind (key_column "hour_of_day" stats)
        (fun _ =>
           rbind (loc (pivot_table stats) reference_hour)
                 (fun row => mapM (getitem (fillna 0%Q row))
                                  (map HourlyStat.segment_id stats))).

(** Lines 244-256: the name of the coloured column and its value in
    every row. *)
Definition time_column (stats : list (HourlyStat.t Geom)) (reference_hour : option Z)
    : result (string * list (HourlyStat.t Geom * Q)) :=
  match reference_hour with
  | None => Ok ("mean", map (fun r => (r, HourlyStat.mean r)) stats)
  | Some h =>
      rbind (ref_times stats h)
            (fun refs =>
               Ok ("mean_diff_" +:+ format_02d h,
                   zip_with (fun r ref => (r, (HourlyStat.mean r - ref)%Q)) stats refs))
  end.

(** Lines 258-261: the left join with the route's segments. *)
Definition join_segments (rows : list (HourlyStat.t Geom * Q))
    (segments : list (Segment.t Geom)) : list (HourlyRow.t Geom) :=
  flat_map
    (fun '(r, v) =>
       match filter (fun s => Segment.segment_id s = HourlyStat.segment_id r)
                    segments with
       | [] => [HourlyRow.mk r v None]
       | ms => map (fun s => HourlyRow.mk r v (Some s)) ms
       end)
    rows.

Definition by_hour (a b : HourlyRow.t Geom) : Prop :=
  HourlyStat.hour_of_day (HourlyRow.stat a) <= HourlyStat.hour_of_day (HourlyRow.stat b).

#[global] Instance by_hour_dec : RelDecision by_hour.
Proof. intros a b. unfold by_hour. apply _. Defined.

(** [RouteInfo.plot_hourly].  The join of line 258 looks up the
    column [segment_id] of the statistics.  The buffered outlines
    are built from the frame's geometry column and belong to the
    renderer. *)
Definition plot_hourly (self : RouteInfo.t Geom) (direction : Z)
    (time_range : Q * Q) (reference_hour : option Z) (save_dir : option Path)
    : M Geom Fig Fig :=
  call points <~ points self direction;
  let hourly_segment_times := hourly_segment_times (segment_times points) in
  call coloured <~ lift (time_column hourly_segment_times reference_hour);
  call _k <~ lift (key_column "segment_id" hourly_segment_times);
  let frame :=
    merge_sort by_hour (join_segments (snd coloured) (RouteInfo._segments self)) in
  call fig <~ lift (choropleth_mapbox frame (fst coloured) time_range);
  save self direction ("hourly_" +:+ format_optional reference_hour) save_dir fig.
End Method.
End PlotHourly.

(** ** Travel-time distributions (utils.py, lines 306-390) *)

Module PlotHourlyDistributions.
Section Method.
Context {Geom Fig : Type} `{Geo Geom} `{Clock} `{Plotly Geom Fig}.

(** Lines 317-345: one row per group of the nine key columns; the
    stop sequence of the group is its [strictmode]. *)
Definition segment_times (points : GeoFrame.t Geom)
    : result (list (Crossing.t Geom)) :=
  mapM
    (fun '(i, (k, g)) =>
       let '(pattern_name, segment_id, start_stop_name, start_stop_id,
             end_stop_name, end_stop_id, trip_id, start_time, shape) := k in
       let ts := map Point.timestamp g in
       rbind (strictmode (Series.mk "stop_sequence" (map Point.stop_sequence g)))
             (fun stop_sequence =>
                Ok (Crossing.mk i pattern_name segment_id start_stop_name
                      start_stop_id end_stop_name end_stop_id trip_id start_time
                      shape (minimum ts) (maximum ts) stop_sequence
                      (inject_Z (maximum ts - minimum ts))
                      (hour (median ts)))))
    (imap (fun i kg => (i, kg))
       (groupby (fun p => (Point.pattern_name p, Point.segment_id p,
                           Segment.start_stop_name (Point.segment p),
                           Segment.start_stop_id (Point.segment p),
                           Segment.end_stop_name (Point.segment p),
                           Segment.end_stop_id (Point.segment p),
                           Point.trip_id p, Point.start_time p, Point.shape p))
                (GeoFrame.rows points))).

(** The order of [sort_values(["hour_of_day", "pattern_name",
    "stop_sequence"])]; rows of NaN come last. *)
Definition by_hour_pattern_stop (a b : DistRow.t Geom) : Prop :=
  match DistRow.crossing a, DistRow.crossing b with
  | Some ca, Some cb =>
      Crossing.hour_of_day ca < Crossing.hour_of_day cb
      \/ (Crossing.hour_of_day ca = Crossing.hour_of_day cb
          /\ (String.ltb (Crossing.pattern_name ca) (Crossing.pattern_name cb) = true
              \/ (Crossing.pattern_name ca = Crossing.pattern_name cb
                  /\ Crossing.stop_sequence ca <= Crossing.stop_sequence cb)))
  | _, None => True
  | None, Some _ => False
  end.

#[global] Instance by_hour_pattern_stop_dec : RelDecision by_hour_pattern_stop.
Proof.
  intros a b. unfold by_hour_pattern_stop.
  destruct (DistRow.crossing a), (DistRow.crossing b); apply _.
Defined.

(** Line 350: the name of a crossing's segment. *)
Definition segment_name (c : Crossing.t Geom) : string :=
  Crossing.start_stop_name c +:+ " ... " +:+ Crossing.end_stop_name c.

(** Lines 346-354: the clip filter, the segment name and the sort.
    The names are computed on the unfiltered frame and assigned by
    index label, so that a filtered frame takes the names of its
    rows.  A frame the filter left without rows takes the whole
    index of the assigned column instead: every crossing has a row
    again, NaN in every column but the name. *)
Definition hourly_segment_times (segment_times : list (Crossing.t Geom))
    (clip_threshold : Q) : list (DistRow.t Geom) :=
  let kept :=
    filter (fun c => (0 < Crossing.travel_time c)%Q
                     /\ (Crossing.travel_time c < clip_threshold)%Q)
           segment_times in
  merge_sort by_hour_pattern_stop
    match kept with
    | [] => map (fun c => DistRow.mk (Crossing.index c) None (segment_name c))
                segment_times
    | _ => map (fun c => DistRow.mk (Crossing.index c) (Some c) (segment_name c))
               kept
    end.

(** [RouteInfo.plot_hourly_distributions]; the renderer stands for
    [px.box] and the trace and annotation updates that follow it. *)
Definition plot_hourly_distributions (self : RouteInfo.t Geom) (direction : Z)
    (clip_threshold : Q) (show_variants : bool) (save_dir : option Path)
    : M Geom Fig Fig :=
  call points <~ points self direction;
  call segment_times <~ lift (segment_times points);
  let hourly_segment_times := hourly_segment_times segment_times clip_threshold in
  call fig <~ lift (box hourly_segment_times clip_threshold show_variants);
  save self direction "distr_hourly" save_dir fig.
End Method.
End PlotHourlyDistributions.

(** ** A synthetic world for the examples

    One straight street: a geometry is a position or a stretch of the
    street, in metres; the same numbers serve in both reference systems
    and the longitude column holds the position.  The clock is at
    UTC-7, and a figure is the number of rows it draws. *)

Module Street.

Inductive geom : Type :=
  | At (x : Z)
  | Span (a b : Z).

#[global] Instance geom_eq_dec : EqDecision geom.
Proof. solve_decision. Defined.

Definition dist (g1 g2 : geom) : Q :=
  inject_Z
    match g1, g2 with
    | At x, At y => Z.abs (x - y)
    | At x, Span a b => Z.max 0 (Z.max (a - x) (x - b))
    | Span a b, At x => Z.max 0 (Z.max (a - x) (x - b))
    | Span a b, Span c d => Z.max 0 (Z.max (c - b) (a - d))
    end.

#[global] Instance geo : Geo geom := {|
  points_from_xy := fun lon _ => At (Qfloor lon);
  distance := dist;
  transform := fun _ _ g => g
|}.

#[global] Instance clock : Clock := {| utcoffset := fun _ => -25200 |}.

#[global] Instance plotly : Plotly geom nat := {|
  scatter_mapbox := fun f => Ok (length (GeoFrame.rows f));
  density_mapbox := fun f => Ok (length (GeoFrame.rows f));
  choropleth_mapbox := fun rows _ _ => Ok (length rows);
  box := fun rows _ _ => Ok (length rows)
|}.

(** A ping of route 6-VIC, direction 0, at position [x] and time [t]. *)
Definition ping (trip : string) (start t x : Z) : VehiclePosition.t :=
  VehiclePosition.mk 0%Q (inject_Z x) start t 10%Q 0%Q "bus" "6-VIC" 0 "stop"
    "IN_TRANSIT_TO" trip.

(** The segment of shape [shape] between two stops, over [a, b]. *)
Definition segment (shape from to : string) (seq a b : Z) : Segment.t geom :=
  Segment.mk "6-VIC" 0 shape (from +:+ "-" +:+ to) seq from from to to
    (inject_Z (b - a)) (Span a b).

Definition trip (trip shape : string) : TripPattern.t :=
  TripPattern.mk trip "6-VIC" 0 shape "Royal Oak via Quadra".

Definition route_info (segments : list (Segment.t geom))
    (trips : list TripPattern.t) (db : list VehiclePosition.t) : RouteInfo.t geom :=
  __init__ (Feed.mk segments trips) db "6-VIC" ("Royal Oak", "Downtown").

Definition fresh : State.t geom nat := State.mk ∅ [].

(** The frame [join_points] returns for direction 0. *)
Definition joined (self : RouteInfo.t geom) : GeoFrame.t geom :=
  match join_points self 0 with
  | Ok f => f
  | Raise _ => GeoFrame.mk EPSG26910 []
  end.

(** The state after the first call of [points] for direction 0. *)
Definition cached (self : RouteInfo.t geom) : State.t geom nat :=
  State.mk {[ 0 := to_crs WGS84 (joined self) ]} [].

(** 2024-09-09 08:00:00 in Vancouver. *)
Definition eight_am : Z := 1725894000.

(** One segment, one shape, one trip with three pings on the segment. *)
Definition one_segment : RouteInfo.t geom :=
  route_info [segment "S1" "A" "B" 1 0 100] [trip "T1" "S1"]
    [ping "T1" eight_am eight_am 10;
     ping "T1" eight_am (eight_am + 30) 50;
     ping "T1" eight_am (eight_am + 60) 90].

(** Two consecutive segments and a ping at the stop they share. *)
Definition shared_stop : RouteInfo.t geom :=
  route_info [segment "S1" "A" "B" 1 0 100; segment "S1" "B" "C" 2 100 200]
    [trip "T1" "S1"]
    [ping "T1" eight_am eight_am 100].

(** Two patterns whose shapes both run from stop A to stop B, cut a
    metre apart; one trip on each, both in the eight o'clock hour, the
    first crossing in 10 seconds and the second in 20. *)
Definition two_shapes : RouteInfo.t geom :=
  route_info [segment "S1" "A" "B" 1 0 100; segment "S2" "A" "B" 1 0 101]
    [trip "T1" "S1"; trip "T2" "S2"]
    [ping "T1" eight_am eight_am 10;
     ping "T1" eight_am (eight_am + 10) 20;
     ping "T2" (eight_am + 300) (eight_am + 300) 10;
     ping "T2" (eight_am + 300) (eight_am + 320) 30].

End Street.

(** ** Notions the statements use *)

(** [v] is a most frequent value of [s]. *)
Definition most_frequent (s : list Z) (v : Z) : Prop :=
  In v s /\ forall w, (Series.count w s <= Series.count v s)%nat.

Section Notions.
Context {Geom : Type} `{Geo Geom} `{Clock}.

(** The segments of one shape among the projected segments of the
    direction: the group [sjoin_nearest] searches for a ping of that
    shape. *)
Definition shape_group (self : RouteInfo.t Geom) (direction : Z) (name : string)
    : list (Segment.t Geom) :=
  filter (fun s => Segment.shape_id s = name) (route_segments self direction).

(** The rows [sjoin_nearest] makes of one patterned ping. *)
Definition attach (self : RouteInfo.t Geom) (direction : Z)
    (e : Ping.t Geom * TripPattern.t) : list (Point.t Geom) :=
  map (fun s => Point.mk (fst e) (snd e) s)
      (nearest (Ping.geometry (fst e))
               (shape_group self direction (TripPattern.shape_id (snd e))) 12).

(** The rows of a frame that belong to the ping with index label [i]. *)
Definition rows_of_ping (i : nat) (f : GeoFrame.t Geom) : list (Point.t Geom) :=
  filter (fun p => Point.index p = i) (GeoFrame.rows f).

(** The crossings with a positive travel time in the bucket of a
    segment identifier, an hour of the day and a geometry. *)
Definition crossings_in_bucket (segment_times : list (SegmentTime.t Geom))
    (segment_id : string) (hour_of_day : Z) (geometry : Geom)
    : list (SegmentTime.t Geom) :=
  filter (fun c => (0 < SegmentTime.travel_time c)%Q
                   /\ SegmentTime.segment_id c = segment_id
                   /\ SegmentTime.hour_of_day c = hour_of_day
                   /\ SegmentTime.geometry c = geometry)
         segment_times.

(** The rows of the statistics at the reference hour that carry a
    given segment identifier. *)
Definition reference_rows (stats : list (HourlyStat.t Geom)) (reference_hour : Z)
    (segment_id : string) : list (HourlyStat.t Geom) :=
  filter (fun r => HourlyStat.hour_of_day r = reference_hour
                   /\ HourlyStat.segment_id r = segment_id) stats.

(** The ping of index label [i] made of the table row [v], projected. *)
Definition projected_ping (i : nat) (v : VehiclePosition.t) : Ping.t Geom :=
  ping_to_crs WGS84 EPSG26910
    (Ping.mk i v (hour (VehiclePosition.timestamp v))
       (VehiclePosition.speed v * (36 # 10))%Q
       (points_from_xy (VehiclePosition.longitude v) (VehiclePosition.latitude v))).

(** A route whose schedule has one segment and one trip pattern and
    whose table has three rows. *)
Definition three_ping_route (route : string) (directions : string * string)
    (s : Segment.t Geom) (tp : TripPattern.t) (v1 v2 v3 : VehiclePosition.t)
    : RouteInfo.t Geom :=
  __init__ (Feed.mk [s] [tp]) [v1; v2; v3] route directions.

(** Every frame in the dictionary was put there by [points]. *)
Definition cache_consistent {Fig} (self : RouteInfo.t Geom) (st : State.t Geom Fig)
    : Prop :=
  forall direction f,
    State._point_data st !! direction = Some f ->
    exists f0, join_points self direction = Ok f0 /\ f = to_crs WGS84 f0.

(** A method keeps the dictionary consistent. *)
Definition keeps_cache {Fig A} (self : RouteInfo.t Geom) (m : M Geom Fig A) : Prop :=
  forall st (r : result A) st',
    m st = (r, st') -> cache_consistent self st -> cache_consistent self st'.
End Notions.

(** The four views, with the arguments of their methods that are not
    cosmetic, and the word each puts in its file name. *)
Inductive View : Type :=
  | PointMap
  | SlowZones (threshold : Q)
  | HourlyChoropleth (time_range : Q * Q) (reference_hour : option Z)
  | HourlyDistributions (clip_threshold : Q) (show_variants : bool).

Definition view_name (v : View) : string :=
  match v with
  | PointMap => "points"
  | SlowZones _ => "slow_zones"
  | HourlyChoropleth _ reference_hour => "hourly_" +:+ format_optional reference_hour
  | HourlyDistributions _ _ => "distr_hourly"
  end.

Section Views.
Context {Geom Fig : Type} `{Geo Geom} `{Clock} `{Plotly Geom Fig}.

(** The method that renders a view. *)
Definition render (self : RouteInfo.t Geom) (direction : Z) (v : View)
    (save_dir : option Path) : M Geom Fig Fig :=
  match v with
  | PointMap => plot_points self direction save_dir
  | SlowZones threshold => plot_slow_zones self direction threshold save_dir
  | HourlyChoropleth time_range reference_hour =>
      PlotHourly.plot_hourly self direction time_range reference_hour save_dir
  | HourlyDistributions clip_threshold show_variants =>
      PlotHourlyDistributions.plot_hourly_distributions self direction
        clip_threshold show_variants save_dir
  end.
End Views.

(** ** More notions for the statements *)

Section MoreNotions.
Context {Geom : Type} `{Geo Geom} `{Clock}.

(** The joined points a crossing of [plot_hourly] is made of. *)
Definition crossing_points (points : GeoFrame.t Geom) (c : SegmentTime.t Geom)
    : list (Point.t Geom) :=
  filter (fun p => (Point.segment_id p, Point.trip_id p, Point.start_time p,
                    Point.shape p)
                   = (SegmentTime.segment_id c, SegmentTime.trip_id c,
                      SegmentTime.start_time c, SegmentTime.geometry c))
         (GeoFrame.rows points).

(** The key columns of [plot_hourly_distributions]. *)
Definition distribution_key (p : Point.t Geom)
    : string * string * string * string * string * string * string * Z * Geom :=
  (Point.pattern_name p, Point.segment_id p,
   Segment.start_stop_name (Point.segment p),
   Segment.start_stop_id (Point.segment p),
   Segment.end_stop_name (Point.segment p),
   Segment.end_stop_id (Point.segment p),
   Point.trip_id p, Point.start_time p, Point.shape p).

(** The key columns of the hourly statistics. *)
Definition stat_key (r : HourlyStat.t Geom) : string * Z * Geom :=
  (HourlyStat.segment_id r, HourlyStat.hour_of_day r, HourlyStat.geometry r).

(** What a row of a frame of joined points holds besides the point
    geometry. *)
Definition row_data (p : Point.t Geom)
    : nat * VehiclePosition.t * Z * Q * TripPattern.t * Segment.t Geom :=
  (Point.index p, Ping.row (Point.ping p), Ping.hour_of_day (Point.ping p),
   Ping.speed_km (Point.ping p), Point.pattern p, Point.segment p).

(** A method leaves every frame of the dictionary in place. *)
Definition keeps_entries {Fig A : Type} (m : M Geom Fig A) : Prop :=
  forall st (r : result A) st' (direction : Z) (f : GeoFrame.t Geom),
    m st = (r, st') ->
    State._point_data st !! direction = Some f ->
    State._point_data st' !! direction = Some f.
End MoreNotions.

(** ** The figure of a view *)

Section Figures.
Context {Geom Fig : Type} `{Geo Geom} `{Clock} `{Plotly Geom Fig}.

(** What a plot method draws from the frame of joined points. *)
Definition draw (self : RouteInfo.t Geom) (v : View) (points : GeoFrame.t Geom)
    : result Fig :=
  match v with
  | PointMap => scatter_mapbox points
  | SlowZones threshold =>
      density_mapbox
        (GeoFrame.mk (GeoFrame.crs points)
           (filter (fun p => (Ping.speed_km (Point.ping p) < threshold)%Q)
                   (GeoFrame.rows points)))
  | HourlyChoropleth time_range reference_hour =>
      let hourly_segment_times :=
        PlotHourly.hourly_segment_times (PlotHourly.segment_times points) in
      rbind (PlotHourly.time_column hourly_segment_times reference_hour)
            (fun coloured =>
               rbind (PlotHourly.key_column "segment_id" hourly_segment_times)
                     (fun _ =>
                        choropleth_mapbox
                          (merge_sort PlotHourly.by_hour
                             (PlotHourly.join_segments (snd coloured)
                                (RouteInfo._segments self)))
                          (fst coloured) time_range))
  | HourlyDistributions clip_threshold show_variants =>
      rbind (PlotHourlyDistributions.segment_times points)
            (fun segment_times =>
               box (PlotHourlyDistributions.hourly_segment_times segment_times
                      clip_threshold)
                   clip_threshold show_variants)
  end.

(** What a plot method does before its closing lines: the frame of
    the direction and the figure drawn from it.  The closing lines
    write the figure when a directory is given; three of the methods
    then return it, [plot_hourly_distributions] ends there. *)
Definition figure (self : RouteInfo.t Geom) (direction : Z) (v : View)
    : M Geom Fig Fig :=
  call points <~ points self direction;
  lift (draw self v points).

(** A method that writes no file. *)
Definition never_writes {A : Type} (m : M Geom Fig A) : Prop :=
  forall st (r : result A) st', m st = (r, st') -> State.written st' = State.written st.
End Figures.

(** ** The script (delay_analysis.py) *)

Module DelayAnalysis.
Section Script.
Context {Geom Fig : Type} `{Geo Geom} `{Clock} `{Plotly Geom Fig}.

(** The three files of one pass of the loop. *)
Definition direction_files (route_dir : Path) (direction : Z) (label : string)
    (points distributions slow_zones : Fig) : list (Path * Fig) :=
  [(path_join route_dir
      (pretty direction +:+ "-" +:+ label +:+ "_points.html"), points);
   (path_join route_dir
      (pretty direction +:+ "-" +:+ label +:+ "_distr_hourly.html"), distributions);
   (path_join route_dir
      (pretty direction +:+ "-" +:+ label +:+ "_slow_zones.html"), slow_zones)].

(** The body of the loop over the directions, with the defaults of
    the methods (a threshold of 15 km/h, a clip of 1000 s, no
    variants). *)
Definition plot_direction (route : RouteInfo.t Geom) (route_dir : Path)
    (direction : Z) : M Geom Fig unit :=
  call _p <~ plot_points route direction (Some route_dir);
  call _d <~ PlotHourlyDistributions.plot_hourly_distributions route direction
               1000 false (Some route_dir);
  call _s <~ plot_slow_zones route direction 15 (Some route_dir);
  ret tt.

(** [for direction in range(2): ...]. *)
Definition plot_directions (route : RouteInfo.t Geom) (route_dir : Path)
    : M Geom Fig unit :=
  call _u <~ plot_direction route route_dir 0;
  plot_direction route route_dir 1.

(** One block of the script: a new [RouteInfo], whose dictionary is
    empty, and the loop.  The directory is made beforehand by
    [mkdir(exist_ok=True)]. *)
Definition plot_route_views (feed : Feed.t Geom) (db_path : list VehiclePosition.t)
    (route : string) (directions : string * string) (route_dir : Path)
    : M Geom Fig unit :=
  fun st =>
    plot_directions (__init__ feed db_path route directions) route_dir
      (State.mk ∅ (State.written st)).

(** The four blocks of the script. *)
Definition main (feed : Feed.t Geom) (db_path : list VehiclePosition.t)
    : M Geom Fig unit :=
  call _a <~ plot_route_views feed db_path "6-VIC" ("Royal Oak", "Downtown")
               ["figures"; "6-VIC"];
  call _b <~ plot_route_views feed db_path "10-VIC" ("Royal Jubilee", "James Bay")
               ["figures"; "10-VIC"];
  call _c <~ plot_route_views feed db_path "26-VIC" ("UVic", "Dockyard")
               ["figures"; "26-VIC"];
  plot_route_views feed db_path "24-VIC" ("Cedar Hill", "Tillicum Ctr")
    ["figures"; "24-VIC"].
End Script.
End DelayAnalysis.

(** ** More of the synthetic world *)

Module Street2.
Import Street.


(** A trip whose pattern names a shape that has no segment. *)
Definition lost_shape : RouteInfo.t geom :=
  route_info [segment "S1" "A" "B" 1 0 100] [trip "T1" "S9"]
    [ping "T1" eight_am eight_am 10].

(** A trip of the schedule and a trip that is not in the
    trip-to-pattern mapping, with a ping each. *)
Definition unknown_trip : RouteInfo.t geom :=
  route_info [segment "S1" "A" "B" 1 0 100] [trip "T1" "S1"]
    [ping "T1" eight_am eight_am 10;
     ping "T7" eight_am (eight_am + 30) 50].

(** A table whose only trip is not in the trip-to-pattern mapping. *)
Definition no_pattern : RouteInfo.t geom :=
  route_info [segment "S1" "A" "B" 1 0 100] [trip "T1" "S1"]
    [ping "T7" eight_am eight_am 10].

(** A trip seen by one ping on the first segment and by two on the
    second. *)
Definition single_ping : RouteInfo.t geom :=
  route_info [segment "S1" "A" "B" 1 0 100; segment "S1" "B" "C" 2 200 300]
    [trip "T1" "S1"]
    [ping "T1" eight_am eight_am 50;
     ping "T1" eight_am (eight_am + 60) 220;
     ping "T1" eight_am (eight_am + 90) 280].

(** A shape that runs between the stops A and B twice, as its first
    and as its fifth segment, and a ping on that stretch. *)
Definition loop : RouteInfo.t geom :=
  route_info [segment "S1" "A" "B" 1 0 100; segment "S1" "A" "B" 5 0 100]
    [trip "T1" "S1"]
    [ping "T1" eight_am eight_am 50].

(** A route whose table, schedule and pings also use a direction 2. *)
Definition third_direction : RouteInfo.t geom :=
  __init__
    (Feed.mk [Segment.mk "6-VIC" 2 "S1" "A-B" 1 "A" "A" "B" "B" 100%Q (Span 0 100)]
             [TripPattern.mk "T1" "6-VIC" 2 "S1" "Royal Oak via Quadra"])
    [VehiclePosition.mk 0%Q 10%Q eight_am eight_am 10%Q 0%Q "bus" "6-VIC" 2 "stop"
       "IN_TRANSIT_TO" "T1"]
    "6-VIC" ("Royal Oak", "Downtown").

(** One segment, one trip and one ping of a route in a direction. *)
Definition segment_of (route : string) (direction : Z) : Segment.t geom :=
  Segment.mk route direction (route +:+ "/" +:+ pretty direction) "A-B" 1
    "A" "A" "B" "B" 100%Q (Span 0 100).

Definition trip_of (route : string) (direction : Z) : TripPattern.t :=
  TripPattern.mk (route +:+ "#" +:+ pretty direction) route direction
    (route +:+ "/" +:+ pretty direction) "main".

Definition ping_of (route : string) (direction : Z) (t : Z) (x : Z)
    : VehiclePosition.t :=
  VehiclePosition.mk 0%Q (inject_Z x) eight_am t 10%Q 0%Q "bus" route direction
    "stop" "IN_TRANSIT_TO" (route +:+ "#" +:+ pretty direction).

(** A schedule and a table with the four routes of the script, each
    with a trip of two pings in both directions. *)
Definition routes : list string := ["6-VIC"; "10-VIC"; "26-VIC"; "24-VIC"].

Definition both_ways {A : Type} (f : string -> Z -> A) : list A :=
  flat_map (fun route => [f route 0; f route 1]) routes.

Definition four_routes_feed : Feed.t geom :=
  Feed.mk (both_ways segment_of) (both_ways trip_of).

Definition four_routes_db : list VehiclePosition.t :=
  both_ways (fun route direction => ping_of route direction eight_am 10)
  ++ both_ways (fun route direction => ping_of route direction (eight_am + 60) 90).

(** The first object of the script on that schedule and table. *)
Definition route_6 : RouteInfo.t geom :=
  __init__ four_routes_feed four_routes_db "6-VIC" ("Royal Oak", "Downtown").
End Street2.

(** * Properties *)

(** ** Grouping *)

Section PandasFacts.
Context {A K : Type} `{EqDecision K}.

Lemma elem_of_unique_keys (ks : list K) (k : K) :
  k ∈ unique_keys ks <-> k ∈ ks.
Proof.
  induction ks as [|k0 ks IH]; simpl; [reflexivity|].
  rewrite !elem_of_cons, list_elem_of_filter, IH.
  destruct (decide (k = k0)) as [->|Hne]; [tauto|]. tauto.
Qed.

Lemma NoDup_unique_keys (ks : list K) : NoDup (unique_keys ks).
Proof.
  induction ks as [|k0 ks IH]; simpl; constructor.
  - rewrite list_elem_of_filter. intros [Hne _]. by apply Hne.
  - by apply NoDup_filter.
Qed.

Lemma elem_of_groupby (key : A -> K) (l : list A) (k : K) (g : list A) :
  (k, g) ∈ groupby key l <->
  g = filter (fun a => key a = k) l /\ exists a, a ∈ l /\ key a = k.
Proof.
  unfold groupby. rewrite list_elem_of_fmap. split.
  - intros (k' & [= -> ->] & Hk). split; [done|].
    apply elem_of_unique_keys, list_elem_of_fmap in Hk.
    destruct Hk as (a & -> & Ha). eauto.
  - intros [-> (a & Ha & <-)]. exists (key a). split; [done|].
    apply elem_of_unique_keys, list_elem_of_fmap. eauto.
Qed.

Lemma NoDup_groupby_keys (key : A -> K) (l : list A) :
  NoDup (map fst (groupby key l)).
Proof.
  unfold groupby. rewrite map_map. simpl. rewrite map_id.
  apply NoDup_unique_keys.
Qed.

Lemma groupby_member (key : A -> K) (l : list A) (k : K) (g : list A) (a : A) :
  (k, g) ∈ groupby key l -> (a ∈ g <-> a ∈ l /\ key a = k).
Proof.
  intros [-> _]%elem_of_groupby. rewrite list_elem_of_filter. tauto.
Qed.
End PandasFacts.

(** ** [strictmode] *)

Section StrictMode.
Import Series.

Lemma count_le_max_count_in (s l : list Z) (v : Z) :
  v ∈ l -> (count v s <= foldr (fun v m => Nat.max (count v s) m) 0%nat l)%nat.
Proof.
  induction l as [|x l IH]; simpl; [by intros ?%elem_of_nil|].
  intros [->|Hv]%elem_of_cons; [lia|]. specialize (IH Hv). lia.
Qed.

Lemma max_count_attained_in (s l : list Z) :
  l <> [] ->
  exists v, v ∈ l /\ count v s = foldr (fun v m => Nat.max (count v s) m) 0%nat l.
Proof.
  induction l as [|x l IH]; [done|]. intros _. simpl.
  destruct l as [|y l].
  - exists x. split; [left|]. simpl. lia.
  - destruct IH as (v & Hv & Hc); [done|].
    destruct (Nat.max_spec (count x s) (foldr (fun v m => Nat.max (count v s) m) 0%nat (y :: l)))
      as [[_ ->]|[_ ->]].
    + exists v. split; [by right|done].
    + exists x. split; [left|done].
Qed.

Lemma count_pos (s : list Z) (v : Z) : v ∈ s <-> (0 < count v s)%nat.
Proof.
  unfold count. split.
  - intros Hv. assert (Hf : v ∈ filter (fun x => x = v) s)
      by (apply list_elem_of_filter; done).
    destruct (filter (fun x => x = v) s); [by apply elem_of_nil in Hf|simpl; lia].
  - intros Hc. destruct (filter (fun x => x = v) s) as [|x l] eqn:E; [simpl in Hc; lia|].
    assert (Hx : x ∈ filter (fun x => x = v) s) by (rewrite E; left).
    apply list_elem_of_filter in Hx as [-> ?]. done.
Qed.

Lemma count_le_max_count (s : list Z) (v : Z) : (count v s <= max_count s)%nat.
Proof.
  destruct (decide (v ∈ s)) as [Hv|Hv].
  - by apply count_le_max_count_in.
  - assert (count v s = 0%nat); [|lia].
    destruct (count v s) eqn:E; [done|].
    exfalso. apply Hv, count_pos. lia.
Qed.

Lemma elem_of_mode (s : list Z) (v : Z) :
  v ∈ mode s <-> v ∈ s /\ count v s = max_count s.
Proof.
  unfold mode. rewrite merge_sort_Permutation, list_elem_of_filter, elem_of_unique_keys.
  tauto.
Qed.

Lemma NoDup_mode (s : list Z) : NoDup (mode s).
Proof.
  unfold mode. rewrite merge_sort_Permutation.
  apply NoDup_filter, NoDup_unique_keys.
Qed.

Lemma most_frequent_mode (s : list Z) (v : Z) : most_frequent s v <-> v ∈ mode s.
Proof.
  rewrite elem_of_mode. unfold most_frequent. rewrite <- list_elem_of_In. split.
  - intros [Hv Hmax]. split; [done|].
    destruct (max_count_attained_in s s) as (w & _ & Hw).
    { intros ->. by apply elem_of_nil in Hv. }
    fold (max_count s) in Hw. pose proof (count_le_max_count s v).
    specialize (Hmax w). lia.
  - intros [Hv Hc]. split; [done|]. intros w. rewrite Hc. apply count_le_max_count.
Qed.

Lemma mode_nonempty (s : list Z) : s <> [] -> mode s <> [].
Proof.
  intros Hs Hm. destruct (max_count_attained_in s s Hs) as (v & Hv & Hc).
  assert (Hin : v ∈ mode s) by (apply elem_of_mode; done).
  rewrite Hm in Hin. by apply elem_of_nil in Hin.
Qed.

Lemma strictmode_constant (name : string) (s : list Z) (x : Z) :
  s <> [] -> (forall y, y ∈ s -> y = x) ->
  strictmode (Series.mk name s) = Ok x.
Proof.
  intros Hs Hall. unfold strictmode. simpl.
  pose proof (mode_nonempty s Hs) as Hne.
  pose proof (NoDup_mode s) as Hnd.
  assert (Hx : forall y, y ∈ mode s -> y = x).
  { intros y [Hy _]%elem_of_mode. by apply Hall. }
  destruct (mode s) as [|a [|b m]]; [done| |].
  - simpl. f_equal. apply Hx. left.
  - exfalso. apply NoDup_cons in Hnd as [Hnotin _]. apply Hnotin.
    rewrite (Hx a) by left. rewrite (Hx b) by (right; left). left.
Qed.

Lemma elem_of_value_counts (s : list Z) (v : Z) (n : nat) :
  (v, n) ∈ value_counts s <-> v ∈ s /\ n = count v s.
Proof.
  unfold value_counts. rewrite merge_sort_Permutation, list_elem_of_fmap. split.
  - intros (w & [= -> ->] & Hw). rewrite elem_of_unique_keys in Hw.
    split; [done|reflexivity].
  - intros [Hv ->]. exists v. split; [done|]. by apply elem_of_unique_keys.
Qed.
End StrictMode.

(** C4.  On a non-empty series [strictmode] returns a value exactly when
    that value is the only most frequent one; it raises exactly when two
    different values are both most frequent, and the error it raises
    then carries the counts of every value of the series.  On
    [3,3,3,5] it returns 3 and on [3,3,5,5] it raises, naming 3 and 5. *)
Theorem strictmode_unique_mode_or_raises (name : string) (s : list Z) :
  s <> [] ->
  (forall v, strictmode (Series.mk name s) = Ok v <->
             most_frequent s v /\ forall w, most_frequent s w -> w = v)
  /\ ((exists e, strictmode (Series.mk name s) = Raise e) <->
      exists v w, v <> w /\ most_frequent s v /\ most_frequent s w)
  /\ (forall e, strictmode (Series.mk name s) = Raise e ->
        e = ValueErrorMultipleModes name (Series.value_counts s))
  /\ (forall v, In v s -> In (v, Series.count v s) (Series.value_counts s))
  /\ strictmode (Series.mk name [3; 3; 3; 5]) = Ok 3
  /\ strictmode (Series.mk name [3; 3; 5; 5])
     = Raise (ValueErrorMultipleModes name [(3, 2%nat); (5, 2%nat)]).
Proof.
  intros Hs.
  pose proof (mode_nonempty s Hs) as Hne.
  pose proof (NoDup_mode s) as Hnd.
  assert (Hmf : forall v, most_frequent s v <-> v ∈ Series.mode s)
    by apply most_frequent_mode.
  assert (Hvc : forall v, In v s -> In (v, Series.count v s) (Series.value_counts s)).
  { intros v Hv. apply list_elem_of_In, elem_of_value_counts.
    by rewrite list_elem_of_In. }
  unfold strictmode. simpl.
  split; [|split; [|split; [|split; [done|split; vm_compute; reflexivity]]]];
    destruct (Series.mode s) as [|x [|y m]] eqn:E; try done; simpl.
  - (* one mode: returned *)
    intros v. split.
    + intros [= <-]. split; [apply Hmf; left|].
      intros w Hw%Hmf. by apply list_elem_of_singleton in Hw.
    + intros [Hv _]. apply Hmf, list_elem_of_singleton in Hv. by subst.
  - (* several modes: none returned *)
    intros v. split; [done|]. intros [_ Huniq]. exfalso.
    assert (x = v) by (apply Huniq, Hmf; left).
    assert (y = v) by (apply Huniq, Hmf; right; left).
    apply NoDup_cons in Hnd as [Hnx _]. apply Hnx. subst. left.
  - (* one mode: no error *)
    split; [by intros [e He]|].
    intros (v & w & Hvw & Hv%Hmf & Hw%Hmf).
    apply list_elem_of_singleton in Hv, Hw. congruence.
  - (* several modes: an error *)
    split; [|eauto]. intros _. exists x, y. split; [|split].
    + intros ->. apply NoDup_cons in Hnd as [Hnx _]. apply Hnx. left.
    + apply Hmf. left.
    + apply Hmf. right. left.
  - by intros e [= <-].
Qed.

(** The theorem at the tied series [3,3,5,5]. *)
Lemma strictmode_unique_mode_or_raises_witness :
  [3; 3; 5; 5] <> []
  /\ ((exists e, strictmode (Series.mk "stop_sequence" [3; 3; 5; 5]) = Raise e) <->
      exists v w, v <> w /\ most_frequent [3; 3; 5; 5] v /\ most_frequent [3; 3; 5; 5] w).
Proof.
  split; [discriminate|].
  apply (strictmode_unique_mode_or_raises "stop_sequence" [3; 3; 5; 5]).
  discriminate.
Defined.

(** ** Raising maps *)

Section MapMFacts.
Context {A B : Type}.

Lemma mapM_Ok_map (f : A -> result B) (g : A -> B) (l : list A) :
  (forall a, a ∈ l -> f a = Ok (g a)) -> mapM f l = Ok (map g l).
Proof.
  induction l as [|a l IH]; intros Hf; simpl; [done|].
  rewrite Hf by left. simpl. rewrite IH; [done|].
  intros a' Ha'. apply Hf. by right.
Qed.

Lemma mapM_Ok_inv (f : A -> result B) (l : list A) (bs : list B) :
  mapM f l = Ok bs -> Forall2 (fun a b => f a = Ok b) l bs.
Proof.
  revert bs. induction l as [|a l IH]; intros bs; simpl.
  - intros [= <-]. constructor.
  - destruct (f a) as [b|e] eqn:Ea; simpl; [|done].
    destruct (mapM f l) as [bs'|e]; simpl; [|done].
    intros [= <-]. constructor; [done|]. by apply IH.
Qed.

Lemma mapM_Raise_inv (f : A -> result B) (l : list A) (e : exn) :
  mapM f l = Raise e -> exists a, a ∈ l /\ f a = Raise e.
Proof.
  induction l as [|a l IH]; simpl; [done|].
  destruct (f a) as [b|e'] eqn:Ea; simpl.
  - destruct (mapM f l) as [bs'|e']; simpl; [done|].
    intros [= ->]. destruct IH as (a' & Ha' & Hf); [done|].
    exists a'. split; [by right|done].
  - intros [= ->]. exists a. split; [left|done].
Qed.

Lemma mapM_length (f : A -> result B) (l : list A) (bs : list B) :
  mapM f l = Ok bs -> length bs = length l.
Proof. intros Hm%mapM_Ok_inv. symmetry. by eapply Forall2_length. Qed.
End MapMFacts.

(** ** Groups partition the rows *)

Section Partition.
Context {A K : Type} `{EqDecision K}.

Lemma filter_app_disjoint (P Q : A -> Prop) `{forall a, Decision (P a)}
    `{forall a, Decision (Q a)} (l : list A) :
  (forall a, P a -> Q a -> False) ->
  filter P l ++ filter Q l ≡ₚ filter (fun a => P a \/ Q a) l.
Proof.
  intros Hdis. induction l as [|a l IH]; [done|].
  rewrite !filter_cons.
  destruct (decide (P a)) as [HP|HP], (decide (Q a)) as [HQ|HQ].
  - destruct (Hdis a HP HQ).
  - rewrite decide_True by tauto. simpl. by rewrite IH.
  - rewrite decide_True by tauto. rewrite <- Permutation_middle. by rewrite IH.
  - rewrite decide_False by tauto. done.
Qed.

Lemma concat_groups_keys (key : A -> K) (l : list A) (ks : list K) :
  NoDup ks ->
  concat (map (fun k => filter (fun a => key a = k) l) ks)
  ≡ₚ filter (fun a => key a ∈ ks) l.
Proof.
  induction 1 as [|k ks Hk Hnd IH]; simpl.
  - induction l as [|a l IHl]; [done|].
    rewrite filter_cons_False; [done|]. apply not_elem_of_nil.
  - rewrite IH, filter_app_disjoint.
    + erewrite list_filter_iff; [done|]. intros a. simpl.
      rewrite elem_of_cons. tauto.
    + intros a -> Hin. done.
Qed.

Lemma filter_all (P : A -> Prop) `{forall a, Decision (P a)} (l : list A) :
  (forall a, a ∈ l -> P a) -> filter P l = l.
Proof.
  induction l as [|a l IH]; intros HP; [done|].
  rewrite filter_cons_True by (apply HP; left).
  f_equal. apply IH. intros a' Ha'. apply HP. by right.
Qed.

Lemma filter_none (P : A -> Prop) `{forall a, Decision (P a)} (l : list A) :
  (forall a, a ∈ l -> ~ P a) -> filter P l = [].
Proof.
  induction l as [|a l IH]; intros HP; [done|].
  rewrite filter_cons_False by (apply HP; left).
  apply IH. intros a' Ha'. apply HP. by right.
Qed.

Lemma groupby_Permutation (key : A -> K) (l : list A) :
  concat (map snd (groupby key l)) ≡ₚ l.
Proof.
  unfold groupby. rewrite map_map. simpl.
  rewrite concat_groups_keys by apply NoDup_unique_keys.
  rewrite filter_all; [done|].
  intros a Ha. apply elem_of_unique_keys, list_elem_of_fmap. eauto.
Qed.
End Partition.

(** ** The nearest join *)

Section JoinFacts.
Context {Geom : Type} `{Geo Geom} `{Clock}.

Implicit Types (g : Geom) (s : Segment.t Geom) (right : list (Segment.t Geom)).

Lemma nearest_distance_le g s right s' :
  s' ∈ s :: right ->
  (nearest_distance g s right <= distance g (Segment.geometry s'))%Q.
Proof.
  unfold nearest_distance. induction right as [|s0 right IH]; simpl.
  - intros ->%list_elem_of_singleton. apply Qle_refl.
  - intros Hin. apply elem_of_cons in Hin as [->|Hin].
    + eapply Qle_trans; [apply Q.le_min_r|]. apply IH. left.
    + apply elem_of_cons in Hin as [->|Hin].
      * apply Q.le_min_l.
      * eapply Qle_trans; [apply Q.le_min_r|]. apply IH. by right.
Qed.

Lemma nearest_distance_attained g s right :
  exists s', s' ∈ s :: right
             /\ (nearest_distance g s right == distance g (Segment.geometry s'))%Q.
Proof.
  unfold nearest_distance. induction right as [|s0 right IH]; simpl.
  - exists s. split; [left|reflexivity].
  - destruct IH as (s' & Hs' & Heq).
    destruct (Q.min_spec (distance g (Segment.geometry s0))
                (foldr (fun s' m => Qmin (distance g (Segment.geometry s')) m)
                       (distance g (Segment.geometry s)) right)) as [[_ Hm]|[_ Hm]].
    + exists s0. split; [right; left|exact Hm].
    + exists s'. split.
      * apply elem_of_cons in Hs' as [->|Hs']; [left|right; by right].
      * rewrite Hm. exact Heq.
Qed.

Lemma elem_of_nearest g right (max_distance : Q) s :
  s ∈ nearest g right max_distance <->
  s ∈ right
  /\ (distance g (Segment.geometry s) <= max_distance)%Q
  /\ forall s', s' ∈ right ->
       (distance g (Segment.geometry s) <= distance g (Segment.geometry s'))%Q.
Proof.
  unfold nearest. destruct right as [|s0 right].
  - split; [by intros ?%elem_of_nil|]. by intros [?%elem_of_nil _].
  - destruct (decide (nearest_distance g s0 right <= max_distance)%Q) as [Hle|Hgt].
    + rewrite list_elem_of_filter. split.
      * intros [Heq Hin]. split; [done|]. split.
        -- rewrite Heq. exact Hle.
        -- intros s' Hs'. rewrite Heq. by apply nearest_distance_le.
      * intros (Hin & _ & Hmin). split; [|done].
        apply Qle_antisym.
        -- destruct (nearest_distance_attained g s0 right) as (s' & Hs' & Heq).
           rewrite Heq. by apply Hmin.
        -- by apply nearest_distance_le.
    + split; [by intros ?%elem_of_nil|]. intros (Hin & Hle & _).
      exfalso. apply Hgt. eapply Qle_trans; [|exact Hle].
      by apply nearest_distance_le.
Qed.


Lemma elem_of_dropna (l : list (Ping.t Geom * option TripPattern.t)) p tp :
  (p, tp) ∈ dropna l <-> (p, Some tp) ∈ l.
Proof.
  unfold dropna. rewrite list_elem_of_omap. split.
  - intros ([p' [tp'|]] & Hin & Heq); [|done]. by injection Heq as -> ->.
  - intros Hin. exists (p, Some tp). done.
Qed.

Lemma elem_of_join_patterns (pings : list (Ping.t Geom))
    (tps : list TripPattern.t) p (o : option TripPattern.t) :
  (p, o) ∈ join_patterns pings tps <->
  p ∈ pings /\ match o with
               | Some tp => tp ∈ patterns_of tps p
               | None => patterns_of tps p = []
               end.
Proof.
  unfold join_patterns. rewrite list_elem_of_In, in_flat_map. split.
  - intros (p' & Hp' & Hin). rewrite <- list_elem_of_In in Hp'. rewrite <- list_elem_of_In in Hin.
    destruct (patterns_of tps p') as [|tp0 ms] eqn:E.
    + apply list_elem_of_singleton in Hin. injection Hin as -> ->. done.
    + apply list_elem_of_fmap in Hin as (tp & [= -> ->] & Htp).
      split; [done|]. by rewrite E.
  - intros [Hp Ho]. exists p. rewrite <- !list_elem_of_In. split; [done|].
    destruct o as [tp|].
    + destruct (patterns_of tps p) as [|tp0 ms] eqn:E; [by apply elem_of_nil in Ho|].
      apply list_elem_of_fmap. eauto.
    + rewrite Ho. left.
Qed.

Lemma sjoin_nearest_attach (self : RouteInfo.t Geom) (direction : Z) (name : string)
    (x : list (Ping.t Geom * TripPattern.t)) :
  (forall e, e ∈ x -> TripPattern.shape_id (snd e) = name) ->
  sjoin_nearest x (shape_group self direction name) 12
  = flat_map (attach self direction) x.
Proof.
  unfold sjoin_nearest. induction x as [|[p tp] x IH]; intros Hx; [done|].
  simpl. rewrite IH by (intros e He; apply Hx; by right).
  f_equal. unfold attach. simpl.
  assert (Hk : TripPattern.shape_id tp = name) by (apply (Hx (p, tp)); left).
  by rewrite Hk.
Qed.

Lemma concat_flat_map {A B C : Type} (h : B -> list C) (G : list (A * list B)) :
  concat (map (fun kg => flat_map h (snd kg)) G) = flat_map h (concat (map snd G)).
Proof.
  induction G as [|[k g] G IH]; [done|]. simpl.
  by rewrite flat_map_app, IH.
Qed.

(** What [join_points] returns when it returns. *)
Lemma join_points_Ok (self : RouteInfo.t Geom) (direction : Z) (f : GeoFrame.t Geom) :
  join_points self direction = Ok f ->
  GeoFrame.crs f = EPSG26910
  /\ GeoFrame.rows f
     ≡ₚ flat_map (attach self direction) (dropna (patterned_positions self direction)).
Proof.
  unfold join_points.
  destruct (mapM _ _) as [groups|e] eqn:Hm; simpl; [|done].
  intros Hf.
  assert (Hf' : f = GeoFrame.mk EPSG26910 (concat groups))
    by (destruct groups; [done|by injection Hf as <-]).
  rewrite Hf'. clear Hf Hf'. simpl. split; [done|].
  apply mapM_Ok_inv in Hm.
  assert (Hg : groups
               = map (fun kg => flat_map (attach self direction) (snd kg))
                     (groupby (fun r => TripPattern.shape_id (snd r))
                              (dropna (patterned_positions self direction)))).
  { assert (Hall : forall kg, kg ∈ groupby (fun r : Ping.t Geom * TripPattern.t =>
                                             TripPattern.shape_id (snd r))
                                     (dropna (patterned_positions self direction)) ->
                              forall e, e ∈ snd kg -> TripPattern.shape_id (snd e) = fst kg).
    { intros [k g] Hkg e He. simpl in *.
      by apply (groupby_member _ _ _ _ e Hkg) in He as [_ ?]. }
    revert Hall. induction Hm as [|[k g] b l bs Hb Hm IH]; intros Hall; [done|].
    simpl. f_equal.
    - unfold get_group in Hb. fold (shape_group self direction k) in Hb.
      destruct (shape_group self direction k) as [|s0 ss] eqn:Eg; simpl in Hb; [done|].
      injection Hb as <-. rewrite <- Eg. apply sjoin_nearest_attach.
      intros e He. by apply (Hall (k, g)); [left|].
    - apply IH. intros kg Hkg. apply Hall. by right. }
  rewrite Hg, concat_flat_map. by rewrite groupby_Permutation.
Qed.

Lemma elem_of_vehicle_positions_index (self : RouteInfo.t Geom) (direction : Z)
    (i : nat) (v : Ping.t Geom) :
  _vehicle_positions self direction !! i = Some v -> Ping.index v = i.
Proof.
  unfold _vehicle_positions. rewrite list_lookup_imap.
  destruct (_ !! i); simpl; [|done]. by intros [= <-].
Qed.

(** The rows of a frame [join_points] returns. *)
Lemma elem_of_join_points (self : RouteInfo.t Geom) (direction : Z)
    (f : GeoFrame.t Geom) (p : Point.t Geom) :
  join_points self direction = Ok f ->
  (p ∈ GeoFrame.rows f <->
   exists v,
     v ∈ _vehicle_positions self direction
     /\ Point.ping p = ping_to_crs WGS84 EPSG26910 v
     /\ Point.pattern p ∈ patterns_of (Feed.trips_patterns (RouteInfo.feed self)) v
     /\ Point.segment p
        ∈ nearest (transform WGS84 EPSG26910 (Ping.geometry v))
                  (shape_group self direction (TripPattern.shape_id (Point.pattern p)))
                  12).
Proof.
  intros [_ Hrows]%join_points_Ok. rewrite Hrows.
  rewrite list_elem_of_In, in_flat_map. split.
  - intros ([q tp] & Hin & Hp). rewrite <- list_elem_of_In in Hin. rewrite <- list_elem_of_In in Hp.
    apply elem_of_dropna, elem_of_join_patterns in Hin as [Hq Htp].
    apply list_elem_of_fmap in Hq as (v & -> & Hv).
    unfold attach in Hp. simpl in Hp.
    apply list_elem_of_fmap in Hp as (s & -> & Hs). simpl.
    exists v. done.
  - intros (v & Hv & Hping & Htp & Hs). destruct p as [q tp s]. simpl in *. subst q.
    exists (ping_to_crs WGS84 EPSG26910 v, tp). rewrite <- !list_elem_of_In. split.
    + apply elem_of_dropna, elem_of_join_patterns. split; [|done].
      apply list_elem_of_fmap. eauto.
    + unfold attach. simpl. apply list_elem_of_fmap. eauto.
Qed.
End JoinFacts.

(** ** Counting rows *)

Section Counting.
Context {A B : Type}.

Lemma filter_fmap_comm (P : B -> Prop) `{forall b, Decision (P b)}
    (f : A -> B) (l : list A) :
  filter P (map f l) = map f (filter (fun a => P (f a)) l).
Proof.
  induction l as [|a l IH]; [done|]. simpl.
  rewrite !filter_cons. destruct (decide (P (f a))); simpl; by rewrite IH.
Qed.

Lemma filter_flat_map (P : B -> Prop) `{forall b, Decision (P b)}
    (Q : A -> Prop) `{forall a, Decision (Q a)} (h : A -> list B) (l : list A) :
  (forall a b, b ∈ h a -> (P b <-> Q a)) ->
  filter P (flat_map h l) = flat_map h (filter Q l).
Proof.
  intros HPQ. induction l as [|a l IH]; [done|]. simpl.
  rewrite filter_app, IH, filter_cons. destruct (decide (Q a)) as [HQ|HQ].
  - simpl. f_equal. apply filter_all. intros b Hb. by apply (HPQ a b Hb).
  - rewrite filter_none; [done|]. intros b Hb HP. by apply HQ, (HPQ a b Hb).
Qed.

(** In a list whose element at position [j] is labelled [k + j], the
    elements labelled [k + i] are the element at position [i]. *)
Lemma filter_label (idx : A -> nat) (l : list A) (k i : nat) :
  (forall j x, l !! j = Some x -> idx x = (k + j)%nat) ->
  filter (fun x => idx x = (k + i)%nat) l = option_list (l !! i).
Proof.
  revert k i. induction l as [|a l IH]; intros k i Hl; [done|].
  rewrite filter_cons. pose proof (Hl 0%nat a eq_refl) as Ha.
  destruct i as [|i]; simpl.
  - rewrite decide_True by lia.
    f_equal. apply filter_none. intros x Hx Hidx.
    apply list_elem_of_lookup in Hx as [j Hj].
    specialize (Hl (S j) x Hj). lia.
  - rewrite decide_False by lia.
    replace (k + S i)%nat with (S k + i)%nat by lia.
    apply IH. intros j x Hj. specialize (Hl (S j) x Hj). lia.
Qed.


(** A filter that at most one position passes keeps at most one row. *)
Lemma filter_at_most_one (P : A -> Prop) `{forall a, Decision (P a)} (l : list A) :
  (forall i j x y, l !! i = Some x -> l !! j = Some y -> P x -> P y -> i = j) ->
  (length (filter P l) <= 1)%nat.
Proof.
  induction l as [|a l IH]; intros Huniq; [simpl; lia|].
  rewrite filter_cons. destruct (decide (P a)) as [HP|HP].
  - rewrite filter_none; [simpl; lia|]. intros x Hx HPx.
    apply list_elem_of_lookup in Hx as [j Hj].
    specialize (Huniq 0%nat (S j) a x eq_refl Hj HP HPx). lia.
  - apply IH. intros i j x y Hi Hj HPx HPy.
    specialize (Huniq (S i) (S j) x y Hi Hj HPx HPy). lia.
Qed.
End Counting.

Section RowsOfPing.
Context {Geom : Type} `{Geo Geom} `{Clock}.

Lemma join_patterns_cons (q : Ping.t Geom) (pings : list (Ping.t Geom))
    (tps : list TripPattern.t) :
  join_patterns (q :: pings) tps
  = match patterns_of tps q with
    | [] => [(q, None)]
    | ms => map (fun tp => (q, Some tp)) ms
    end ++ join_patterns pings tps.
Proof. reflexivity. Qed.

Lemma dropna_app (l1 l2 : list (Ping.t Geom * option TripPattern.t)) :
  dropna (l1 ++ l2) = dropna l1 ++ dropna l2.
Proof. apply omap_app. Qed.

Lemma dropna_some (q : Ping.t Geom) (ms : list TripPattern.t) :
  dropna (map (fun tp => (q, Some tp)) ms) = map (fun tp => (q, tp)) ms.
Proof. induction ms as [|tp ms IH]; [done|]. simpl. f_equal. exact IH. Qed.

Lemma dropna_join_patterns (h : Ping.t Geom * TripPattern.t -> list (Point.t Geom))
    (pings : list (Ping.t Geom)) (tps : list TripPattern.t) :
  flat_map h (dropna (join_patterns pings tps))
  = flat_map (fun q => flat_map (fun tp => h (q, tp)) (patterns_of tps q)) pings.
Proof.
  induction pings as [|q pings IH]; [done|].
  rewrite join_patterns_cons, dropna_app, flat_map_app, IH.
  change (flat_map ?g (q :: pings)) with (g q ++ flat_map g pings).
  f_equal. destruct (patterns_of tps q) as [|tp ms]; [done|].
  rewrite dropna_some. generalize (tp :: ms). intros l.
  induction l as [|tp' l IHl]; [done|]. simpl. by rewrite IHl.
Qed.

(** The rows of one ping in a frame [join_points] returns: for every
    pattern row of its trip, the nearest segments of that shape. *)
Lemma rows_of_ping_join_points (self : RouteInfo.t Geom) (direction : Z)
    (f : GeoFrame.t Geom) (v : Ping.t Geom) :
  join_points self direction = Ok f ->
  v ∈ _vehicle_positions self direction ->
  rows_of_ping (Ping.index v) f
  ≡ₚ flat_map (fun tp => attach self direction (ping_to_crs WGS84 EPSG26910 v, tp))
              (patterns_of (Feed.trips_patterns (RouteInfo.feed self)) v).
Proof.
  intros [_ Hrows]%join_points_Ok Hv. unfold rows_of_ping. rewrite Hrows.
  unfold patterned_positions. rewrite dropna_join_patterns.
  erewrite (filter_flat_map _ (fun q : Ping.t Geom => Ping.index q = Ping.index v)).
  - rewrite filter_fmap_comm. simpl.
    apply list_elem_of_lookup in Hv as [i Hi].
    pose proof (elem_of_vehicle_positions_index _ _ _ _ Hi) as Hidx.
    rewrite Hidx.
    rewrite (filter_label Ping.index _ 0%nat i).
    + rewrite Hi. simpl. by rewrite app_nil_r.
    + intros j x Hj. by apply elem_of_vehicle_positions_index in Hj.
  - intros q p Hp.
    apply list_elem_of_In, in_flat_map in Hp as (tp & _ & Hp).
    unfold attach in Hp. simpl in Hp. rewrite <- list_elem_of_In in Hp.
    apply list_elem_of_fmap in Hp as (s & -> & _). done.
Qed.

Lemma to_crs_rows_of_ping (c : CRS) (f : GeoFrame.t Geom) (i : nat) :
  length (rows_of_ping i (to_crs c f)) = length (rows_of_ping i f).
Proof.
  unfold rows_of_ping, to_crs. simpl.
  by rewrite filter_fmap_comm, length_map.
Qed.
End RowsOfPing.

(** ** The cache of [points] *)

Section PointsFacts.
Context {Geom Fig : Type} `{Geo Geom} `{Clock}.

Implicit Types (self : RouteInfo.t Geom) (st : State.t Geom Fig).

Lemma points_hit self (direction : Z) st (f : GeoFrame.t Geom) :
  State._point_data st !! direction = Some f ->
  points self direction st = (Ok f, st).
Proof. intros Hf. unfold points. by rewrite Hf. Qed.

Lemma points_miss self (direction : Z) st :
  State._point_data st !! direction = None ->
  points self direction st
  = match join_points self direction with
    | Ok f => (Ok f, State.mk (<[direction := to_crs WGS84 f]> (State._point_data st))
                              (State.written st))
    | Raise e => (Raise e, st)
    end.
Proof. intros Hf. unfold points. by rewrite Hf. Qed.

Lemma points_written self (direction : Z) st (r : result (GeoFrame.t Geom)) st' :
  points self direction st = (r, st') -> State.written st' = State.written st.
Proof.
  unfold points. destruct (State._point_data st !! direction).
  - by intros [= _ <-].
  - destruct (join_points self direction); by intros [= _ <-].
Qed.

Lemma cache_consistent_empty self (w : list (Path * Fig)) :
  cache_consistent self (State.mk ∅ w).
Proof. intros d f Hd. simpl in Hd. by rewrite lookup_empty in Hd. Qed.

Lemma points_consistent self (direction : Z) st (r : result (GeoFrame.t Geom)) st' :
  cache_consistent self st ->
  points self direction st = (r, st') ->
  cache_consistent self st'.
Proof.
  intros Hc. unfold points. destruct (State._point_data st !! direction) eqn:Ed.
  - by intros [= _ <-].
  - destruct (join_points self direction) as [f0|e] eqn:Ej; intros [= _ <-]; [|done].
    intros d f. simpl. rewrite lookup_insert. case_decide as Hd.
    + subst d. intros [= <-]. eauto.
    + apply Hc.
Qed.

(** The frame [points] returns is the joined frame, as computed or as
    cached. *)
Lemma points_Ok self (direction : Z) st (f : GeoFrame.t Geom) st' :
  cache_consistent self st ->
  points self direction st = (Ok f, st') ->
  exists f0, join_points self direction = Ok f0 /\ (f = f0 \/ f = to_crs WGS84 f0).
Proof.
  intros Hc. unfold points. destruct (State._point_data st !! direction) eqn:Ed.
  - intros [= -> <-]. destruct (Hc _ _ Ed) as (f0 & Hj & ->). eauto.
  - destruct (join_points self direction) as [f0|e] eqn:Ej; intros [= <- <-]. eauto.
Qed.

Lemma points_Raise self (direction : Z) st (e : exn) st' :
  points self direction st = (Raise e, st') ->
  join_points self direction = Raise e /\ st' = st.
Proof.
  unfold points. destruct (State._point_data st !! direction) eqn:Ed; [done|].
  destruct (join_points self direction) as [f0|e'] eqn:Ej; [done|].
  by intros [= -> <-].
Qed.

(** After the first call of a direction, every call returns the cached
    frame and changes nothing. *)
Lemma points_cached_again self (direction : Z) st (f : GeoFrame.t Geom) st' :
  points self direction st = (Ok f, st') ->
  exists f', State._point_data st' !! direction = Some f'
             /\ points self direction st' = (Ok f', st').
Proof.
  unfold points at 1. destruct (State._point_data st !! direction) eqn:Ed.
  - intros [= -> <-]. exists f. split; [done|]. by apply points_hit.
  - destruct (join_points self direction) as [f0|e] eqn:Ej; intros [= <- <-].
    exists (to_crs WGS84 f0). simpl. rewrite lookup_insert_eq. split; [done|].
    apply points_hit. simpl. by rewrite lookup_insert_eq.
Qed.

(** On a direction not cached yet, the first call returns the frame in
    the projected system and the second its reprojection: they are
    different frames. *)
Lemma points_first_then_cached self (direction : Z) st (f1 : GeoFrame.t Geom) st1 :
  State._point_data st !! direction = None ->
  points self direction st = (Ok f1, st1) ->
  GeoFrame.crs f1 = EPSG26910
  /\ points self direction st1 = (Ok (to_crs WGS84 f1), st1)
  /\ to_crs WGS84 f1 <> f1.
Proof.
  intros Hnone Hp. rewrite points_miss in Hp by done.
  destruct (join_points self direction) as [f0|e] eqn:Ej; [|done].
  injection Hp as <- <-.
  apply join_points_Ok in Ej as [Hcrs _]. split; [done|]. split.
  - apply points_hit. simpl. by rewrite lookup_insert_eq.
  - intros Heq. apply (f_equal GeoFrame.crs) in Heq. simpl in Heq. congruence.
Qed.

Lemma elem_of_to_crs (c : CRS) (f : GeoFrame.t Geom) (p : Point.t Geom) :
  p ∈ GeoFrame.rows (to_crs c f) ->
  exists p0, p0 ∈ GeoFrame.rows f
             /\ Point.ping p = ping_to_crs (GeoFrame.crs f) c (Point.ping p0)
             /\ Point.pattern p = Point.pattern p0
             /\ Point.segment p = Point.segment p0.
Proof.
  unfold to_crs. simpl. intros (p0 & -> & Hp0)%list_elem_of_fmap. eauto.
Qed.

(** Every row [points] returns comes from a ping of the direction, one
    of the pattern rows of its trip and one of the nearest segments of
    that shape. *)
Lemma points_row self (direction : Z) st (f : GeoFrame.t Geom) st' (p : Point.t Geom) :
  cache_consistent self st ->
  points self direction st = (Ok f, st') ->
  p ∈ GeoFrame.rows f ->
  exists v,
    v ∈ _vehicle_positions self direction
    /\ Ping.index v = Point.index p
    /\ Ping.row v = Ping.row (Point.ping p)
    /\ Point.pattern p ∈ patterns_of (Feed.trips_patterns (RouteInfo.feed self)) v
    /\ Point.segment p
       ∈ nearest (transform WGS84 EPSG26910 (Ping.geometry v))
                 (shape_group self direction (TripPattern.shape_id (Point.pattern p)))
                 12.
Proof.
  intros Hc Hp Hin. destruct (points_Ok _ _ _ _ _ Hc Hp) as (f0 & Hj & [->| ->]).
  - apply (elem_of_join_points _ _ _ p Hj) in Hin as (v & Hv & Hping & Htp & Hs).
    exists v. unfold Point.index. rewrite Hping. done.
  - apply elem_of_to_crs in Hin as (p0 & Hp0 & Hping & Hpat & Hseg).
    apply (elem_of_join_points _ _ _ p0 Hj) in Hp0 as (v & Hv & Hping0 & Htp & Hs).
    exists v. unfold Point.index. rewrite Hping, Hping0, Hpat, Hseg. done.
Qed.

Lemma points_rows_of_ping self (direction : Z) st (f : GeoFrame.t Geom) st'
    (v : Ping.t Geom) :
  cache_consistent self st ->
  points self direction st = (Ok f, st') ->
  v ∈ _vehicle_positions self direction ->
  length (rows_of_ping (Ping.index v) f)
  = length (flat_map (fun tp => attach self direction (ping_to_crs WGS84 EPSG26910 v, tp))
                     (patterns_of (Feed.trips_patterns (RouteInfo.feed self)) v)).
Proof.
  intros Hc Hp Hv. destruct (points_Ok _ _ _ _ _ Hc Hp) as (f0 & Hj & [->| ->]).
  - by rewrite (rows_of_ping_join_points _ _ _ _ Hj Hv).
  - rewrite to_crs_rows_of_ping. by rewrite (rows_of_ping_join_points _ _ _ _ Hj Hv).
Qed.
End PointsFacts.

(** ** Statements about [points] *)

(** C1.  Calling [points] twice for the same direction does not return
    the same frame twice: on the synthetic route the first call returns
    the joined frame in the projected system EPSG:26910, the second call
    returns the cached frame, which is that frame reprojected to
    WGS-84. *)
Theorem points_second_call_returns_other_frame :
  exists f1 st1,
    points Street.one_segment 0 Street.fresh = (Ok f1, st1)
    /\ points Street.one_segment 0 st1 = (Ok (to_crs WGS84 f1), st1)
    /\ GeoFrame.crs f1 = EPSG26910
    /\ GeoFrame.crs (to_crs WGS84 f1) = WGS84
    /\ to_crs WGS84 f1 <> f1.
Proof.
  assert (Hj : exists f0, join_points Street.one_segment 0 = Ok f0)
    by (eexists; vm_compute; reflexivity).
  destruct Hj as [f0 Hj].
  assert (Hnone : State._point_data Street.fresh !! 0 = None) by apply lookup_empty.
  pose proof (points_miss (Fig:=nat) Street.one_segment 0 Street.fresh Hnone) as Hp.
  rewrite Hj in Hp.
  destruct (points_first_then_cached _ _ _ _ _ Hnone Hp) as (Hcrs & Hsecond & Hne).
  eauto 10.
Qed.

(** C2, as stated, fails: a ping at the stop two consecutive segments
    share is equally near to both, and [points] returns one row for
    each. *)
Lemma points_two_rows_for_one_ping :
  ~ (forall f st',
       points Street.shared_stop 0 Street.fresh = (Ok f, st') ->
       forall v, v ∈ _vehicle_positions Street.shared_stop 0 ->
                 (length (rows_of_ping (Ping.index v) f) <= 1)%nat).
Proof.
  intros Hclaim.
  destruct (points Street.shared_stop 0 Street.fresh) as [r st'] eqn:E.
  vm_compute in E. injection E as <- <-.
  assert (Hv : Ping.mk 0%nat (Street.ping "T1" Street.eight_am Street.eight_am 100)
                       8 (10 * (36 # 10))%Q (Street.At 100)
               ∈ _vehicle_positions Street.shared_stop 0)
    by (vm_compute; left).
  pose proof (Hclaim _ _ eq_refl _ Hv) as Hlen.
  vm_compute in Hlen. lia.
Qed.

(** C2, amended.  A ping whose trip has at most one pattern row and
    whose nearest segment within the shape group is a single row (no
    other row of the group is at the same, smallest distance) has at
    most one row in the frame [points] returns. *)
Theorem points_one_row_for_ping_without_tie {Geom Fig : Type} `{Geo Geom} `{Clock}
    (self : RouteInfo.t Geom) (direction : Z) (st : State.t Geom Fig)
    (f : GeoFrame.t Geom) (st' : State.t Geom Fig) (v : Ping.t Geom) :
  cache_consistent self st ->
  points self direction st = (Ok f, st') ->
  v ∈ _vehicle_positions self direction ->
  (length (patterns_of (Feed.trips_patterns (RouteInfo.feed self)) v) <= 1)%nat ->
  (forall tp i j s1 s2,
     tp ∈ patterns_of (Feed.trips_patterns (RouteInfo.feed self)) v ->
     shape_group self direction (TripPattern.shape_id tp) !! i = Some s1 ->
     shape_group self direction (TripPattern.shape_id tp) !! j = Some s2 ->
     (forall s, s ∈ shape_group self direction (TripPattern.shape_id tp) ->
        (distance (transform WGS84 EPSG26910 (Ping.geometry v)) (Segment.geometry s1)
         <= distance (transform WGS84 EPSG26910 (Ping.geometry v)) (Segment.geometry s))%Q) ->
     (distance (transform WGS84 EPSG26910 (Ping.geometry v)) (Segment.geometry s2)
      == distance (transform WGS84 EPSG26910 (Ping.geometry v)) (Segment.geometry s1))%Q ->
     i = j) ->
  (length (rows_of_ping (Ping.index v) f) <= 1)%nat.
Proof.
  intros Hc Hp Hv Hone Htie.
  rewrite (points_rows_of_ping _ _ _ _ _ _ Hc Hp Hv).
  destruct (patterns_of (Feed.trips_patterns (RouteInfo.feed self)) v) as [|tp [|tp' l]];
    simpl in *; [lia| |lia].
  rewrite app_nil_r. unfold attach. simpl. rewrite length_map.
  set (g := transform WGS84 EPSG26910 (Ping.geometry v)) in *.
  pose proof (Htie tp) as Hu. clear Htie.
  set (grp := shape_group self direction (TripPattern.shape_id tp)) in *.
  clearbody grp g.
  assert (Hmin : forall s, s ∈ nearest g grp 12 ->
                   forall s', s' ∈ grp ->
                     (distance g (Segment.geometry s) <= distance g (Segment.geometry s'))%Q).
  { intros s Hs. by apply elem_of_nearest in Hs as (_ & _ & ?). }
  unfold nearest in *. destruct grp as [|s0 grp']; [simpl; lia|].
  destruct (decide (nearest_distance g s0 grp' <= 12)%Q); [|simpl; lia].
  apply filter_at_most_one. intros i j x y Hi Hj Hx Hy.
  apply (Hu i j x y); [left|done|done| |].
  - apply Hmin. apply list_elem_of_filter. split; [done|].
    apply list_elem_of_lookup. eauto.
  - by rewrite Hx, Hy.
Qed.

(** The amended C2 on the synthetic route with one segment. *)
Lemma points_one_row_for_ping_without_tie_witness :
  exists f st',
    points Street.one_segment 0 Street.fresh = (Ok f, st')
    /\ (length (rows_of_ping 0 f) <= 1)%nat.
Proof.
  eexists _, _. split; [vm_compute; reflexivity|].
  pose (v := Ping.mk 0%nat (Street.ping "T1" Street.eight_am Street.eight_am 10)
                     8 (10 * (36 # 10))%Q (Street.At 10)).
  apply (points_one_row_for_ping_without_tie Street.one_segment 0 Street.fresh _
           (snd (points Street.one_segment 0 Street.fresh)) v).
  - apply cache_consistent_empty.
  - vm_compute. reflexivity.
  - vm_compute. left.
  - vm_compute. lia.
  - intros tp i j s1 s2 Htp Hi Hj _ _.
    vm_compute in Htp. apply list_elem_of_singleton in Htp. subst tp.
    vm_compute in Hi, Hj.
    destruct i as [|i]; [|by destruct i]. destruct j as [|j]; [done|by destruct j].
Defined.



(** ** Hourly statistics *)

Section HourlyFacts.
Context {Geom : Type} `{Geo Geom} `{Clock}.


Lemma Qmean_singleton (x : Q) : (Qmean [x] == x)%Q.
Proof. unfold Qmean. simpl. field. Qed.

(** A row of [hourly_segment_times] is made of the crossings of its
    bucket. *)
Lemma elem_of_hourly_segment_times (segment_times : list (SegmentTime.t Geom))
    (r : HourlyStat.t Geom) :
  r ∈ PlotHourly.hourly_segment_times segment_times ->
  let bucket := crossings_in_bucket segment_times (HourlyStat.segment_id r)
                  (HourlyStat.hour_of_day r) (HourlyStat.geometry r) in
  bucket <> []
  /\ HourlyStat.count r = length bucket
  /\ HourlyStat.mean r = Qmean (map SegmentTime.travel_time bucket).
Proof.
  unfold PlotHourly.hourly_segment_times.
  intros (i & [[[seg h] geo] g] & -> & Hi)%elem_of_lookup_imap. simpl.
  assert (Hkg : (seg, h, geo, g)
                ∈ groupby (fun c : SegmentTime.t Geom =>
                             (SegmentTime.segment_id c, SegmentTime.hour_of_day c,
                              SegmentTime.geometry c))
                          (filter (fun c => (0 < SegmentTime.travel_time c)%Q)
                                  segment_times))
    by (apply list_elem_of_lookup; eauto).
  apply elem_of_groupby in Hkg as [Hg (c & Hc & Hk)].
  assert (Hb : crossings_in_bucket segment_times seg h geo = g).
  { rewrite Hg, list_filter_filter. unfold crossings_in_bucket.
    apply list_filter_iff. intros c'. split.
    - intros (? & <- & <- & <-). done.
    - intros [[= <- <- <-] ?]. done. }
  rewrite Hb. split; [|split].
  - intros Hnil. rewrite Hnil in Hg. symmetry in Hg.
    by apply (filter_nil_not_elem_of _ _ c Hg Hk).
  - by rewrite length_map.
  - done.
Qed.

Lemma hourly_segment_times_covers (segment_times : list (SegmentTime.t Geom))
    (c : SegmentTime.t Geom) :
  c ∈ segment_times ->
  (0 < SegmentTime.travel_time c)%Q ->
  exists r, r ∈ PlotHourly.hourly_segment_times segment_times
            /\ HourlyStat.segment_id r = SegmentTime.segment_id c
            /\ HourlyStat.hour_of_day r = SegmentTime.hour_of_day c
            /\ HourlyStat.geometry r = SegmentTime.geometry c.
Proof.
  intros Hc Hpos.
  set (key := fun c : SegmentTime.t Geom =>
                (SegmentTime.segment_id c, SegmentTime.hour_of_day c,
                 SegmentTime.geometry c)).
  set (l := filter (fun c => (0 < SegmentTime.travel_time c)%Q) segment_times).
  assert (Hkg : (key c, filter (fun a => key a = key c) l) ∈ groupby key l).
  { apply elem_of_groupby. split; [done|]. exists c. split; [|done].
    apply list_elem_of_filter. done. }
  apply list_elem_of_lookup in Hkg as [i Hi].
  exists (HourlyStat.mk i (SegmentTime.segment_id c) (SegmentTime.hour_of_day c)
            (SegmentTime.geometry c)
            (length (map SegmentTime.travel_time (filter (fun a => key a = key c) l)))
            (Qmean (map SegmentTime.travel_time (filter (fun a => key a = key c) l)))
            (Qminimum (map SegmentTime.travel_time (filter (fun a => key a = key c) l)))
            (Qmaximum (map SegmentTime.travel_time (filter (fun a => key a = key c) l)))).
  split; [|done].
  unfold PlotHourly.hourly_segment_times. fold key. fold l.
  apply elem_of_lookup_imap. exists i, (key c, filter (fun a => key a = key c) l).
  done.
Qed.
End HourlyFacts.



(** ** The reference hour *)

Section ReferenceFacts.
Context {Geom : Type} `{Geo Geom} `{Clock}.

Implicit Types (stats : list (HourlyStat.t Geom)).

Lemma getitem_fillna (cell : string -> option Q) (columns : list string) (s : string) :
  s ∈ columns ->
  getitem (PlotHourly.fillna 0%Q (map (fun k => (k, cell k)) columns)) s
  = Ok (default 0%Q (cell s)).
Proof.
  induction columns as [|k columns IH]; [by intros ?%elem_of_nil|].
  intros Hs. simpl. destruct (decide (k = s)) as [->|Hne]; [done|].
  apply IH. apply elem_of_cons in Hs as [->|Hs]; done.
Qed.

Lemma getitem_not_column (row : list (string * Q)) (s : string) :
  s ∉ map fst row -> getitem row s = Raise (KeyError s).
Proof.
  induction row as [|[k v] row IH]; [done|]. simpl. intros Hs.
  rewrite not_elem_of_cons in Hs. destruct Hs as [Hne Hs].
  rewrite decide_False by done. by apply IH.
Qed.

(** The value subtracted in a row of segment identifier [s]: the mean
    of the means of the reference rows, and zero when there is none. *)
Lemma pivot_cell stats (h : Z) (s : string) :
  default 0%Q (pt_cell (PlotHourly.pivot_table stats) h s)
  = match reference_rows stats h s with
    | [] => 0%Q
    | rs => Qmean (map HourlyStat.mean rs)
    end.
Proof.
  simpl. unfold reference_rows.
  by destruct (filter _ stats).
Qed.

Lemma key_column_Ok (name : string) stats :
  stats <> [] -> PlotHourly.key_column name stats = Ok tt.
Proof. by destruct stats. Qed.

Lemma ref_times_Ok stats (h : Z) (r0 : HourlyStat.t Geom) :
  r0 ∈ stats -> HourlyStat.hour_of_day r0 = h ->
  PlotHourly.ref_times stats h
  = Ok (map (fun r => default 0%Q (pt_cell (PlotHourly.pivot_table stats) h
                                          (HourlyStat.segment_id r))) stats).
Proof.
  intros Hr0 Hh. unfold PlotHourly.ref_times, PlotHourly.loc.
  rewrite key_column_Ok by (intros ->; by apply elem_of_nil in Hr0).
  simpl rbind. rewrite decide_True.
  - simpl rbind. rewrite (mapM_Ok_map _ (fun s => default 0%Q
                              (pt_cell (PlotHourly.pivot_table stats) h s))).
    + by rewrite map_map.
    + intros s Hs. apply getitem_fillna.
      simpl. by apply elem_of_unique_keys.
  - simpl. apply elem_of_unique_keys, list_elem_of_fmap. eauto.
Qed.

(** Without a row at the reference hour the lookup fails: in [.loc]
    and, when the statistics have no row at all, in [pivot_table]. *)
Lemma ref_times_Raise stats (h : Z) :
  (forall r0, r0 ∈ stats -> HourlyStat.hour_of_day r0 <> h) ->
  PlotHourly.ref_times stats h
  = Raise (match stats with
           | [] => KeyError "hour_of_day"
           | _ => KeyErrorHour h
           end).
Proof.
  intros Hno. unfold PlotHourly.ref_times, PlotHourly.loc.
  destruct stats as [|r stats'] eqn:Es; [done|]. rewrite <- Es in *.
  rewrite key_column_Ok by (by rewrite Es). simpl rbind.
  rewrite decide_False; [done|]. simpl. rewrite elem_of_unique_keys.
  intros (r0 & Hh & Hr0)%list_elem_of_fmap. by apply (Hno r0).
Qed.

Lemma zip_with_map_r {A B C : Type} (f : A -> B -> C) (g : A -> B) (l : list A) :
  zip_with f l (map g l) = map (fun a => f a (g a)) l.
Proof. induction l as [|a l IH]; [done|]. simpl. by rewrite IH. Qed.

(** The column [time_col] when a reference hour is given and some row
    is at that hour. *)
Lemma time_column_Ok stats (h : Z) (r0 : HourlyStat.t Geom) :
  r0 ∈ stats -> HourlyStat.hour_of_day r0 = h ->
  PlotHourly.time_column stats (Some h)
  = Ok ("mean_diff_" +:+ format_02d h,
        map (fun r => (r, (HourlyStat.mean r
                           - default 0%Q (pt_cell (PlotHourly.pivot_table stats) h
                                                 (HourlyStat.segment_id r)))%Q))
            stats).
Proof.
  intros Hr0 Hh. unfold PlotHourly.time_column.
  rewrite (ref_times_Ok _ _ _ Hr0 Hh). simpl. by rewrite zip_with_map_r.
Qed.

Lemma time_column_Raise stats (h : Z) :
  (forall r0, r0 ∈ stats -> HourlyStat.hour_of_day r0 <> h) ->
  PlotHourly.time_column stats (Some h)
  = Raise (match stats with
           | [] => KeyError "hour_of_day"
           | _ => KeyErrorHour h
           end).
Proof.
  intros Hno. unfold PlotHourly.time_column. by rewrite ref_times_Raise.
Qed.

Lemma time_column_cases stats (h : Z) :
  (exists r0, r0 ∈ stats /\ HourlyStat.hour_of_day r0 = h)
  \/ (forall r0, r0 ∈ stats -> HourlyStat.hour_of_day r0 <> h).
Proof.
  destruct (decide (Exists (fun r0 => HourlyStat.hour_of_day r0 = h) stats))
    as [Hex|Hno].
  - left. apply Exists_exists in Hex as (r0 & Hr0 & Hh). eauto.
  - right. intros r0 Hr0 Hh. apply Hno, Exists_exists. eauto.
Qed.

Lemma time_column_value stats (h : Z) (name : string)
    (col : list (HourlyStat.t Geom * Q)) (r : HourlyStat.t Geom) (v : Q) :
  PlotHourly.time_column stats (Some h) = Ok (name, col) ->
  (r, v) ∈ col ->
  r ∈ stats
  /\ v = (HourlyStat.mean r
          - match reference_rows stats h (HourlyStat.segment_id r) with
            | [] => 0
            | rs => Qmean (map HourlyStat.mean rs)
            end)%Q.
Proof.
  intros Hcol Hin. destruct (time_column_cases stats h) as [(r0 & Hr0 & Hh)|Hnone].
  - rewrite (time_column_Ok _ _ _ Hr0 Hh) in Hcol. injection Hcol as <- <-.
    apply list_elem_of_fmap in Hin as (r' & Heq & Hr').
    injection Heq as <- ->. split; [done|].
    unfold reference_rows. by destruct (filter _ stats).
  - by rewrite time_column_Raise in Hcol.
Qed.
End ReferenceFacts.

(** C6, as stated, fails: on the route with two shapes the segment A-B
    has two rows in the eight o'clock hour, of means 10 and 20; with 8
    as reference hour the differential of the first row is 10 - 15, the
    row's mean minus neither row's mean. *)
Lemma reference_differential_is_not_segment_mean :
  ~ (forall f st' name col,
       points Street.two_shapes 0 Street.fresh = (Ok f, st') ->
       PlotHourly.time_column
         (PlotHourly.hourly_segment_times (PlotHourly.segment_times f)) (Some 8)
       = Ok (name, col) ->
       forall r v,
         (r, v) ∈ col ->
         exists r0,
           r0 ∈ PlotHourly.hourly_segment_times (PlotHourly.segment_times f)
           /\ HourlyStat.segment_id r0 = HourlyStat.segment_id r
           /\ HourlyStat.hour_of_day r0 = 8
           /\ (v == HourlyStat.mean r - HourlyStat.mean r0)%Q).
Proof.
  intros Hclaim.
  set (f := Street.joined Street.two_shapes).
  set (stats := PlotHourly.hourly_segment_times (PlotHourly.segment_times f)).
  assert (Hpts : points Street.two_shapes 0 Street.fresh
                 = (Ok f, Street.cached Street.two_shapes))
    by (vm_compute; reflexivity).
  assert (Hrow : exists r, stats !! 0%nat = Some r /\ HourlyStat.hour_of_day r = 8)
    by (eexists; split; vm_compute; reflexivity).
  destruct Hrow as (r & Hr & Hh).
  pose proof (time_column_Ok stats 8 r (list_elem_of_lookup_2 _ _ _ Hr) Hh) as Hcol.
  destruct (Hclaim f _ _ _ Hpts Hcol r _ (list_elem_of_fmap_2 _ _ _
              (list_elem_of_lookup_2 _ _ _ Hr)))
    as (r0 & Hr0 & _ & _ & Hv).
  vm_compute in Hr. injection Hr as <-.
  vm_compute in Hr0.
  apply elem_of_cons in Hr0 as [->|Hr0]; [vm_compute in Hv; discriminate|].
  apply list_elem_of_singleton in Hr0 as ->. vm_compute in Hv. discriminate.
Qed.

(** C6, amended.  When [plot_hourly] is given a reference hour and
    computes the differential column, every row has its value there: the
    row's mean unchanged when no row of the same segment identifier is
    at the reference hour, the row's mean minus that row's mean when
    there is one such row, and in general the row's mean minus the mean
    of the means of those rows (a segment identifier has one row per
    geometry). *)
Theorem reference_hour_differential {Geom : Type}
    (stats : list (HourlyStat.t Geom)) (h : Z) (name : string)
    (col : list (HourlyStat.t Geom * Q)) :
  PlotHourly.time_column stats (Some h) = Ok (name, col) ->
  length col = length stats
  /\ forall i r,
       stats !! i = Some r ->
       exists v,
         col !! i = Some (r, v)
         /\ (reference_rows stats h (HourlyStat.segment_id r) = [] ->
             (v == HourlyStat.mean r)%Q)
         /\ (forall r0, reference_rows stats h (HourlyStat.segment_id r) = [r0] ->
               (v == HourlyStat.mean r - HourlyStat.mean r0)%Q)
         /\ (reference_rows stats h (HourlyStat.segment_id r) <> [] ->
             (v == HourlyStat.mean r
                   - Qmean (map HourlyStat.mean
                                (reference_rows stats h (HourlyStat.segment_id r))))%Q).
Proof.
  intros Hcol. destruct (time_column_cases stats h) as [(r0 & Hr0 & Hh)|Hno].
  - rewrite (time_column_Ok _ _ _ Hr0 Hh) in Hcol. injection Hcol as <- <-.
    split; [by rewrite length_map|].
    intros i r Hi.
    exists (HourlyStat.mean r
            - default 0%Q (pt_cell (PlotHourly.pivot_table stats) h
                                  (HourlyStat.segment_id r)))%Q.
    split.
    + rewrite list_lookup_fmap, Hi. reflexivity.
    + rewrite pivot_cell.
      destruct (reference_rows stats h (HourlyStat.segment_id r)) as [|r1 rs] eqn:E.
      * split; [intros _; ring|]. split; [done|]. done.
      * split; [done|]. split; [|reflexivity].
        intros r2 [= <- ->].
        change (map HourlyStat.mean [r1]) with [HourlyStat.mean r1].
        rewrite Qmean_singleton. reflexivity.
  - by rewrite time_column_Raise in Hcol.
Qed.

(** The amended C6 on the route with two shapes: the first row, of mean
    10, gets 10 - 15. *)
Lemma reference_hour_differential_witness :
  exists name col r v,
    PlotHourly.time_column
      (PlotHourly.hourly_segment_times
         (PlotHourly.segment_times (Street.joined Street.two_shapes))) (Some 8)
    = Ok (name, col)
    /\ col !! 0%nat = Some (r, v)
    /\ HourlyStat.mean r = 10%Q
    /\ (v == 10 - 15)%Q.
Proof.
  set (stats := PlotHourly.hourly_segment_times
                  (PlotHourly.segment_times (Street.joined Street.two_shapes))).
  assert (Hrun : exists name col, PlotHourly.time_column stats (Some 8) = Ok (name, col))
    by (eexists _, _; vm_compute; reflexivity).
  destruct Hrun as (name & col & Hrun).
  assert (Hrow : exists r, stats !! 0%nat = Some r)
    by (eexists; vm_compute; reflexivity).
  destruct Hrow as (r & Hr).
  destruct (reference_hour_differential stats 8 name col Hrun) as [_ Hrows].
  destruct (Hrows 0%nat r Hr) as (v & Hv & _ & _ & Hdiff).
  exists name, col, r, v. split; [exact Hrun|]. split; [exact Hv|].
  vm_compute in Hr. injection Hr as <-. split; [reflexivity|].
  rewrite Hdiff by (vm_compute; discriminate).
  vm_compute. reflexivity.
Defined.

(** C10.  When no crossing with a positive travel time falls in the
    hour given as reference hour, [plot_hourly] raises; nothing is
    rendered or written.  The error is the [KeyError] of
    [.loc] for the hour when a crossing of another hour has a positive
    travel time, and the [KeyError] of [pivot_table] for its index
    column when there are crossings and none has one.  The differential
    is computed exactly when some row of the statistics is at the
    reference hour, and then the rows of a segment identifier without a
    row at that hour keep their mean. *)
Theorem plot_hourly_reference_hour_without_data {Geom Fig : Type}
    `{Geo Geom} `{Clock} `{Plotly Geom Fig}
    (self : RouteInfo.t Geom) (direction : Z) (time_range : Q * Q) (h : Z)
    (save_dir : option Path) (st : State.t Geom Fig) (f : GeoFrame.t Geom)
    (st1 : State.t Geom Fig) :
  points self direction st = (Ok f, st1) ->
  (forall c, c ∈ PlotHourly.segment_times f ->
             (0 < SegmentTime.travel_time c)%Q -> SegmentTime.hour_of_day c <> h) ->
  (exists e, PlotHourly.plot_hourly self direction time_range (Some h) save_dir st
             = (Raise e, st1))
  /\ ((exists c, c ∈ PlotHourly.segment_times f /\ (0 < SegmentTime.travel_time c)%Q) ->
      PlotHourly.plot_hourly self direction time_range (Some h) save_dir st
      = (Raise (KeyErrorHour h), st1))
  /\ (PlotHourly.segment_times f <> [] ->
      (forall c, c ∈ PlotHourly.segment_times f -> ~ (0 < SegmentTime.travel_time c)%Q) ->
      PlotHourly.plot_hourly self direction time_range (Some h) save_dir st
      = (Raise (KeyError "hour_of_day"), st1))
  /\ forall stats : list (HourlyStat.t Geom),
       ((exists name col, PlotHourly.time_column stats (Some h) = Ok (name, col))
        <-> exists r0, r0 ∈ stats /\ HourlyStat.hour_of_day r0 = h)
       /\ (forall name col r v,
             PlotHourly.time_column stats (Some h) = Ok (name, col) ->
             (r, v) ∈ col ->
             reference_rows stats h (HourlyStat.segment_id r) = [] ->
             (v == HourlyStat.mean r)%Q).
Proof.
  intros Hp Hno.
  set (stats := PlotHourly.hourly_segment_times (PlotHourly.segment_times f)).
  assert (Hbucket : forall r0, r0 ∈ stats ->
            exists c, c ∈ PlotHourly.segment_times f
                      /\ (0 < SegmentTime.travel_time c)%Q
                      /\ SegmentTime.hour_of_day c = HourlyStat.hour_of_day r0).
  { intros r0 Hr0.
    destruct (elem_of_hourly_segment_times _ _ Hr0) as (Hne & _ & _).
    destruct (crossings_in_bucket _ _ _ _) as [|c l] eqn:E; [done|].
    assert (Hc : c ∈ crossings_in_bucket (PlotHourly.segment_times f)
                       (HourlyStat.segment_id r0) (HourlyStat.hour_of_day r0)
                       (HourlyStat.geometry r0)) by (rewrite E; left).
    apply list_elem_of_filter in Hc as [(Hpos & _ & Hhour & _) Hin]. eauto. }
  assert (Hraise : PlotHourly.plot_hourly self direction time_range (Some h) save_dir st
                   = (Raise (match stats with
                             | [] => KeyError "hour_of_day"
                             | _ => KeyErrorHour h
                             end), st1)).
  { unfold PlotHourly.plot_hourly, bind. rewrite Hp. unfold lift. fold stats.
    rewrite time_column_Raise; [done|].
    intros r0 Hr0 Hh. destruct (Hbucket r0 Hr0) as (c & Hin & Hpos & Hhour).
    apply (Hno c Hin Hpos). congruence. }
  split; [eauto|]. split; [|split].
  - intros (c & Hin & Hpos). rewrite Hraise.
    destruct (hourly_segment_times_covers _ c Hin Hpos) as (r & Hr & _).
    fold stats in Hr. destruct stats; [by apply elem_of_nil in Hr|done].
  - intros _ Hnone. rewrite Hraise. destruct stats as [|r0 l] eqn:Es; [done|].
    destruct (Hbucket r0) as (c & Hin & Hpos & _); [left|].
    by destruct (Hnone c Hin).
  - intros stats'. split; [split|].
    + intros (name & col & Hcol).
      destruct (time_column_cases stats' h) as [?|Hnone]; [done|].
      by rewrite time_column_Raise in Hcol.
    + intros (r0 & Hr0 & Hh). rewrite (time_column_Ok _ _ _ Hr0 Hh). eauto.
    + intros name col r v Hcol Hin Hrefs.
      destruct (time_column_value _ _ _ _ _ _ Hcol Hin) as [_ ->].
      rewrite Hrefs. ring.
Qed.

(** C10 on the synthetic route, whose only crossing, of 60 seconds, is
    in the eight o'clock hour, with 6 as reference hour. *)
Lemma plot_hourly_reference_hour_without_data_witness :
  PlotHourly.plot_hourly Street.one_segment 0 (10%Q, 60%Q) (Some 6)
    (Some ["figures"; "6-VIC"]) Street.fresh
  = (Raise (KeyErrorHour 6), Street.cached Street.one_segment).
Proof.
  destruct (plot_hourly_reference_hour_without_data Street.one_segment 0 (10%Q, 60%Q) 6
              (Some ["figures"; "6-VIC"]) Street.fresh
              (Street.joined Street.one_segment) (Street.cached Street.one_segment))
    as (_ & Hloc & _).
  - vm_compute. reflexivity.
  - intros c Hc _. vm_compute in Hc. apply list_elem_of_singleton in Hc. subst c.
    vm_compute. discriminate.
  - apply Hloc. eexists. split; [vm_compute; left|]. vm_compute. reflexivity.
Defined.

(** ** The clip filter *)

Section ClipFacts.
Context {Geom : Type} `{Geo Geom} `{Clock}.


(** The frame of [hourly_segment_times] when the filter keeps a
    crossing, and when it keeps none. *)
Lemma hourly_segment_times_kept (segment_times : list (Crossing.t Geom))
    (clip_threshold : Q) :
  filter (fun c => (0 < Crossing.travel_time c)%Q
                   /\ (Crossing.travel_time c < clip_threshold)%Q) segment_times
  <> [] ->
  PlotHourlyDistributions.hourly_segment_times segment_times clip_threshold
  ≡ₚ map (fun c => DistRow.mk (Crossing.index c) (Some c)
                     (PlotHourlyDistributions.segment_name c))
         (filter (fun c => (0 < Crossing.travel_time c)%Q
                           /\ (Crossing.travel_time c < clip_threshold)%Q)
                 segment_times).
Proof.
  intros Hne. unfold PlotHourlyDistributions.hourly_segment_times.
  rewrite merge_sort_Permutation. by destruct (filter _ segment_times).
Qed.

Lemma hourly_segment_times_none (segment_times : list (Crossing.t Geom))
    (clip_threshold : Q) :
  filter (fun c => (0 < Crossing.travel_time c)%Q
                   /\ (Crossing.travel_time c < clip_threshold)%Q) segment_times
  = [] ->
  PlotHourlyDistributions.hourly_segment_times segment_times clip_threshold
  ≡ₚ map (fun c => DistRow.mk (Crossing.index c) None
                     (PlotHourlyDistributions.segment_name c))
         segment_times.
Proof.
  intros Hnil. unfold PlotHourlyDistributions.hourly_segment_times.
  rewrite merge_sort_Permutation. by rewrite Hnil.
Qed.

End ClipFacts.




(** ** Written files *)

Section SaveFacts.
Context {Geom Fig : Type} `{Geo Geom} `{Clock} `{Plotly Geom Fig}.

Implicit Types (self : RouteInfo.t Geom) (st : State.t Geom Fig).

Lemma bind_Ok {A B} (m : M Geom Fig A) (k : A -> M Geom Fig B) st (b : B) st' :
  bind m k st = (Ok b, st') ->
  exists a st1, m st = (Ok a, st1) /\ k a st1 = (Ok b, st').
Proof.
  unfold bind. destruct (m st) as [[a|e] st1]; [|done]. eauto.
Qed.

Lemma lift_Ok {A} (r : result A) st (a : A) st' :
  lift r st = (Ok a, st') -> r = Ok a /\ st' = st.
Proof. unfold lift. by intros [= -> ->]. Qed.

(** With a directory, [save] writes the figure to one file, named
    after the direction, its label and the view, and returns it. *)
Lemma save_writes self (direction : Z) (view : string) (dir : Path) (fig : Fig)
    st (r : Fig) st' :
  save self direction view (Some dir) fig st = (Ok r, st') ->
  r = fig
  /\ State._point_data st' = State._point_data st
  /\ exists label,
       tuple_getitem (RouteInfo.directions self) direction = Ok label
       /\ State.written st'
          = State.written st
            ++ [(path_join dir (pretty direction +:+ "-" +:+ label +:+ "_"
                                +:+ view +:+ ".html"), fig)].
Proof.
  unfold save. intros (name & st1 & Hname & Hrest)%bind_Ok.
  apply lift_Ok in Hname as [Hname ->].
  apply bind_Ok in Hrest as ([] & st2 & Hw & Hret).
  unfold write_html in Hw. injection Hw as <-.
  unfold ret in Hret. injection Hret as <- <-.
  unfold filename in Hname.
  destruct (tuple_getitem (RouteInfo.directions self) direction) as [label|e];
    simpl in Hname; [|done].
  injection Hname as <-. simpl. eauto.
Qed.

Lemma keeps_cache_bind {A B} self (m : M Geom Fig A) (k : A -> M Geom Fig B) :
  keeps_cache self m -> (forall a, keeps_cache self (k a)) ->
  keeps_cache self (bind m k).
Proof.
  intros Hm Hk st r st'. unfold bind.
  destruct (m st) as [[a|e] st1] eqn:Em.
  - intros Hka Hc. apply (Hk a st1 r st' Hka). by apply (Hm st _ st1 Em).
  - intros [= <- <-] Hc. by apply (Hm st _ st1 Em).
Qed.

Lemma keeps_cache_lift {A} self (r : result A) :
  keeps_cache (Fig:=Fig) self (lift r).
Proof. intros st r' st'. unfold lift. by intros [= _ <-]. Qed.

Lemma keeps_cache_points self (direction : Z) :
  keeps_cache self (points (Fig:=Fig) self direction).
Proof. intros st r st' Hp Hc. by apply (points_consistent _ _ _ _ _ Hc Hp). Qed.

Lemma keeps_cache_save self (direction : Z) (view : string)
    (save_dir : option Path) (fig : Fig) :
  keeps_cache self (save self direction view save_dir fig).
Proof.
  unfold save. destruct save_dir as [dir|].
  - apply keeps_cache_bind; [apply keeps_cache_lift|]. intros name.
    apply keeps_cache_bind.
    + intros st r st'. unfold write_html. intros [= _ <-] Hc. exact Hc.
    + intros _ st r st'. unfold ret. by intros [= _ <-].
  - intros st r st'. unfold ret. by intros [= _ <-].
Qed.

(** Rendering a view keeps the dictionary consistent. *)
Lemma keeps_cache_render self (direction : Z) (v : View) (save_dir : option Path) :
  keeps_cache self (render self direction v save_dir).
Proof.
  destruct v; simpl;
    repeat first [ apply keeps_cache_bind; [|intros ?]
                 | apply keeps_cache_points
                 | apply keeps_cache_lift
                 | apply keeps_cache_save ].
Qed.

Lemma tuple_getitem_label (t : string * string) (i : Z) (label : string) :
  tuple_getitem t i = Ok label ->
  (i = 0 \/ i = -2) /\ label = fst t \/ (i = 1 \/ i = -1) /\ label = snd t.
Proof.
  unfold tuple_getitem. repeat case_decide; intros [= <-]; tauto.
Qed.
End SaveFacts.

(** C9.  A view rendered with a save directory writes exactly one file,
    into that directory, named [{direction}-{label}_{view}.html], where
    the label is the entry of the caller's pair of labels at the
    direction and the view is [points], [slow_zones],
    [hourly_{reference_hour}] or [distr_hourly]; the file holds the
    figure the method returns. *)
Theorem render_writes_one_file {Geom Fig : Type} `{Geo Geom} `{Clock} `{Plotly Geom Fig}
    (self : RouteInfo.t Geom) (direction : Z) (v : View) (dir : Path)
    (st : State.t Geom Fig) (fig : Fig) (st' : State.t Geom Fig) :
  render self direction v (Some dir) st = (Ok fig, st') ->
  exists label,
    tuple_getitem (RouteInfo.directions self) direction = Ok label
    /\ ((direction = 0 -> label = fst (RouteInfo.directions self))
        /\ (direction = 1 -> label = snd (RouteInfo.directions self)))
    /\ State.written st'
       = State.written st
         ++ [(path_join dir (pretty direction +:+ "-" +:+ label +:+ "_"
                             +:+ view_name v +:+ ".html"), fig)].
Proof.
  intros Hrun.
  assert (Hsave : exists (f : GeoFrame.t Geom) st0 st1 fig0,
             points self direction st = (Ok f, st0)
             /\ State.written st1 = State.written st0
             /\ save self direction (view_name v) (Some dir) fig0 st1 = (Ok fig, st')).
  { destruct v as [|threshold|time_range reference_hour|clip_threshold show_variants];
      simpl in Hrun.
    - apply bind_Ok in Hrun as (f & st0 & Hp & Hrun).
      apply bind_Ok in Hrun as (fig0 & st1 & [_ ->]%lift_Ok & Hrun). eauto 10.
    - apply bind_Ok in Hrun as (f & st0 & Hp & Hrun).
      apply bind_Ok in Hrun as (fig0 & st1 & [_ ->]%lift_Ok & Hrun). eauto 10.
    - apply bind_Ok in Hrun as (f & st0 & Hp & Hrun).
      apply bind_Ok in Hrun as (col & st1 & [_ ->]%lift_Ok & Hrun).
      apply bind_Ok in Hrun as ([] & st2 & [_ ->]%lift_Ok & Hrun).
      apply bind_Ok in Hrun as (fig0 & st3 & [_ ->]%lift_Ok & Hrun). eauto 10.
    - apply bind_Ok in Hrun as (f & st0 & Hp & Hrun).
      apply bind_Ok in Hrun as (sts & st1 & [_ ->]%lift_Ok & Hrun).
      apply bind_Ok in Hrun as (fig0 & st2 & [_ ->]%lift_Ok & Hrun). eauto 10. }
  destruct Hsave as (f & st0 & st1 & fig0 & Hp & Hw & Hsave).
  apply points_written in Hp.
  apply save_writes in Hsave as (-> & _ & label & Hlabel & Hwritten).
  exists label. split; [done|]. split.
  - apply tuple_getitem_label in Hlabel. split; intros ->; destruct Hlabel as [[[?|?] ?]|[[?|?] ?]]; done.
  - rewrite Hwritten. congruence.
Qed.

(** C9 on the synthetic route: the point map of direction 0, saved to
    figures/6-VIC. *)
Lemma render_writes_one_file_witness :
  exists fig st',
    render Street.one_segment 0 PointMap (Some ["figures"; "6-VIC"]) Street.fresh
    = (Ok fig, st')
    /\ State.written st' = [(["figures"; "6-VIC"; "0-Royal Oak_points.html"], fig)].
Proof.
  assert (Hrun : exists fig st',
             render Street.one_segment 0 PointMap (Some ["figures"; "6-VIC"]) Street.fresh
             = (Ok fig, st'))
    by (eexists _, _; vm_compute; reflexivity).
  destruct Hrun as (fig & st' & Hrun). exists fig, st'. split; [exact Hrun|].
  destruct (render_writes_one_file _ _ _ _ _ _ _ Hrun) as (label & Hlabel & _ & ->).
  vm_compute in Hlabel. injection Hlabel as <-. reflexivity.
Defined.

(** ** The scenario of three pings *)

Section ScenarioFacts.
Context {A K : Type} `{EqDecision K}.

Lemma merge_sort_three (R : relation A) `{RelDecision A A R} (a b c : A) :
  R a b -> ~ R c a -> ~ R c b -> merge_sort R [a; b; c] = [a; b; c].
Proof.
  intros Hab Hca Hcb. unfold merge_sort. simpl.
  rewrite decide_True by done. simpl.
  destruct (decide (R c a)); [done|]. by destruct (decide (R c b)).
Qed.

Lemma unique_keys_const (ks : list K) (k : K) :
  ks <> [] -> (forall x, x ∈ ks -> x = k) -> unique_keys ks = [k].
Proof.
  induction ks as [|x ks IH]; [done|]. intros _ Hall. simpl.
  rewrite (Hall x) by left. f_equal.
  apply filter_none. intros y Hy Hne. apply Hne.
  rewrite elem_of_unique_keys in Hy. apply Hall. by right.
Qed.

Lemma groupby_const (key : A -> K) (l : list A) (k : K) :
  l <> [] -> (forall a, a ∈ l -> key a = k) -> groupby key l = [(k, l)].
Proof.
  intros Hl Hall. unfold groupby. rewrite (unique_keys_const _ k).
  - simpl. by rewrite filter_all.
  - by destruct l.
  - intros x (a & -> & Ha)%list_elem_of_fmap. by apply Hall.
Qed.

Lemma hour_of_clock_reading `{Clock} (t r : Z) :
  (t + utcoffset t) mod 86400 = 8 * 3600 + r -> 0 <= r < 3600 -> hour t = 8.
Proof.
  intros Hmod Hr. unfold hour.
  pose proof (Z.div_mod (t + utcoffset t) 86400 ltac:(lia)) as Hdm.
  rewrite Hmod in Hdm.
  assert (Hdiv : (t + utcoffset t) / 3600 = 24 * ((t + utcoffset t) / 86400) + 8).
  { symmetry. apply (Z.div_unique_pos _ _ _ r); lia. }
  rewrite Hdiv. symmetry. apply (Z.mod_unique_pos _ _ ((t + utcoffset t) / 86400)); lia.
Qed.
End ScenarioFacts.

Section ScenarioJoin.
Context {Geom : Type} `{Geo Geom} `{Clock}.

Lemma nearest_single (g : Geom) (s : Segment.t Geom) (max_distance : Q) :
  (distance g (Segment.geometry s) <= max_distance)%Q ->
  nearest g [s] max_distance = [s].
Proof.
  intros Hle. unfold nearest, nearest_distance. simpl.
  rewrite decide_True by done. by rewrite filter_cons_True by reflexivity.
Qed.
End ScenarioJoin.

Section Scenario.
Context {Geom : Type} `{Geo Geom} `{Clock}.

Variables (route : string) (directions : string * string) (direction : Z).
Variables (s : Segment.t Geom) (tp : TripPattern.t).
Variables (v1 v2 v3 : VehiclePosition.t) (t : Z).

#[local] Abbreviation self := (three_ping_route route directions s tp v1 v2 v3).

Hypothesis segment_route : Segment.route_id s = route.
Hypothesis segment_direction : Segment.direction_id s = direction.
Hypothesis segment_shape : Segment.shape_id s = TripPattern.shape_id tp.
Hypothesis pattern_route : TripPattern.route_id tp = route.
Hypothesis pattern_direction : TripPattern.direction_id tp = direction.
Hypothesis one_trip :
  Forall (fun v => VehiclePosition.route_id v = route
                   /\ VehiclePosition.direction_id v = direction
                   /\ VehiclePosition.trip_id v = TripPattern.trip_id tp
                   /\ VehiclePosition.start_time v = VehiclePosition.start_time v1)
         [v1; v2; v3].
Hypothesis within_tolerance :
  Forall (fun v =>
            (distance (transform WGS84 EPSG26910
                         (points_from_xy (VehiclePosition.longitude v)
                                         (VehiclePosition.latitude v)))
                      (transform WGS84 EPSG26910 (Segment.geometry s)) <= 12)%Q)
         [v1; v2; v3].
Hypothesis timestamp1 : VehiclePosition.timestamp v1 = t.
Hypothesis timestamp2 : VehiclePosition.timestamp v2 = t + 30.
Hypothesis timestamp3 : VehiclePosition.timestamp v3 = t + 60.
Hypothesis clock_reading : (t + 30 + utcoffset (t + 30)) mod 86400 = 8 * 3600 + 30.

Lemma scenario_vehicle_positions :
  _vehicle_positions self direction
  = [Ping.mk 0%nat v1 (hour t) (VehiclePosition.speed v1 * (36 # 10))%Q
       (points_from_xy (VehiclePosition.longitude v1) (VehiclePosition.latitude v1));
     Ping.mk 1%nat v2 (hour (t + 30)) (VehiclePosition.speed v2 * (36 # 10))%Q
       (points_from_xy (VehiclePosition.longitude v2) (VehiclePosition.latitude v2));
     Ping.mk 2%nat v3 (hour (t + 60)) (VehiclePosition.speed v3 * (36 # 10))%Q
       (points_from_xy (VehiclePosition.longitude v3) (VehiclePosition.latitude v3))].
Proof.
  unfold _vehicle_positions, read_sql_query. simpl RouteInfo.db_path. simpl RouteInfo.route.
  rewrite filter_all.
  - rewrite merge_sort_three; unfold by_timestamp; try lia.
    simpl. by rewrite timestamp1, timestamp2, timestamp3.
  - intros v Hv. rewrite Forall_forall in one_trip.
    destruct (one_trip v Hv) as (? & ? & _). done.
Qed.

Lemma scenario_route_segments :
  route_segments self direction = [segment_to_crs WGS84 EPSG26910 s].
Proof.
  unfold route_segments. simpl RouteInfo._segments.
  rewrite !filter_all; [done| |].
  - intros s' ->%list_elem_of_singleton. done.
  - intros s'. rewrite filter_all.
    + intros ->%list_elem_of_singleton. done.
    + intros s'' ->%list_elem_of_singleton. done.
Qed.

#[local] Abbreviation ping := projected_ping.

Lemma scenario_patterned :
  dropna (patterned_positions self direction)
  = [(ping 0 v1, tp); (ping 1 v2, tp); (ping 2 v3, tp)].
Proof.
  unfold patterned_positions. rewrite scenario_vehicle_positions.
  rewrite <- timestamp1 at 1. rewrite <- timestamp2, <- timestamp3.
  pose proof one_trip as Htrip. rewrite !Forall_cons in Htrip.
  destruct Htrip as ((? & ? & ? & _) & (? & ? & ? & _) & (? & ? & ? & _) & _).
  unfold join_patterns, patterns_of. cbn [map flat_map Feed.trips_patterns
    RouteInfo.feed three_ping_route __init__ app].
  rewrite !filter_all; [reflexivity|..];
    intros tp' ->%list_elem_of_singleton; cbn [ping_to_crs Ping.row];
    split_and!; congruence.
Qed.

Lemma scenario_join_points :
  join_points self direction
  = Ok (GeoFrame.mk EPSG26910
          [Point.mk (ping 0 v1) tp (segment_to_crs WGS84 EPSG26910 s);
           Point.mk (ping 1 v2) tp (segment_to_crs WGS84 EPSG26910 s);
           Point.mk (ping 2 v3) tp (segment_to_crs WGS84 EPSG26910 s)]).
Proof.
  unfold join_points. rewrite scenario_patterned, scenario_route_segments.
  rewrite (groupby_const _ _ (TripPattern.shape_id tp)); [|done|].
  - cbn [mapM]. unfold get_group.
    rewrite filter_all by (intros s' ->%list_elem_of_singleton; exact segment_shape).
    cbn [rbind]. unfold sjoin_nearest. cbn [flat_map].
    pose proof within_tolerance as Htol. rewrite !Forall_cons in Htol.
    destruct Htol as (? & ? & ? & _).
    rewrite !nearest_single by done. reflexivity.
  - intros e He. repeat (apply elem_of_cons in He as [->|He]; [done|]).
    by apply elem_of_nil in He.
Qed.

#[local] Arguments minimum : simpl never.
#[local] Arguments maximum : simpl never.
#[local] Arguments median : simpl never.
#[local] Arguments hour : simpl never.

Lemma scenario_minimum : minimum [t; t + 30; t + 60] = t.
Proof. unfold minimum. cbn [foldr]. lia. Qed.

Lemma scenario_maximum : maximum [t; t + 30; t + 60] = t + 60.
Proof. unfold maximum. cbn [foldr]. lia. Qed.

Lemma scenario_median : median [t; t + 30; t + 60] = t + 30.
Proof.
  unfold median. rewrite merge_sort_three by lia. reflexivity.
Qed.

Lemma scenario_hour : hour (t + 30) = 8.
Proof. apply (hour_of_clock_reading _ 30); [exact clock_reading|lia]. Qed.

(** C8.  One route, one shape with one segment, one trip with three
    pings at 08:00:00, 08:00:30 and 08:01:00 local time, each within
    12 metres of the segment: [points] joins the three pings to the
    segment, and both aggregations find one crossing, of 60 seconds
    (last timestamp minus first) in hour 8 (the hour of the median
    timestamp). *)
Theorem three_pings_cross_in_sixty_seconds {Fig : Type} :
  exists (f : GeoFrame.t Geom) (st' : State.t Geom Fig),
    points self direction (State.mk ∅ []) = (Ok f, st')
    /\ length (GeoFrame.rows f) = 3%nat
    /\ (exists c,
          PlotHourly.segment_times f = [c]
          /\ SegmentTime.enter_time c = t
          /\ SegmentTime.exit_time c = t + 60
          /\ SegmentTime.travel_time c = 60%Q
          /\ SegmentTime.hour_of_day c = 8)
    /\ (exists c,
          PlotHourlyDistributions.segment_times f = Ok [c]
          /\ Crossing.enter_time c = t
          /\ Crossing.exit_time c = t + 60
          /\ Crossing.travel_time c = 60%Q
          /\ Crossing.hour_of_day c = 8).
Proof.
  pose proof one_trip as Htrip. rewrite !Forall_cons in Htrip.
  destruct Htrip as ((_ & _ & Htrip1 & _) & (_ & _ & Htrip2 & Hstart2)
                     & (_ & _ & Htrip3 & Hstart3) & _).
  eexists _, _. split.
  { rewrite points_miss by apply lookup_empty.
    rewrite scenario_join_points. reflexivity. }
  split; [reflexivity|]. split.
  - unfold PlotHourly.segment_times. cbn [GeoFrame.rows].
    rewrite (groupby_const _ _
               (Segment.segment_id s, TripPattern.trip_id tp,
                VehiclePosition.start_time v1,
                transform WGS84 EPSG26910 (Segment.geometry s))); [|done|].
    + cbn [imap map]. unfold Point.timestamp. cbn.
      rewrite timestamp1, timestamp2, timestamp3.
      rewrite scenario_minimum, scenario_maximum, scenario_median, scenario_hour.
      eexists. split; [reflexivity|]. cbn.
      replace (t + 60 - t) with 60 by lia. done.
    + intros p Hp.
      repeat (apply elem_of_cons in Hp as [->|Hp];
              [unfold Point.segment_id, Point.trip_id, Point.start_time, Point.shape;
               cbn; congruence|]).
      by apply elem_of_nil in Hp.
  - unfold PlotHourlyDistributions.segment_times. cbn [GeoFrame.rows].
    rewrite (groupby_const _ _
               (TripPattern.pattern_name tp, Segment.segment_id s,
                Segment.start_stop_name s, Segment.start_stop_id s,
                Segment.end_stop_name s, Segment.end_stop_id s,
                TripPattern.trip_id tp, VehiclePosition.start_time v1,
                transform WGS84 EPSG26910 (Segment.geometry s))); [|done|].
    + cbn [imap mapM map].
      rewrite (strictmode_constant _ _ (Segment.stop_sequence s)); [|done|].
      * unfold Point.timestamp. cbn.
        rewrite timestamp1, timestamp2, timestamp3.
        rewrite scenario_minimum, scenario_maximum, scenario_median, scenario_hour.
        eexists. split; [reflexivity|]. cbn.
        replace (t + 60 - t) with 60 by lia. done.
      * intros y Hy.
        repeat (apply elem_of_cons in Hy as [->|Hy]; [reflexivity|]).
        by apply elem_of_nil in Hy.
    + intros p Hp.
      repeat (apply elem_of_cons in Hp as [->|Hp];
              [unfold Point.pattern_name, Point.segment_id, Point.trip_id,
                 Point.start_time, Point.shape;
               cbn; congruence|]).
      by apply elem_of_nil in Hp.
Qed.
End Scenario.

(** C8 on the synthetic route: the pings of 2024-09-09 at 08:00:00,
    08:00:30 and 08:01:00. *)
Lemma three_pings_cross_in_sixty_seconds_witness :
  exists (f : GeoFrame.t Street.geom) (st' : State.t Street.geom nat),
    points Street.one_segment 0 Street.fresh = (Ok f, st')
    /\ length (GeoFrame.rows f) = 3%nat
    /\ (exists c,
          PlotHourly.segment_times f = [c]
          /\ SegmentTime.enter_time c = Street.eight_am
          /\ SegmentTime.exit_time c = Street.eight_am + 60
          /\ SegmentTime.travel_time c = 60%Q
          /\ SegmentTime.hour_of_day c = 8)
    /\ (exists c,
          PlotHourlyDistributions.segment_times f = Ok [c]
          /\ Crossing.enter_time c = Street.eight_am
          /\ Crossing.exit_time c = Street.eight_am + 60
          /\ Crossing.travel_time c = 60%Q
          /\ Crossing.hour_of_day c = 8).
Proof.
  apply (three_pings_cross_in_sixty_seconds "6-VIC" ("Royal Oak", "Downtown") 0
           (Street.segment "S1" "A" "B" 1 0 100) (Street.trip "T1" "S1")
           (Street.ping "T1" Street.eight_am Street.eight_am 10)
           (Street.ping "T1" Street.eight_am (Street.eight_am + 30) 50)
           (Street.ping "T1" Street.eight_am (Street.eight_am + 60) 90)
           Street.eight_am).
  - reflexivity.
  - reflexivity.
  - reflexivity.
  - reflexivity.
  - reflexivity.
  - repeat constructor.
  - repeat constructor; vm_compute; discriminate.
  - reflexivity.
  - reflexivity.
  - reflexivity.
  - vm_compute. reflexivity.
Defined.

(** * Further properties *)

(** ** Sorted lists *)

Section SortedFacts.
Context {A : Type}.

Lemma StronglySorted_lookup (R : relation A) (l : list A) (i j : nat) (x y : A) :
  StronglySorted R l -> (i < j)%nat ->
  l !! i = Some x -> l !! j = Some y -> R x y.
Proof.
  intros Hs. revert i j. induction Hs as [|a l Hs IH Hall]; intros i j Hij Hi Hj.
  - done.
  - destruct j as [|j]; [lia|]. simpl in Hj. destruct i as [|i].
    + injection Hi as <-. rewrite Forall_forall in Hall.
      apply Hall. apply list_elem_of_lookup. eauto.
    + simpl in Hi. apply (IH i j); [lia|done|done].
Qed.
End SortedFacts.

(** ** What the join attaches *)

Section AttachFacts.
Context {Geom : Type} `{Geo Geom} `{Clock}.

Lemma vehicle_positions_row (self : RouteInfo.t Geom) (direction : Z) (v : Ping.t Geom) :
  v ∈ _vehicle_positions self direction ->
  VehiclePosition.route_id (Ping.row v) = RouteInfo.route self
  /\ VehiclePosition.direction_id (Ping.row v) = direction.
Proof.
  unfold _vehicle_positions. intros (i & r & -> & Hr)%elem_of_lookup_imap. simpl.
  apply list_elem_of_lookup_2 in Hr. unfold read_sql_query in Hr.
  rewrite merge_sort_Permutation in Hr.
  by apply list_elem_of_filter in Hr as [? _].
Qed.

Lemma elem_of_shape_group (self : RouteInfo.t Geom) (direction : Z) (name : string)
    (s : Segment.t Geom) :
  s ∈ shape_group self direction name <->
  exists s0, s0 ∈ RouteInfo._segments self
             /\ Segment.direction_id s0 = direction
             /\ Segment.shape_id s0 = name
             /\ s = segment_to_crs WGS84 EPSG26910 s0.
Proof.
  unfold shape_group, route_segments.
  rewrite list_elem_of_filter, list_elem_of_fmap. split.
  - intros (Hname & s0 & -> & Hs0). apply list_elem_of_filter in Hs0 as [Hd Hs0].
    exists s0. done.
  - intros (s0 & Hs0 & Hd & Hname & ->). split; [done|].
    exists s0. split; [done|]. by apply list_elem_of_filter.
Qed.
End AttachFacts.

(** X2.  Every row [points] returns joins a ping of the object's route
    and of the direction asked for to a row of the trip-to-pattern
    mapping with the ping's trip, route and direction, and to a segment
    of [feed.segments] (reprojected) that has the same route, the same
    direction and the shape of that pattern. *)
Theorem joined_rows_of_route_direction_shape {Geom Fig : Type} `{Geo Geom} `{Clock}
    (feed : Feed.t Geom) (db_path : list VehiclePosition.t) (route : string)
    (directions : string * string) (direction : Z) (st : State.t Geom Fig)
    (f : GeoFrame.t Geom) (st' : State.t Geom Fig) (p : Point.t Geom) :
  cache_consistent (__init__ feed db_path route directions) st ->
  points (__init__ feed db_path route directions) direction st = (Ok f, st') ->
  p ∈ GeoFrame.rows f ->
  (Ping.row (Point.ping p) ∈ db_path
   /\ VehiclePosition.route_id (Ping.row (Point.ping p)) = route
   /\ VehiclePosition.direction_id (Ping.row (Point.ping p)) = direction)
  /\ (Point.pattern p ∈ Feed.trips_patterns feed
      /\ TripPattern.trip_id (Point.pattern p) = Point.trip_id p
      /\ TripPattern.route_id (Point.pattern p) = route
      /\ TripPattern.direction_id (Point.pattern p) = direction)
  /\ (Segment.route_id (Point.segment p) = route
      /\ Segment.direction_id (Point.segment p) = direction
      /\ Segment.shape_id (Point.segment p) = TripPattern.shape_id (Point.pattern p)
      /\ exists s0, s0 ∈ Feed.segments feed
                    /\ Point.segment p = segment_to_crs WGS84 EPSG26910 s0).
Proof.
  intros Hc Hp Hin.
  destruct (points_row _ _ _ _ _ _ Hc Hp Hin) as (v & Hv & _ & Hrow & Htp & Hs).
  pose proof (vehicle_positions_row _ _ _ Hv) as [Hroute Hdir]. simpl in Hroute.
  assert (Hdb : Ping.row v ∈ db_path).
  { unfold _vehicle_positions in Hv.
    apply elem_of_lookup_imap in Hv as (i & r & -> & Hr). simpl.
    apply list_elem_of_lookup_2 in Hr. unfold read_sql_query in Hr.
    rewrite merge_sort_Permutation in Hr.
    by apply list_elem_of_filter in Hr as [_ ?]. }
  apply list_elem_of_filter in Htp as [(Htrip & Hproute & Hpdir) Htps].
  apply elem_of_nearest in Hs as (Hgrp & _ & _).
  apply elem_of_shape_group in Hgrp as (s0 & Hs0 & Hsd & Hshape & Hseg).
  simpl in Hs0. apply list_elem_of_filter in Hs0 as [Hsroute Hs0].
  unfold Point.trip_id. rewrite <- Hrow. rewrite Hseg. simpl in *.
  split; [done|]. split; [split_and!; [done|done|congruence|congruence]|].
  split_and!; try done. eauto.
Qed.

(** X2 on the synthetic route with one segment. *)
Lemma joined_rows_of_route_direction_shape_witness :
  exists f st' p,
    points Street.one_segment 0 Street.fresh = (Ok f, st')
    /\ GeoFrame.rows f !! 0%nat = Some p
    /\ Segment.shape_id (Point.segment p) = TripPattern.shape_id (Point.pattern p).
Proof.
  assert (Hrun : exists p, GeoFrame.rows (Street.joined Street.one_segment) !! 0%nat = Some p)
    by (eexists; vm_compute; reflexivity).
  destruct Hrun as [p Hp].
  exists (Street.joined Street.one_segment), (Street.cached Street.one_segment), p.
  assert (Hpts : points Street.one_segment 0 Street.fresh
                 = (Ok (Street.joined Street.one_segment), Street.cached Street.one_segment))
    by (vm_compute; reflexivity).
  split; [exact Hpts|]. split; [exact Hp|].
  apply (joined_rows_of_route_direction_shape
           (Feed.mk [Street.segment "S1" "A" "B" 1 0 100] [Street.trip "T1" "S1"])
           [Street.ping "T1" Street.eight_am Street.eight_am 10;
            Street.ping "T1" Street.eight_am (Street.eight_am + 30) 50;
            Street.ping "T1" Street.eight_am (Street.eight_am + 60) 90]
           "6-VIC" ("Royal Oak", "Downtown") 0 Street.fresh
           (Street.joined Street.one_segment) (Street.cached Street.one_segment) p).
  - apply cache_consistent_empty.
  - exact Hpts.
  - apply list_elem_of_lookup. eauto.
Defined.

Section NearestFacts.
Context {Geom : Type} `{Geo Geom} `{Clock}.

Lemma nearest_exists (g : Geom) (right : list (Segment.t Geom)) (max_distance : Q)
    (s : Segment.t Geom) :
  s ∈ right -> (distance g (Segment.geometry s) <= max_distance)%Q ->
  exists s', s' ∈ nearest g right max_distance.
Proof.
  intros Hs Hle. destruct right as [|s0 right]; [by apply elem_of_nil in Hs|].
  destruct (nearest_distance_attained g s0 right) as (s' & Hs' & Heq).
  exists s'. apply elem_of_nearest. split; [done|]. split.
  - rewrite <- Heq. eapply Qle_trans; [|exact Hle]. by apply nearest_distance_le.
  - intros s'' Hs''. rewrite <- Heq. by apply nearest_distance_le.
Qed.

(** A row of the joined frame is in the frame [points] returns, up to
    the reprojection of its point. *)
Lemma points_has_row {Fig : Type} (self : RouteInfo.t Geom) (direction : Z)
    (st : State.t Geom Fig) (f f0 : GeoFrame.t Geom) (st' : State.t Geom Fig)
    (p0 : Point.t Geom) :
  cache_consistent self st ->
  points self direction st = (Ok f, st') ->
  join_points self direction = Ok f0 ->
  p0 ∈ GeoFrame.rows f0 ->
  exists p, p ∈ GeoFrame.rows f
            /\ Point.index p = Point.index p0
            /\ Point.pattern p = Point.pattern p0
            /\ Point.segment p = Point.segment p0.
Proof.
  intros Hc Hp Hj Hp0. destruct (points_Ok _ _ _ _ _ Hc Hp) as (f0' & Hj' & Hf).
  rewrite Hj in Hj'. injection Hj' as <-. destruct Hf as [->| ->].
  - exists p0. done.
  - exists (Point.mk (ping_to_crs (GeoFrame.crs f0) WGS84 (Point.ping p0))
              (Point.pattern p0) (Point.segment p0)).
    split; [|done]. unfold to_crs. simpl.
    apply list_elem_of_fmap. exists p0. done.
Qed.
End NearestFacts.

(** X3.  The segment attached to a ping is a nearest one: no segment of
    the ping's shape group is nearer to the ping than the attached
    segment.  Conversely every segment of the shape group that is
    within 12 metres of the ping and as near as any other is attached,
    so a ping with some segment of its shape within 12 metres is never
    dropped. *)
Theorem points_attaches_the_nearest_segments {Geom Fig : Type} `{Geo Geom} `{Clock}
    (self : RouteInfo.t Geom) (direction : Z) (st : State.t Geom Fig)
    (f : GeoFrame.t Geom) (st' : State.t Geom Fig) :
  cache_consistent self st ->
  points self direction st = (Ok f, st') ->
  (forall p, p ∈ GeoFrame.rows f ->
     exists v,
       v ∈ _vehicle_positions self direction
       /\ Ping.index v = Point.index p
       /\ forall s, s ∈ shape_group self direction (TripPattern.shape_id (Point.pattern p)) ->
            (distance (transform WGS84 EPSG26910 (Ping.geometry v)) (Point.shape p)
             <= distance (transform WGS84 EPSG26910 (Ping.geometry v))
                         (Segment.geometry s))%Q)
  /\ (forall v tp s,
        v ∈ _vehicle_positions self direction ->
        tp ∈ patterns_of (Feed.trips_patterns (RouteInfo.feed self)) v ->
        s ∈ shape_group self direction (TripPattern.shape_id tp) ->
        (distance (transform WGS84 EPSG26910 (Ping.geometry v)) (Segment.geometry s)
         <= 12)%Q ->
        (exists p, p ∈ GeoFrame.rows f
                   /\ Point.index p = Ping.index v /\ Point.pattern p = tp)
        /\ ((forall s', s' ∈ shape_group self direction (TripPattern.shape_id tp) ->
               (distance (transform WGS84 EPSG26910 (Ping.geometry v)) (Segment.geometry s)
                <= distance (transform WGS84 EPSG26910 (Ping.geometry v))
                            (Segment.geometry s'))%Q) ->
            exists p, p ∈ GeoFrame.rows f
                      /\ Point.index p = Ping.index v /\ Point.pattern p = tp
                      /\ Point.segment p = s)).
Proof.
  intros Hc Hp. split.
  - intros p Hin.
    destruct (points_row _ _ _ _ _ _ Hc Hp Hin) as (v & Hv & Hidx & _ & _ & Hs).
    apply elem_of_nearest in Hs as (_ & _ & Hmin). exists v. done.
  - intros v tp s Hv Htp Hs Hle.
    destruct (points_Ok _ _ _ _ _ Hc Hp) as (f0 & Hj & _).
    assert (Hattach : forall s1,
               s1 ∈ nearest (transform WGS84 EPSG26910 (Ping.geometry v))
                       (shape_group self direction (TripPattern.shape_id tp)) 12 ->
               exists p, p ∈ GeoFrame.rows f
                         /\ Point.index p = Ping.index v /\ Point.pattern p = tp
                         /\ Point.segment p = s1).
    { intros s1 Hs1.
      assert (Hp0 : Point.mk (ping_to_crs WGS84 EPSG26910 v) tp s1 ∈ GeoFrame.rows f0).
      { apply (elem_of_join_points _ _ _ _ Hj). exists v. done. }
      destruct (points_has_row _ _ _ _ _ _ _ Hc Hp Hj Hp0) as (p & Hin & ? & ? & ?).
      exists p. done. }
    split.
    + destruct (nearest_exists _ _ _ _ Hs Hle) as (s1 & Hs1).
      destruct (Hattach s1 Hs1) as (p & ? & ? & ? & _). eauto.
    + intros Hmin. apply Hattach. apply elem_of_nearest. done.
Qed.

(** X3 on the ping at the stop shared by two segments: both segments
    are nearest, and the second is attached too. *)
Lemma points_attaches_the_nearest_segments_witness :
  exists f st' p,
    points Street.shared_stop 0 Street.fresh = (Ok f, st')
    /\ p ∈ GeoFrame.rows f
    /\ Point.index p = 0%nat
    /\ Point.segment p = Street.segment "S1" "B" "C" 2 100 200.
Proof.
  assert (Hpts : points Street.shared_stop 0 Street.fresh
                 = (Ok (Street.joined Street.shared_stop), Street.cached Street.shared_stop))
    by (vm_compute; reflexivity).
  pose (v := Ping.mk 0%nat (Street.ping "T1" Street.eight_am Street.eight_am 100)
                     8 (10 * (36 # 10))%Q (Street.At 100)).
  destruct (points_attaches_the_nearest_segments _ _ _ _ _
              (cache_consistent_empty _ _) Hpts) as [_ Hall].
  destruct (Hall v (Street.trip "T1" "S1") (Street.segment "S1" "B" "C" 2 100 200))
    as [_ Hrow].
  - vm_compute. left.
  - vm_compute. left.
  - vm_compute. right. left.
  - vm_compute. discriminate.
  - destruct Hrow as (p & Hin & Hidx & _ & Hseg).
    + intros s' Hs'. vm_compute in Hs'.
      apply elem_of_cons in Hs' as [->|Hs']; [vm_compute; discriminate|].
      apply list_elem_of_singleton in Hs' as ->. vm_compute. discriminate.
    + exists (Street.joined Street.shared_stop), (Street.cached Street.shared_stop), p.
      done.
Defined.

(** X4.  The number of rows of a ping is the number of nearest segments
    within 12 metres, summed over the rows of the trip-to-pattern
    mapping that carry the ping's trip, route and direction; a ping
    whose trip is not in the mapping has no row. *)
Theorem rows_of_a_ping_per_pattern {Geom Fig : Type} `{Geo Geom} `{Clock}
    (self : RouteInfo.t Geom) (direction : Z) (st : State.t Geom Fig)
    (f : GeoFrame.t Geom) (st' : State.t Geom Fig) (v : Ping.t Geom) :
  cache_consistent self st ->
  points self direction st = (Ok f, st') ->
  v ∈ _vehicle_positions self direction ->
  length (rows_of_ping (Ping.index v) f)
  = sum_list
      (map (fun tp =>
              length (nearest (transform WGS84 EPSG26910 (Ping.geometry v))
                        (shape_group self direction (TripPattern.shape_id tp)) 12))
           (patterns_of (Feed.trips_patterns (RouteInfo.feed self)) v))
  /\ (patterns_of (Feed.trips_patterns (RouteInfo.feed self)) v = [] ->
      rows_of_ping (Ping.index v) f = []).
Proof.
  intros Hc Hp Hv.
  assert (Hlen : length (rows_of_ping (Ping.index v) f)
                 = sum_list
                     (map (fun tp =>
                             length (nearest (transform WGS84 EPSG26910 (Ping.geometry v))
                                       (shape_group self direction
                                          (TripPattern.shape_id tp)) 12))
                          (patterns_of (Feed.trips_patterns (RouteInfo.feed self)) v))).
  { rewrite (points_rows_of_ping _ _ _ _ _ _ Hc Hp Hv).
    induction (patterns_of (Feed.trips_patterns (RouteInfo.feed self)) v) as [|tp l IH];
      [done|].
    simpl. rewrite length_app, IH. f_equal. unfold attach. simpl.
    by rewrite length_map. }
  split; [exact Hlen|].
  intros Hnone. rewrite Hnone in Hlen. simpl in Hlen.
  by apply length_zero_iff_nil.
Qed.

(** X4 on a table with a ping of a trip of the schedule and a ping of
    a trip that is not in the mapping: the first has a row, the second
    has none. *)
Lemma rows_of_a_ping_per_pattern_witness :
  exists f st',
    points Street2.unknown_trip 0 Street.fresh = (Ok f, st')
    /\ length (rows_of_ping 0 f) = 1%nat
    /\ rows_of_ping 1 f = [].
Proof.
  assert (Hpts : points Street2.unknown_trip 0 Street.fresh
                 = (Ok (Street.joined Street2.unknown_trip),
                    Street.cached Street2.unknown_trip))
    by (vm_compute; reflexivity).
  exists (Street.joined Street2.unknown_trip), (Street.cached Street2.unknown_trip).
  split; [exact Hpts|]. split; [vm_compute; reflexivity|].
  pose (v := Ping.mk 1%nat
               (Street.ping "T7" Street.eight_am (Street.eight_am + 30) 50)
               8 (10 * (36 # 10))%Q (Street.At 50)).
  destruct (rows_of_a_ping_per_pattern _ _ _ _ _ v (cache_consistent_empty _ _) Hpts)
    as [_ Hnone].
  - vm_compute. right. left.
  - apply Hnone. vm_compute. reflexivity.
Defined.

(** ** A shape without segments *)

Section MissingShape.
Context {Geom : Type} `{Geo Geom} `{Clock}.

Lemma mapM_Raise_intro {A B : Type} (f : A -> result B) (l : list A) (a : A) (e : exn) :
  a ∈ l -> f a = Raise e ->
  exists a' e', a' ∈ l /\ f a' = Raise e' /\ mapM f l = Raise e'.
Proof.
  induction l as [|x l IH]; [by intros ?%elem_of_nil|].
  intros Ha Hf. simpl. destruct (f x) as [b|e0] eqn:Ex.
  - apply elem_of_cons in Ha as [->|Ha]; [congruence|].
    destruct (IH Ha Hf) as (a' & e' & Ha' & Hf' & Hm).
    exists a', e'. rewrite Hm. split; [by right|done].
  - exists x, e0. split; [left|done].
Qed.

Lemma join_points_raises (self : RouteInfo.t Geom) (direction : Z)
    (p : Ping.t Geom) (tp : TripPattern.t) :
  (p, Some tp) ∈ patterned_positions self direction ->
  shape_group self direction (TripPattern.shape_id tp) = [] ->
  exists e, join_points self direction = Raise e.
Proof.
  intros Hin Hgrp. unfold join_points.
  set (key := fun r : Ping.t Geom * TripPattern.t => TripPattern.shape_id (snd r)).
  assert (Hkg : (key (p, tp),
                 filter (fun a => key a = key (p, tp))
                        (dropna (patterned_positions self direction)))
                ∈ groupby key (dropna (patterned_positions self direction))).
  { apply elem_of_groupby. split; [done|]. exists (p, tp).
    split; [by apply elem_of_dropna|done]. }
  edestruct (mapM_Raise_intro
               (fun '(name, x) =>
                  rbind (get_group (route_segments self direction) name)
                        (fun g => Ok (sjoin_nearest x g 12)))
               _ _ (KeyError (TripPattern.shape_id tp)) Hkg)
    as (a' & e' & _ & _ & Hm).
  - unfold key. cbn [snd]. unfold get_group.
    change (filter _ (route_segments self direction))
      with (shape_group self direction (TripPattern.shape_id tp)).
    by rewrite Hgrp.
  - exists e'. fold key. by rewrite Hm.
Qed.
End MissingShape.

(** X5.  On a direction not cached yet, [points] raises when some ping
    has a pattern whose shape has no segment in the direction, whatever
    the distances, and it raises when no ping of the direction has a
    pattern (for instance when the table has no ping of the direction).
    Whenever [points] raises, the object is left as it was: nothing is
    stored, so that the next call computes the join again. *)
Theorem points_raises_for_a_shape_without_segments {Geom Fig : Type} `{Geo Geom} `{Clock}
    (self : RouteInfo.t Geom) (direction : Z) (st : State.t Geom Fig) :
  State._point_data st !! direction = None ->
  ((exists p tp, (p, Some tp) ∈ patterned_positions self direction
                 /\ shape_group self direction (TripPattern.shape_id tp) = []) ->
   exists e, points self direction st = (Raise e, st))
  /\ ((forall p o, (p, o) ∈ patterned_positions self direction -> o = None) ->
      exists e, points self direction st = (Raise e, st))
  /\ (forall e st', points self direction st = (Raise e, st') -> st' = st).
Proof.
  intros Hnone. split; [|split].
  - intros (p & tp & Hin & Hgrp).
    destruct (join_points_raises _ _ _ _ Hin Hgrp) as [e He].
    exists e. rewrite points_miss by done. by rewrite He.
  - intros Hall. exists ValueErrorNaiveGeometries.
    rewrite points_miss by done.
    assert (Hnil : dropna (patterned_positions self direction) = []).
    { destruct (dropna (patterned_positions self direction)) as [|[p tp] l] eqn:E;
        [done|].
      assert (Hin : (p, tp) ∈ dropna (patterned_positions self direction))
        by (rewrite E; left).
      apply elem_of_dropna in Hin. by specialize (Hall _ _ Hin). }
    unfold join_points. by rewrite Hnil.
  - by intros e st' [_ ->]%points_Raise.
Qed.

(** X5 on a trip whose pattern names the shape S9, which has no
    segment, and on a table whose only trip is unknown to the
    schedule. *)
Lemma points_raises_for_a_shape_without_segments_witness :
  points Street2.lost_shape 0 Street.fresh = (Raise (KeyError "S9"), Street.fresh)
  /\ points Street2.no_pattern 0 Street.fresh
     = (Raise ValueErrorNaiveGeometries, Street.fresh).
Proof.
  split.
  - destruct (points_raises_for_a_shape_without_segments Street2.lost_shape 0
                Street.fresh (lookup_empty _)) as [Hraise _].
    destruct Hraise as (e & Hp).
    + eexists _, _. split; [vm_compute; left|]. vm_compute. reflexivity.
    + rewrite Hp. f_equal. vm_compute in Hp. by injection Hp as <-.
  - destruct (points_raises_for_a_shape_without_segments Street2.no_pattern 0
                Street.fresh (lookup_empty _)) as (_ & Hraise & _).
    destruct Hraise as (e & Hp).
    + intros p o Hin. vm_compute in Hin.
      apply list_elem_of_singleton in Hin. by injection Hin as _ <-.
    + rewrite Hp. f_equal. vm_compute in Hp. by injection Hp as <-.
Defined.

(** ** The dictionary is never invalidated *)

Section EntryFacts.
Context {Geom Fig : Type} `{Geo Geom} `{Clock} `{Plotly Geom Fig}.

Lemma keeps_entries_bind {A B : Type} (m : M Geom Fig A) (k : A -> M Geom Fig B) :
  keeps_entries m -> (forall a, keeps_entries (k a)) -> keeps_entries (bind m k).
Proof.
  intros Hm Hk st r st' d f. unfold bind.
  destruct (m st) as [[a|e] st1] eqn:Em.
  - intros Hka Hd. apply (Hk a st1 r st' d f Hka). by apply (Hm st _ st1 d f Em).
  - intros [= <- <-] Hd. by apply (Hm st _ st1 d f Em).
Qed.

Lemma keeps_entries_lift {A : Type} (r : result A) :
  keeps_entries (Geom:=Geom) (Fig:=Fig) (lift r).
Proof. intros st r' st' d f. unfold lift. by intros [= _ <-]. Qed.

Lemma keeps_entries_points (self : RouteInfo.t Geom) (direction : Z) :
  keeps_entries (points (Fig:=Fig) self direction).
Proof.
  intros st r st' d f. unfold points.
  destruct (State._point_data st !! direction) eqn:Ed.
  - by intros [= _ <-].
  - destruct (join_points self direction); intros [= _ <-]; [|done].
    simpl. intros Hd. rewrite lookup_insert_ne; [done|]. congruence.
Qed.

Lemma keeps_entries_save (self : RouteInfo.t Geom) (direction : Z) (view : string)
    (save_dir : option Path) (fig : Fig) :
  keeps_entries (save self direction view save_dir fig).
Proof.
  unfold save. destruct save_dir as [dir|].
  - apply keeps_entries_bind; [apply keeps_entries_lift|]. intros name.
    apply keeps_entries_bind.
    + intros st r st' d f. unfold write_html. by intros [= _ <-].
    + intros _ st r st' d f. unfold ret. by intros [= _ <-].
  - intros st r st' d f. unfold ret. by intros [= _ <-].
Qed.

Lemma keeps_entries_render (self : RouteInfo.t Geom) (direction : Z) (v : View)
    (save_dir : option Path) :
  keeps_entries (render self direction v save_dir).
Proof.
  destruct v; simpl;
    repeat first [ apply keeps_entries_bind; [|intros ?]
                 | apply keeps_entries_points
                 | apply keeps_entries_lift
                 | apply keeps_entries_save ].
Qed.
End EntryFacts.

(** X6.  A frame in the dictionary stays there: no call of [points] or
    of a plot method, for any direction, replaces or removes it, and
    after such a call [points] still returns it for its direction,
    whatever the table and the schedule hold by then. *)
Theorem cached_frame_is_never_invalidated {Geom Fig : Type}
    `{Geo Geom} `{Clock} `{Plotly Geom Fig}
    (st : State.t Geom Fig) (direction : Z) (f : GeoFrame.t Geom) :
  State._point_data st !! direction = Some f ->
  (forall self other r st',
     points self other st = (r, st') ->
     State._point_data st' !! direction = Some f)
  /\ (forall self other v save_dir r st',
        render self other v save_dir st = (r, st') ->
        State._point_data st' !! direction = Some f
        /\ forall changed, points changed direction st' = (Ok f, st')).
Proof.
  intros Hd. split.
  - intros self other r st' Hp. by apply (keeps_entries_points self other st r st').
  - intros self other v save_dir r st' Hr.
    assert (Hd' : State._point_data st' !! direction = Some f)
      by (by apply (keeps_entries_render self other v save_dir st r st')).
    split; [done|]. intros changed. by apply points_hit.
Qed.

(** X6 on the synthetic world: after the one-segment route has cached
    direction 0, a point map of the route with two shapes is rendered
    from that frame, and the frame stays. *)
Lemma cached_frame_is_never_invalidated_witness :
  exists r st',
    render Street.two_shapes 0 PointMap None (Street.cached Street.one_segment) = (r, st')
    /\ points Street.two_shapes 0 st'
       = (Ok (to_crs WGS84 (Street.joined Street.one_segment)), st').
Proof.
  set (res := render Street.two_shapes 0 PointMap None (Street.cached Street.one_segment)).
  assert (Hres : res = (fst res, snd res)) by apply surjective_pairing.
  exists (fst res), (snd res). split; [exact Hres|].
  assert (Hd : State._point_data (Street.cached Street.one_segment) !! 0
               = Some (to_crs WGS84 (Street.joined Street.one_segment)))
    by apply lookup_singleton_eq.
  destruct (cached_frame_is_never_invalidated _ _ _ Hd) as [_ Hrender].
  by apply (Hrender Street.two_shapes 0 PointMap None (fst res) (snd res)).
Defined.

(** ** The aggregations do not read the point geometry *)

Section ReprojectionFacts.
Context {Geom : Type} `{Geo Geom} `{Clock}.

Lemma groupby_fmap {A B K : Type} `{EqDecision K} (key : B -> K) (key' : A -> K)
    (g : A -> B) (l : list A) :
  (forall a, key (g a) = key' a) ->
  groupby key (map g l) = map (fun kg => (fst kg, map g (snd kg))) (groupby key' l).
Proof.
  intros Hkey. unfold groupby. rewrite !map_map.
  rewrite (map_ext (fun x => key (g x)) key' Hkey).
  apply map_ext. intros k. simpl. f_equal.
  rewrite filter_fmap_comm. f_equal. apply list_filter_iff. intros a.
  by rewrite Hkey.
Qed.

Lemma mapM_imap_ext {A B1 B2 C : Type} (F1 : B1 -> result C) (F2 : B2 -> result C)
    (g1 : nat -> A -> B1) (g2 : nat -> A -> B2) (l : list A) :
  (forall i a, F1 (g1 i a) = F2 (g2 i a)) ->
  mapM F1 (imap g1 l) = mapM F2 (imap g2 l).
Proof.
  revert g1 g2. induction l as [|a l IH]; intros g1 g2 Hg; [done|].
  simpl. rewrite Hg. rewrite (IH (g1 ∘ S) (g2 ∘ S)); [done|].
  intros i a'. apply Hg.
Qed.

Lemma segment_times_to_crs (c : CRS) (f : GeoFrame.t Geom) :
  PlotHourly.segment_times (to_crs c f) = PlotHourly.segment_times f.
Proof.
  unfold PlotHourly.segment_times, to_crs. cbn [GeoFrame.rows].
  rewrite (groupby_fmap _ (fun p => (Point.segment_id p, Point.trip_id p,
                                     Point.start_time p, Point.shape p))) by done.
  rewrite imap_fmap. apply imap_ext. intros i [[[[seg trip] start] shape] g] _.
  simpl. by rewrite !map_map.
Qed.

Lemma distribution_times_to_crs (c : CRS) (f : GeoFrame.t Geom) :
  PlotHourlyDistributions.segment_times (to_crs c f)
  = PlotHourlyDistributions.segment_times f.
Proof.
  unfold PlotHourlyDistributions.segment_times, to_crs. cbn [GeoFrame.rows].
  rewrite (groupby_fmap _ (fun p => (Point.pattern_name p, Point.segment_id p,
                             Segment.start_stop_name (Point.segment p),
                             Segment.start_stop_id (Point.segment p),
                             Segment.end_stop_name (Point.segment p),
                             Segment.end_stop_id (Point.segment p),
                             Point.trip_id p, Point.start_time p, Point.shape p)))
    by done.
  rewrite imap_fmap. apply mapM_imap_ext.
  intros i [[[[[[[[[pattern_name segment_id] start_stop_name] start_stop_id]
                 end_stop_name] end_stop_id] trip_id] start_time] shape] g].
  simpl. by rewrite !map_map.
Qed.
End ReprojectionFacts.

(** X7.  Two calls of [points] for one direction, the second answered
    from the dictionary, return frames with the same rows but for the
    point geometry: the same pings, patterns and segments under the
    same index labels, in the same order.  Both aggregations compute
    the same crossings from either frame. *)
Theorem aggregations_agree_on_both_frames {Geom Fig : Type} `{Geo Geom} `{Clock}
    (self : RouteInfo.t Geom) (direction : Z) (st : State.t Geom Fig)
    (f1 : GeoFrame.t Geom) (st1 : State.t Geom Fig)
    (f2 : GeoFrame.t Geom) (st2 : State.t Geom Fig) :
  points self direction st = (Ok f1, st1) ->
  points self direction st1 = (Ok f2, st2) ->
  map row_data (GeoFrame.rows f2) = map row_data (GeoFrame.rows f1)
  /\ PlotHourly.segment_times f2 = PlotHourly.segment_times f1
  /\ PlotHourly.hourly_segment_times (PlotHourly.segment_times f2)
     = PlotHourly.hourly_segment_times (PlotHourly.segment_times f1)
  /\ PlotHourlyDistributions.segment_times f2 = PlotHourlyDistributions.segment_times f1.
Proof.
  intros Hp1 Hp2.
  assert (Hf : f2 = f1 \/ f2 = to_crs WGS84 f1).
  { destruct (State._point_data st !! direction) as [f|] eqn:Ed.
    - rewrite (points_hit _ _ _ _ Ed) in Hp1. injection Hp1 as <- <-.
      rewrite (points_hit _ _ _ _ Ed) in Hp2. injection Hp2 as <- _. by left.
    - destruct (points_first_then_cached _ _ _ _ _ Ed Hp1) as (_ & Hsecond & _).
      rewrite Hsecond in Hp2. injection Hp2 as <- _. by right. }
  destruct Hf as [->| ->]; [done|].
  rewrite segment_times_to_crs, distribution_times_to_crs.
  split; [|done]. unfold to_crs. cbn [GeoFrame.rows]. by rewrite map_map.
Qed.

(** X7 on the synthetic route with one segment. *)
Lemma aggregations_agree_on_both_frames_witness :
  exists f1 st1 f2 st2,
    points Street.one_segment 0 Street.fresh = (Ok f1, st1)
    /\ points Street.one_segment 0 st1 = (Ok f2, st2)
    /\ f1 <> f2
    /\ PlotHourly.segment_times f2 = PlotHourly.segment_times f1.
Proof.
  assert (Hp1 : points Street.one_segment 0 Street.fresh
                = (Ok (Street.joined Street.one_segment), Street.cached Street.one_segment))
    by (vm_compute; reflexivity).
  assert (Hp2 : points Street.one_segment 0 (Street.cached Street.one_segment)
                = (Ok (to_crs WGS84 (Street.joined Street.one_segment)),
                   Street.cached Street.one_segment))
    by (apply points_hit, lookup_singleton_eq).
  eexists _, _, _, _. split; [exact Hp1|]. split; [exact Hp2|]. split.
  - intros Heq. apply (f_equal GeoFrame.crs) in Heq. vm_compute in Heq. discriminate.
  - by destruct (aggregations_agree_on_both_frames _ _ _ _ _ _ _ Hp1 Hp2) as (_ & ? & _).
Defined.

(** ** Crossings *)

Section ExtremaFacts.

Lemma minimum_le (l : list Z) (x : Z) : x ∈ l -> minimum l <= x.
Proof.
  destruct l as [|a l]; [by intros ?%elem_of_nil|]. simpl.
  induction l as [|b l IH]; simpl.
  - intros ->%list_elem_of_singleton. lia.
  - intros Hx. apply elem_of_cons in Hx as [->|Hx].
    + assert (foldr Z.min a l <= a) by (apply IH; left). lia.
    + apply elem_of_cons in Hx as [->|Hx]; [lia|].
      assert (foldr Z.min a l <= x) by (apply IH; by right). lia.
Qed.

Lemma maximum_ge (l : list Z) (x : Z) : x ∈ l -> x <= maximum l.
Proof.
  destruct l as [|a l]; [by intros ?%elem_of_nil|]. simpl.
  induction l as [|b l IH]; simpl.
  - intros ->%list_elem_of_singleton. lia.
  - intros Hx. apply elem_of_cons in Hx as [->|Hx].
    + assert (a <= foldr Z.max a l) by (apply IH; left). lia.
    + apply elem_of_cons in Hx as [->|Hx]; [lia|].
      assert (x <= foldr Z.max a l) by (apply IH; by right). lia.
Qed.

Lemma minimum_elem (l : list Z) : l <> [] -> minimum l ∈ l.
Proof.
  destruct l as [|a l]; [done|]. intros _. simpl.
  induction l as [|b l IH]; simpl; [left|].
  destruct (Z.min_spec b (foldr Z.min a l)) as [[_ ->]|[_ ->]]; [right; left|].
  apply elem_of_cons in IH as [->|IH]; [left|right; by right].
Qed.

Lemma maximum_elem (l : list Z) : l <> [] -> maximum l ∈ l.
Proof.
  destruct l as [|a l]; [done|]. intros _. simpl.
  induction l as [|b l IH]; simpl; [left|].
  destruct (Z.max_spec b (foldr Z.max a l)) as [[_ ->]|[_ ->]]; [|right; left].
  apply elem_of_cons in IH as [->|IH]; [left|right; by right].
Qed.

Lemma nth_between (l s : list Z) (i : nat) :
  s ≡ₚ l -> (i < length s)%nat -> minimum l <= nth i s 0 <= maximum l.
Proof.
  intros Hperm Hi.
  assert (Hin : nth i s 0 ∈ l).
  { rewrite <- Hperm. apply list_elem_of_In, nth_In. exact Hi. }
  split; [by apply minimum_le|by apply maximum_ge].
Qed.

(** The median lies between the extremes. *)
Lemma median_between (l : list Z) :
  l <> [] -> minimum l <= median l <= maximum l.
Proof.
  intros Hl. unfold median.
  pose proof (merge_sort_Permutation Z.le l) as Hperm.
  assert (Hlen : (0 < length (merge_sort Z.le l))%nat).
  { rewrite Hperm. destruct l; [done|simpl; lia]. }
  set (s := merge_sort Z.le l) in *. set (n := length s) in *.
  assert (Hhalf : (n / 2 < n)%nat) by (apply Nat.div_lt; lia).
  destruct (Nat.even n) eqn:Heven.
  - assert (Hprev : (n / 2 - 1 < n)%nat) by lia.
    pose proof (nth_between l s (n / 2 - 1) Hperm Hprev).
    pose proof (nth_between l s (n / 2) Hperm Hhalf).
    set (a := nth (n / 2 - 1) s 0) in *. set (b := nth (n / 2) s 0) in *.
    pose proof (Z.div_mod (a + b) 2 ltac:(lia)).
    pose proof (Z.mod_pos_bound (a + b) 2 ltac:(lia)). lia.
  - by apply nth_between.
Qed.
End ExtremaFacts.

Section CrossingFacts.
Context {Geom : Type} `{Geo Geom} `{Clock}.

(** A crossing is made of the group of its key. *)
Lemma elem_of_segment_times (points : GeoFrame.t Geom) (c : SegmentTime.t Geom) :
  c ∈ PlotHourly.segment_times points ->
  let ts := map Point.timestamp (crossing_points points c) in
  crossing_points points c <> []
  /\ SegmentTime.enter_time c = minimum ts
  /\ SegmentTime.exit_time c = maximum ts
  /\ SegmentTime.travel_time c = inject_Z (maximum ts - minimum ts)
  /\ SegmentTime.hour_of_day c = hour (median ts).
Proof.
  unfold PlotHourly.segment_times.
  intros (i & [[[[seg trip] start] shape] g] & -> & Hi)%elem_of_lookup_imap.
  apply list_elem_of_lookup_2, elem_of_groupby in Hi as [Hg (p & Hp & Hk)].
  unfold crossing_points. simpl. rewrite <- Hg. split; [|done].
  intros ->. symmetry in Hg. by apply (filter_nil_not_elem_of _ _ p Hg Hk).
Qed.

Lemma segment_times_key_position (points : GeoFrame.t Geom) (i : nat)
    (c : SegmentTime.t Geom) :
  PlotHourly.segment_times points !! i = Some c ->
  map fst (groupby (fun p : Point.t Geom => (Point.segment_id p, Point.trip_id p,
                                            Point.start_time p, Point.shape p))
                   (GeoFrame.rows points)) !! i
  = Some (SegmentTime.segment_id c, SegmentTime.trip_id c,
          SegmentTime.start_time c, SegmentTime.geometry c)
  /\ SegmentTime.index c = i.
Proof.
  unfold PlotHourly.segment_times. rewrite list_lookup_imap, list_lookup_fmap.
  destruct (groupby _ _ !! i) as [[[[[seg trip] start] shape] g]|]; simpl; [|done].
  by intros [= <-].
Qed.
End CrossingFacts.

(** X8.  A crossing of [plot_hourly] is made of at least one joined
    point; it enters at the earliest and leaves at the latest timestamp
    of its points, so that its travel time is never negative, and is 0
    exactly when all its points have one timestamp (a crossing seen by
    a single ping).  Its hour is that of an instant between entering
    and leaving, from 0 to 23; and no other crossing has its segment
    identifier, trip, start time and segment geometry. *)
Theorem crossing_enters_first_and_leaves_last {Geom : Type} `{Geo Geom} `{Clock}
    (points : GeoFrame.t Geom) (c : SegmentTime.t Geom) :
  c ∈ PlotHourly.segment_times points ->
  crossing_points points c <> []
  /\ (forall p, p ∈ crossing_points points c ->
        SegmentTime.enter_time c <= Point.timestamp p <= SegmentTime.exit_time c)
  /\ (exists p, p ∈ crossing_points points c
                /\ Point.timestamp p = SegmentTime.enter_time c)
  /\ (exists p, p ∈ crossing_points points c
                /\ Point.timestamp p = SegmentTime.exit_time c)
  /\ SegmentTime.travel_time c
     = inject_Z (SegmentTime.exit_time c - SegmentTime.enter_time c)
  /\ (0 <= SegmentTime.travel_time c)%Q
  /\ ((SegmentTime.travel_time c == 0)%Q <->
      forall p q, p ∈ crossing_points points c -> q ∈ crossing_points points c ->
                  Point.timestamp p = Point.timestamp q)
  /\ (exists m, SegmentTime.enter_time c <= m <= SegmentTime.exit_time c
                /\ SegmentTime.hour_of_day c = hour m
                /\ 0 <= SegmentTime.hour_of_day c < 24)
  /\ (forall c', c' ∈ PlotHourly.segment_times points ->
        SegmentTime.segment_id c' = SegmentTime.segment_id c ->
        SegmentTime.trip_id c' = SegmentTime.trip_id c ->
        SegmentTime.start_time c' = SegmentTime.start_time c ->
        SegmentTime.geometry c' = SegmentTime.geometry c ->
        c' = c).
Proof.
  intros Hc.
  destruct (elem_of_segment_times _ _ Hc) as (Hne & Henter & Hexit & Htt & Hhour).
  set (pts := crossing_points points c) in *.
  assert (Hts : map Point.timestamp pts <> [])
    by (intros Hnil; apply Hne; by apply map_eq_nil in Hnil).
  assert (Hbetween : forall p, p ∈ pts ->
            SegmentTime.enter_time c <= Point.timestamp p <= SegmentTime.exit_time c).
  { intros p Hp. rewrite Henter, Hexit.
    assert (Point.timestamp p ∈ map Point.timestamp pts)
      by (apply list_elem_of_fmap; eauto).
    split; [by apply minimum_le|by apply maximum_ge]. }
  assert (Hfirst : exists p, p ∈ pts /\ Point.timestamp p = SegmentTime.enter_time c).
  { pose proof (minimum_elem _ Hts) as Hin.
    apply list_elem_of_fmap in Hin as (p & Hp & Hin). exists p. split; [done|].
    by rewrite Henter. }
  assert (Hlast : exists p, p ∈ pts /\ Point.timestamp p = SegmentTime.exit_time c).
  { pose proof (maximum_elem _ Hts) as Hin.
    apply list_elem_of_fmap in Hin as (p & Hp & Hin). exists p. split; [done|].
    by rewrite Hexit. }
  assert (Horder : SegmentTime.enter_time c <= SegmentTime.exit_time c).
  { destruct Hfirst as (p & Hp & <-). by apply Hbetween. }
  assert (Htt' : SegmentTime.travel_time c
                 = inject_Z (SegmentTime.exit_time c - SegmentTime.enter_time c))
    by (by rewrite Htt, Henter, Hexit).
  split; [done|]. split; [done|]. split; [done|]. split; [done|]. split; [done|].
  split; [|split; [|split]].
  - rewrite Htt'. unfold Qle. simpl. lia.
  - rewrite Htt'. unfold Qeq. simpl. split.
    + intros Hzero p q Hp Hq.
      pose proof (Hbetween p Hp). pose proof (Hbetween q Hq). lia.
    + intros Hsame. destruct Hfirst as (p & Hp & <-). destruct Hlast as (q & Hq & <-).
      rewrite (Hsame p q Hp Hq). lia.
  - exists (median (map Point.timestamp pts)). rewrite Henter, Hexit, Hhour.
    split; [by apply median_between|]. split; [done|].
    unfold hour. apply Z.mod_pos_bound. lia.
  - intros c' Hc' Hseg Htrip Hstart Hgeo.
    apply list_elem_of_lookup in Hc as [i Hi]. apply list_elem_of_lookup in Hc' as [j Hj].
    destruct (segment_times_key_position _ _ _ Hi) as [Hki _].
    destruct (segment_times_key_position _ _ _ Hj) as [Hkj _].
    rewrite Hseg, Htrip, Hstart, Hgeo in Hkj.
    pose proof (NoDup_lookup _ _ _ _ (NoDup_groupby_keys _ _) Hki Hkj) as ->.
    congruence.
Qed.

(** X8 on a trip seen by one ping on its first segment: the crossing
    has travel time 0. *)
Lemma crossing_enters_first_and_leaves_last_witness :
  exists c,
    PlotHourly.segment_times (Street.joined Street2.single_ping) !! 0%nat = Some c
    /\ length (crossing_points (Street.joined Street2.single_ping) c) = 1%nat
    /\ (SegmentTime.travel_time c == 0)%Q.
Proof.
  assert (Hrun : exists c,
             PlotHourly.segment_times (Street.joined Street2.single_ping) !! 0%nat = Some c)
    by (eexists; vm_compute; reflexivity).
  destruct Hrun as (c & Hc). exists c. split; [exact Hc|].
  destruct (crossing_enters_first_and_leaves_last _ c (list_elem_of_lookup_2 _ _ _ Hc))
    as (_ & _ & _ & _ & _ & _ & Hzero & _).
  vm_compute in Hc. injection Hc as <-. split; [vm_compute; reflexivity|].
  apply Hzero. intros p q Hp Hq. vm_compute in Hp, Hq.
  apply list_elem_of_singleton in Hp, Hq. by subst.
Defined.

(** ** The rows of the hourly statistics *)

Section StatFacts.
Context {Geom : Type} `{Geo Geom} `{Clock}.

Lemma Qminimum_le (l : list Q) (x : Q) : x ∈ l -> (Qminimum l <= x)%Q.
Proof.
  destruct l as [|a l]; [by intros ?%elem_of_nil|]. simpl. revert x.
  induction l as [|b l IH]; intros x; simpl.
  - intros ->%list_elem_of_singleton. apply Qle_refl.
  - intros Hx. apply elem_of_cons in Hx as [->|Hx].
    + eapply Qle_trans; [apply Q.le_min_r|]. apply IH. left.
    + apply elem_of_cons in Hx as [->|Hx]; [apply Q.le_min_l|].
      eapply Qle_trans; [apply Q.le_min_r|]. apply IH. by right.
Qed.

Lemma Qmaximum_ge (l : list Q) (x : Q) : x ∈ l -> (x <= Qmaximum l)%Q.
Proof.
  destruct l as [|a l]; [by intros ?%elem_of_nil|]. simpl. revert x.
  induction l as [|b l IH]; intros x; simpl.
  - intros ->%list_elem_of_singleton. apply Qle_refl.
  - intros Hx. apply elem_of_cons in Hx as [->|Hx].
    + eapply Qle_trans; [|apply Q.le_max_r]. apply IH. left.
    + apply elem_of_cons in Hx as [->|Hx]; [apply Q.le_max_l|].
      eapply Qle_trans; [|apply Q.le_max_r]. apply IH. by right.
Qed.

Lemma Qminimum_elem (l : list Q) :
  l <> [] -> exists x, x ∈ l /\ (Qminimum l == x)%Q.
Proof.
  destruct l as [|a l]; [done|]. intros _. simpl.
  induction l as [|b l IH]; simpl.
  - exists a. split; [left|reflexivity].
  - destruct IH as (x & Hx & Heq).
    destruct (Q.min_spec b (foldr Qmin a l)) as [[_ Hm]|[_ Hm]].
    + exists b. split; [right; left|exact Hm].
    + exists x. split.
      * apply elem_of_cons in Hx as [->|Hx]; [left|right; by right].
      * by rewrite Hm.
Qed.

Lemma Qmaximum_elem (l : list Q) :
  l <> [] -> exists x, x ∈ l /\ (Qmaximum l == x)%Q.
Proof.
  destruct l as [|a l]; [done|]. intros _. simpl.
  induction l as [|b l IH]; simpl.
  - exists a. split; [left|reflexivity].
  - destruct IH as (x & Hx & Heq).
    destruct (Q.max_spec b (foldr Qmax a l)) as [[_ Hm]|[_ Hm]].
    + exists x. split.
      * apply elem_of_cons in Hx as [->|Hx]; [left|right; by right].
      * by rewrite Hm.
    + exists b. split; [right; left|exact Hm].
Qed.

Lemma Qsum_lower (l : list Q) (a : Q) :
  (forall x, x ∈ l -> (a <= x)%Q) ->
  (a * inject_Z (Z.of_nat (length l)) <= Qsum l)%Q.
Proof.
  induction l as [|x l IH]; intros Hall.
  - simpl. rewrite Qmult_0_r. apply Qle_refl.
  - simpl length. rewrite Nat2Z.inj_succ, <- Z.add_1_r, inject_Z_plus.
    rewrite Qmult_plus_distr_r, Qmult_1_r. simpl Qsum. rewrite Qplus_comm.
    apply Qplus_le_compat; [apply Hall; left|].
    apply IH. intros y Hy. apply Hall. by right.
Qed.

Lemma Qsum_upper (l : list Q) (a : Q) :
  (forall x, x ∈ l -> (x <= a)%Q) ->
  (Qsum l <= a * inject_Z (Z.of_nat (length l)))%Q.
Proof.
  induction l as [|x l IH]; intros Hall.
  - simpl. rewrite Qmult_0_r. apply Qle_refl.
  - simpl length. rewrite Nat2Z.inj_succ, <- Z.add_1_r, inject_Z_plus.
    rewrite Qmult_plus_distr_r, Qmult_1_r. simpl Qsum.
    rewrite (Qplus_comm (a * _)).
    apply Qplus_le_compat; [apply Hall; left|].
    apply IH. intros y Hy. apply Hall. by right.
Qed.

Lemma Qmean_between (l : list Q) (a b : Q) :
  l <> [] ->
  (forall x, x ∈ l -> (a <= x)%Q) -> (forall x, x ∈ l -> (x <= b)%Q) ->
  (a <= Qmean l <= b)%Q.
Proof.
  intros Hl Ha Hb.
  assert (Hn : (0 < inject_Z (Z.of_nat (length l)))%Q).
  { destruct l; [done|]. unfold Qlt. simpl. lia. }
  unfold Qmean. split.
  - apply Qle_shift_div_l; [done|]. by apply Qsum_lower.
  - apply Qle_shift_div_r; [done|]. by apply Qsum_upper.
Qed.
End StatFacts.

Section StatRows.
Context {Geom : Type} `{Geo Geom} `{Clock}.

Lemma fmap_imap_eq {A B C : Type} (g : B -> C) (f : nat -> A -> B) (h : A -> C)
    (l : list A) :
  (forall i a, g (f i a) = h a) -> map g (imap f l) = map h l.
Proof.
  intros Hg. revert f Hg. induction l as [|a l IH]; intros f Hg; [done|].
  simpl. rewrite Hg. f_equal. apply IH. intros i a'. apply Hg.
Qed.

Lemma sum_list_lengths {A : Type} (G : list (list A)) :
  sum_list (map length G) = length (concat G).
Proof.
  induction G as [|g G IH]; [done|]. simpl. by rewrite length_app, IH.
Qed.

(** A row of the statistics and the travel times it is made of. *)
Lemma hourly_row_travel_times (segment_times : list (SegmentTime.t Geom))
    (r : HourlyStat.t Geom) :
  r ∈ PlotHourly.hourly_segment_times segment_times ->
  exists tt : list Q,
    tt = map SegmentTime.travel_time
             (crossings_in_bucket segment_times (HourlyStat.segment_id r)
                (HourlyStat.hour_of_day r) (HourlyStat.geometry r))
    /\ tt <> []
    /\ HourlyStat.count r = length tt
    /\ HourlyStat.mean r = Qmean tt
    /\ HourlyStat.min r = Qminimum tt
    /\ HourlyStat.max r = Qmaximum tt.
Proof.
  unfold PlotHourly.hourly_segment_times.
  intros (i & [[[seg h] geo] g] & -> & Hi)%elem_of_lookup_imap. simpl.
  apply list_elem_of_lookup_2, elem_of_groupby in Hi as [Hg (c & Hc & Hk)].
  assert (Hb : crossings_in_bucket segment_times seg h geo = g).
  { rewrite Hg, list_filter_filter. unfold crossings_in_bucket.
    apply list_filter_iff. intros c'. split.
    - intros (? & <- & <- & <-). done.
    - intros [[= <- <- <-] ?]. done. }
  rewrite Hb. eexists. split; [reflexivity|]. split; [|done].
  intros Hnil%map_eq_nil. rewrite Hnil in Hg. symmetry in Hg.
  by apply (filter_nil_not_elem_of _ _ c Hg Hk).
Qed.
End StatRows.

(** X9.  The hourly statistics have one row per segment identifier,
    hour and geometry, under the index labels 0, 1, 2, ...; the counts
    of the rows add up to the number of crossings with a positive
    travel time, so that each such crossing is counted once. *)
Theorem hourly_rows_partition_the_crossings {Geom : Type} `{Geo Geom} `{Clock}
    (segment_times : list (SegmentTime.t Geom)) :
  NoDup (map stat_key (PlotHourly.hourly_segment_times segment_times))
  /\ sum_list (map HourlyStat.count (PlotHourly.hourly_segment_times segment_times))
     = length (filter (fun c => (0 < SegmentTime.travel_time c)%Q) segment_times)
  /\ (forall i r, PlotHourly.hourly_segment_times segment_times !! i = Some r ->
                  HourlyStat.index r = i)
  /\ (forall c, c ∈ segment_times -> (0 < SegmentTime.travel_time c)%Q ->
        exists r, r ∈ PlotHourly.hourly_segment_times segment_times
                  /\ stat_key r = (SegmentTime.segment_id c, SegmentTime.hour_of_day c,
                                   SegmentTime.geometry c)).
Proof.
  set (key := fun c : SegmentTime.t Geom =>
                (SegmentTime.segment_id c, SegmentTime.hour_of_day c,
                 SegmentTime.geometry c)).
  set (l := filter (fun c => (0 < SegmentTime.travel_time c)%Q) segment_times).
  split; [|split; [|split]].
  - unfold PlotHourly.hourly_segment_times. fold key. fold l.
    rewrite (fmap_imap_eq _ _ fst).
    + apply NoDup_groupby_keys.
    + by intros i [[[seg h] geo] g].
  - unfold PlotHourly.hourly_segment_times. fold key. fold l.
    rewrite (fmap_imap_eq _ _ (fun kg => length (snd kg))).
    + rewrite <- (map_map snd length), sum_list_lengths.
      by rewrite groupby_Permutation.
    + intros i [[[seg h] geo] g]. simpl. by rewrite length_map.
  - intros i r. unfold PlotHourly.hourly_segment_times. rewrite list_lookup_imap.
    destruct (groupby _ _ !! i) as [[[[seg h] geo] g]|]; simpl; [|done].
    by intros [= <-].
  - intros c Hc Hpos.
    destruct (hourly_segment_times_covers _ _ Hc Hpos) as (r & Hr & Hs & Hh & Hg).
    exists r. split; [done|]. unfold stat_key. by rewrite Hs, Hh, Hg.
Qed.

(** X10.  In every row of the hourly statistics the smallest travel
    time is positive and the mean lies between the smallest and the
    largest travel time, which are travel times of crossings of the
    row's bucket. *)
Theorem hourly_row_mean_between_extremes {Geom : Type} `{Geo Geom} `{Clock}
    (segment_times : list (SegmentTime.t Geom)) (r : HourlyStat.t Geom) :
  r ∈ PlotHourly.hourly_segment_times segment_times ->
  (0 < HourlyStat.min r)%Q
  /\ (HourlyStat.min r <= HourlyStat.mean r)%Q
  /\ (HourlyStat.mean r <= HourlyStat.max r)%Q
  /\ (exists c, c ∈ crossings_in_bucket segment_times (HourlyStat.segment_id r)
                      (HourlyStat.hour_of_day r) (HourlyStat.geometry r)
                /\ (HourlyStat.min r == SegmentTime.travel_time c)%Q)
  /\ (exists c, c ∈ crossings_in_bucket segment_times (HourlyStat.segment_id r)
                      (HourlyStat.hour_of_day r) (HourlyStat.geometry r)
                /\ (HourlyStat.max r == SegmentTime.travel_time c)%Q).
Proof.
  intros Hr.
  destruct (hourly_row_travel_times _ _ Hr) as (tt & Htt & Hne & _ & Hmean & Hmin & Hmax).
  rewrite Hmin, Hmax, Hmean.
  destruct (Qminimum_elem tt Hne) as (x & Hx & Hxeq).
  destruct (Qmaximum_elem tt Hne) as (y & Hy & Hyeq).
  assert (Hfrom : forall z, z ∈ tt ->
            exists c, c ∈ crossings_in_bucket segment_times (HourlyStat.segment_id r)
                            (HourlyStat.hour_of_day r) (HourlyStat.geometry r)
                      /\ z = SegmentTime.travel_time c).
  { intros z Hz. rewrite Htt in Hz. apply list_elem_of_fmap in Hz as (c & -> & Hc). eauto. }
  destruct (Qmean_between tt (Qminimum tt) (Qmaximum tt) Hne) as [Hlo Hhi].
  { intros z Hz. by apply Qminimum_le. }
  { intros z Hz. by apply Qmaximum_ge. }
  split; [|split; [done|split; [done|split]]].
  - rewrite Hxeq. destruct (Hfrom x Hx) as (c & Hc & ->).
    unfold crossings_in_bucket in Hc. by apply list_elem_of_filter in Hc as [[? _] _].
  - destruct (Hfrom x Hx) as (c & Hc & ->). eauto.
  - destruct (Hfrom y Hy) as (c & Hc & ->). eauto.
Qed.

(** X10 on the route with two shapes: its first row has one crossing of
    10 seconds. *)
Lemma hourly_row_mean_between_extremes_witness :
  exists r,
    PlotHourly.hourly_segment_times
      (PlotHourly.segment_times (Street.joined Street.two_shapes)) !! 0%nat = Some r
    /\ (0 < HourlyStat.min r)%Q
    /\ (HourlyStat.min r <= HourlyStat.mean r)%Q.
Proof.
  assert (Hrun : exists r,
             PlotHourly.hourly_segment_times
               (PlotHourly.segment_times (Street.joined Street.two_shapes)) !! 0%nat
             = Some r)
    by (eexists; vm_compute; reflexivity).
  destruct Hrun as (r & Hr). exists r. split; [exact Hr|].
  by destruct (hourly_row_mean_between_extremes _ r (list_elem_of_lookup_2 _ _ _ Hr))
    as (? & ? & _).
Defined.

(** ** The stop sequence of a crossing *)

Section StopSequenceFacts.
Context {Geom : Type} `{Geo Geom} `{Clock}.

Lemma strictmode_Ok_elem (name : string) (s : list Z) (v : Z) :
  strictmode (Series.mk name s) = Ok v -> v ∈ s.
Proof.
  unfold strictmode. simpl.
  destruct (Series.mode s) as [|x [|y m]] eqn:E; simpl; [done| |done].
  intros [= <-].
  assert (Hx : x ∈ Series.mode s) by (rewrite E; left).
  by apply elem_of_mode in Hx as [? _].
Qed.

Lemma strictmode_Raise_inv (name : string) (s : list Z) (e : exn) :
  s <> [] ->
  strictmode (Series.mk name s) = Raise e ->
  e = ValueErrorMultipleModes name (Series.value_counts s)
  /\ exists x y, x <> y /\ x ∈ s /\ y ∈ s.
Proof.
  intros Hs. unfold strictmode. simpl.
  pose proof (mode_nonempty s Hs) as Hne.
  pose proof (NoDup_mode s) as Hnd.
  destruct (Series.mode s) as [|x [|y m]] eqn:E; simpl; [done|done|].
  intros [= <-]. split; [done|]. exists x, y.
  assert (Hx : x ∈ Series.mode s) by (rewrite E; left).
  assert (Hy : y ∈ Series.mode s) by (rewrite E; right; left).
  apply elem_of_mode in Hx as [Hx _]. apply elem_of_mode in Hy as [Hy _].
  split; [|done]. intros ->. apply NoDup_cons in Hnd as [Hnotin _].
  apply Hnotin. left.
Qed.
End StopSequenceFacts.

(** X11.  The aggregation of [plot_hourly_distributions] raises only
    the error of [strictmode], naming the column [stop_sequence], and
    only when two joined points that agree on the nine key columns
    carry different stop sequences; when no two such points exist it
    returns.  When it returns there is one crossing per group of the
    key columns, and the stop sequence of a crossing is the stop
    sequence of one of its points. *)
Theorem distribution_crossings_raise_on_mixed_stop_sequences
    {Geom : Type} `{Geo Geom} `{Clock} (points : GeoFrame.t Geom) :
  (forall e,
     PlotHourlyDistributions.segment_times points = Raise e ->
     (exists counts, e = ValueErrorMultipleModes "stop_sequence" counts)
     /\ exists p q, p ∈ GeoFrame.rows points /\ q ∈ GeoFrame.rows points
                    /\ distribution_key p = distribution_key q
                    /\ Point.stop_sequence p <> Point.stop_sequence q)
  /\ (forall segment_times,
        PlotHourlyDistributions.segment_times points = Ok segment_times ->
        length segment_times
        = length (groupby distribution_key (GeoFrame.rows points))
        /\ forall c, c ∈ segment_times ->
             exists p, p ∈ GeoFrame.rows points
                       /\ distribution_key p
                          = (Crossing.pattern_name c, Crossing.segment_id c,
                             Crossing.start_stop_name c, Crossing.start_stop_id c,
                             Crossing.end_stop_name c, Crossing.end_stop_id c,
                             Crossing.trip_id c, Crossing.start_time c, Crossing.shape c)
                       /\ Crossing.stop_sequence c = Point.stop_sequence p)
  /\ ((forall p q, p ∈ GeoFrame.rows points -> q ∈ GeoFrame.rows points ->
                   distribution_key p = distribution_key q ->
                   Point.stop_sequence p = Point.stop_sequence q) ->
      exists segment_times,
        PlotHourlyDistributions.segment_times points = Ok segment_times).
Proof.
  assert (Hgroup : forall i k g,
             (i, (k, g)) ∈ imap (fun i kg => (i, kg))
                                (groupby distribution_key (GeoFrame.rows points)) ->
             g <> [] /\ forall p, p ∈ g -> p ∈ GeoFrame.rows points /\ distribution_key p = k).
  { intros i k g (j & kg & [= -> <-] & Hj)%elem_of_lookup_imap.
    apply list_elem_of_lookup_2 in Hj. split.
    - apply elem_of_groupby in Hj as [Hg (p & Hp & Hk)]. intros ->.
      symmetry in Hg. by apply (filter_nil_not_elem_of _ _ p Hg Hk).
    - intros p Hp. by apply (groupby_member _ _ _ _ p Hj) in Hp. }
  assert (Hraise : forall e,
             PlotHourlyDistributions.segment_times points = Raise e ->
             (exists counts, e = ValueErrorMultipleModes "stop_sequence" counts)
             /\ exists p q, p ∈ GeoFrame.rows points /\ q ∈ GeoFrame.rows points
                            /\ distribution_key p = distribution_key q
                            /\ Point.stop_sequence p <> Point.stop_sequence q).
  { unfold PlotHourlyDistributions.segment_times. intros e Hm.
    apply mapM_Raise_inv in Hm as ([i [k g]] & Hin & Hf).
    destruct (Hgroup i k g Hin) as [Hne Hg].
    destruct k as [[[[[[[[pattern_name segment_id] start_stop_name] start_stop_id]
                       end_stop_name] end_stop_id] trip_id] start_time] shape].
    destruct (strictmode _) as [v|e'] eqn:Es; simpl in Hf; [done|].
    injection Hf as ->.
    apply strictmode_Raise_inv in Es as [-> (x & y & Hxy & Hx & Hy)];
      [|intros Hnil; apply Hne; by apply map_eq_nil in Hnil].
    split; [eauto|].
    apply list_elem_of_fmap in Hx as (p & -> & Hp).
    apply list_elem_of_fmap in Hy as (q & -> & Hq).
    destruct (Hg p Hp) as [? Hkp]. destruct (Hg q Hq) as [? Hkq].
    exists p, q. split_and!; [done|done|congruence|done]. }
  split; [exact Hraise|]. split.
  - unfold PlotHourlyDistributions.segment_times. intros segment_times Hm. split.
    + rewrite (mapM_length _ _ _ Hm). by rewrite length_imap.
    + intros c Hc. apply mapM_Ok_inv in Hm.
      apply list_elem_of_lookup in Hc as [i Hi].
      destruct (Forall2_lookup_r _ _ _ _ _ Hm Hi) as ([j [k g]] & Hj & Hf).
      destruct (Hgroup j k g (list_elem_of_lookup_2 _ _ _ Hj)) as [Hne Hg].
      destruct k as [[[[[[[[pattern_name segment_id] start_stop_name] start_stop_id]
                         end_stop_name] end_stop_id] trip_id] start_time] shape].
      destruct (strictmode _) as [v|e'] eqn:Es; simpl in Hf; [|done].
      injection Hf as <-. simpl.
      apply strictmode_Ok_elem, list_elem_of_fmap in Es as (p & -> & Hp).
      destruct (Hg p Hp) as [? Hkp]. exists p. done.
  - intros Hsame.
    destruct (PlotHourlyDistributions.segment_times points) as [sts|e] eqn:E; [eauto|].
    destruct (Hraise e eq_refl) as [_ (p & q & Hp & Hq & Hk & Hne)].
    destruct (Hne (Hsame p q Hp Hq Hk)).
Qed.

(** X11 on a ping equally near to the first and the fifth segment of a
    looping shape: its two rows agree on the key columns and carry the
    stop sequences 1 and 5. *)
Lemma distribution_crossings_raise_on_mixed_stop_sequences_witness :
  exists e counts,
    PlotHourlyDistributions.segment_times (Street.joined Street2.loop) = Raise e
    /\ e = ValueErrorMultipleModes "stop_sequence" counts.
Proof.
  assert (Hrun : exists e,
             PlotHourlyDistributions.segment_times (Street.joined Street2.loop) = Raise e)
    by (eexists; vm_compute; reflexivity).
  destruct Hrun as (e & He).
  destruct (distribution_crossings_raise_on_mixed_stop_sequences
              (Street.joined Street2.loop)) as [Hraise _].
  destruct (Hraise e He) as [(counts & ->) _]. eauto.
Defined.

(** ** The order of the rendered frames *)

Section StringOrder.

Lemma ascii_compare_trans (a b c : Ascii.ascii) (r : comparison) :
  Ascii.compare a b = Lt -> Ascii.compare b c = r -> r <> Gt ->
  Ascii.compare a c = Lt.
Proof.
  unfold Ascii.compare. intros Hab Hbc Hr.
  rewrite N.compare_lt_iff in Hab. rewrite N.compare_lt_iff.
  destruct r.
  - rewrite N.compare_eq_iff in Hbc. lia.
  - rewrite N.compare_lt_iff in Hbc. lia.
  - done.
Qed.

Lemma string_compare_refl (a : string) : String.compare a a = Eq.
Proof.
  induction a as [|x a IH]; [done|]. simpl.
  assert (Hx : Ascii.compare x x = Eq)
    by (unfold Ascii.compare; apply N.compare_refl).
  by rewrite Hx.
Qed.

Lemma string_compare_trans (a b c : string) :
  String.compare a b = Lt -> String.compare b c = Lt -> String.compare a c = Lt.
Proof.
  revert b c. induction a as [|x a IH]; intros [|y b] [|z c]; simpl; try done.
  destruct (Ascii.compare x y) eqn:Exy; [|intros _|done].
  - apply Ascii.compare_eq_iff in Exy as ->.
    destruct (Ascii.compare y z) eqn:Eyz; [|done|done]. apply IH.
  - destruct (Ascii.compare y z) eqn:Eyz; [| |done].
    + intros _. by rewrite (ascii_compare_trans x y z Eq Exy Eyz).
    + intros _. by rewrite (ascii_compare_trans x y z Lt Exy Eyz).
Qed.

Lemma string_ltb_trans (a b c : string) :
  String.ltb a b = true -> String.ltb b c = true -> String.ltb a c = true.
Proof.
  unfold String.ltb. intros Hab Hbc.
  destruct (String.compare a b) eqn:Eab; try done.
  destruct (String.compare b c) eqn:Ebc; try done.
  by rewrite (string_compare_trans a b c Eab Ebc).
Qed.

Lemma string_ltb_trichotomy (a b : string) :
  String.ltb a b = true \/ a = b \/ String.ltb b a = true.
Proof.
  unfold String.ltb. rewrite (String.compare_antisym a b).
  destruct (String.compare b a) eqn:E; simpl; [|auto|auto].
  apply String.compare_eq_iff in E. auto.
Qed.

Lemma string_ltb_irrefl (a : string) : String.ltb a a = false.
Proof. unfold String.ltb. by rewrite string_compare_refl. Qed.
End StringOrder.

Section DistributionOrder.
Context {Geom : Type} `{Geo Geom} `{Clock}.

Lemma by_hour_pattern_stop_total :
  Total (PlotHourlyDistributions.by_hour_pattern_stop (Geom:=Geom)).
Proof.
  intros a b. unfold PlotHourlyDistributions.by_hour_pattern_stop.
  destruct (DistRow.crossing a) as [ca|], (DistRow.crossing b) as [cb|]; [|tauto..].
  destruct (string_ltb_trichotomy (Crossing.pattern_name ca)
              (Crossing.pattern_name cb)) as [Hlt|[Heq|Hgt]].
  - destruct (Z.lt_trichotomy (Crossing.hour_of_day ca) (Crossing.hour_of_day cb))
      as [?|[?|?]]; tauto.
  - rewrite Heq.
    destruct (Z.lt_trichotomy (Crossing.hour_of_day ca) (Crossing.hour_of_day cb))
      as [?|[?|?]]; [tauto| |tauto].
    destruct (Z.le_gt_cases (Crossing.stop_sequence ca) (Crossing.stop_sequence cb)).
    + left. right. tauto.
    + right. right. split; [done|]. right. split; [done|]. lia.
  - destruct (Z.lt_trichotomy (Crossing.hour_of_day ca) (Crossing.hour_of_day cb))
      as [?|[?|?]]; [tauto| |tauto].
    right. right. split; [done|]. by left.
Qed.

Lemma by_hour_pattern_stop_trans :
  Transitive (PlotHourlyDistributions.by_hour_pattern_stop (Geom:=Geom)).
Proof.
  intros a b c. unfold PlotHourlyDistributions.by_hour_pattern_stop.
  destruct (DistRow.crossing a) as [ca|], (DistRow.crossing b) as [cb|],
    (DistRow.crossing c) as [cc|]; try tauto.
  intros [Hab|[Hab [Hpab|[Hpab Hsab]]]] [Hbc|[Hbc [Hpbc|[Hpbc Hsbc]]]];
    try (left; lia); right; (split; [lia|]).
  - left. by apply (string_ltb_trans _ _ _ Hpab Hpbc).
  - left. by rewrite <- Hpbc.
  - left. by rewrite Hpab.
  - right. split; [congruence|lia].
Qed.
End DistributionOrder.

(** X12.  The frame [plot_hourly_distributions] renders is in the order
    of hour, then pattern name, then stop sequence: of two rows the
    earlier is never after the later in that order.  When some crossing
    has a travel time above 0 and below the clip threshold, its rows are
    those crossings, each as often as it occurs among the crossings,
    under its index label and named after its two stops.  When none has,
    the frame has a row for every crossing, under its index label, that
    holds its name and nothing else. *)
Theorem distribution_rows_are_sorted {Geom : Type} `{Geo Geom} `{Clock}
    (segment_times : list (Crossing.t Geom)) (clip_threshold : Q) :
  (forall i j a b,
     (i < j)%nat ->
     PlotHourlyDistributions.hourly_segment_times segment_times clip_threshold !! i
     = Some a ->
     PlotHourlyDistributions.hourly_segment_times segment_times clip_threshold !! j
     = Some b ->
     PlotHourlyDistributions.by_hour_pattern_stop a b)
  /\ ((exists c, c ∈ segment_times
                 /\ (0 < Crossing.travel_time c)%Q
                 /\ (Crossing.travel_time c < clip_threshold)%Q) ->
      PlotHourlyDistributions.hourly_segment_times segment_times clip_threshold
      ≡ₚ map (fun c => DistRow.mk (Crossing.index c) (Some c)
                         (Crossing.start_stop_name c +:+ " ... "
                          +:+ Crossing.end_stop_name c))
             (filter (fun c => (0 < Crossing.travel_time c)%Q
                               /\ (Crossing.travel_time c < clip_threshold)%Q)
                     segment_times))
  /\ ((forall c, c ∈ segment_times ->
                 ~ ((0 < Crossing.travel_time c)%Q
                    /\ (Crossing.travel_time c < clip_threshold)%Q)) ->
      PlotHourlyDistributions.hourly_segment_times segment_times clip_threshold
      ≡ₚ map (fun c => DistRow.mk (Crossing.index c) None
                         (Crossing.start_stop_name c +:+ " ... "
                          +:+ Crossing.end_stop_name c))
             segment_times).
Proof.
  pose proof (by_hour_pattern_stop_total (Geom:=Geom)) as Htotal.
  pose proof (by_hour_pattern_stop_trans (Geom:=Geom)) as Htrans.
  split; [|split].
  - intros i j a b Hij Hi Hj.
    eapply (StronglySorted_lookup _ _ i j a b); [|done|exact Hi|exact Hj].
    unfold PlotHourlyDistributions.hourly_segment_times.
    apply Sorted_StronglySorted; [done|]. by apply Sorted_merge_sort.
  - intros (c & Hc & Hpass). apply hourly_segment_times_kept.
    intros Hnil.
    assert (Hin : c ∈ filter (fun c => (0 < Crossing.travel_time c)%Q
                               /\ (Crossing.travel_time c < clip_threshold)%Q)
                             segment_times)
      by (by rewrite list_elem_of_filter).
    rewrite Hnil in Hin. by apply elem_of_nil in Hin.
  - intros Hnone. apply hourly_segment_times_none. by apply filter_none.
Qed.

Section ChoroplethFrame.
Context {Geom : Type} `{Geo Geom} `{Clock}.

Lemma by_hour_total : Total (PlotHourly.by_hour (Geom:=Geom)).
Proof. intros a b. unfold PlotHourly.by_hour. lia. Qed.

Lemma by_hour_trans : Transitive (PlotHourly.by_hour (Geom:=Geom)).
Proof. intros a b c. unfold PlotHourly.by_hour. lia. Qed.

Lemma length_flat_map_sum {A B : Type} (g : A -> list B) (l : list A) :
  length (flat_map g l) = sum_list (map (fun a => length (g a)) l).
Proof. induction l as [|a l IH]; [done|]. simpl. by rewrite length_app, IH. Qed.

Lemma length_join_segments (rows : list (HourlyStat.t Geom * Q))
    (segments : list (Segment.t Geom)) :
  length (PlotHourly.join_segments rows segments)
  = sum_list
      (map (fun rv =>
              Nat.max 1
                (length (filter (fun s => Segment.segment_id s
                                          = HourlyStat.segment_id (fst rv))
                                segments)))
           rows).
Proof.
  unfold PlotHourly.join_segments. rewrite length_flat_map_sum. f_equal.
  apply map_ext. intros [r v]. simpl.
  destruct (filter _ segments) as [|s ms]; [done|].
  simpl. rewrite length_map. lia.
Qed.

Lemma elem_of_join_segments (rows : list (HourlyStat.t Geom * Q))
    (segments : list (Segment.t Geom)) (x : HourlyRow.t Geom) :
  x ∈ PlotHourly.join_segments rows segments <->
  (HourlyRow.stat x, HourlyRow.time_value x) ∈ rows
  /\ match HourlyRow.attributes x with
     | Some s => s ∈ segments
                 /\ Segment.segment_id s = HourlyStat.segment_id (HourlyRow.stat x)
     | None => forall s, s ∈ segments ->
                         Segment.segment_id s <> HourlyStat.segment_id (HourlyRow.stat x)
     end.
Proof.
  unfold PlotHourly.join_segments. rewrite list_elem_of_In, in_flat_map. split.
  - intros ([r v] & Hrv & Hx). rewrite <- list_elem_of_In in Hrv.
    rewrite <- list_elem_of_In in Hx.
    destruct (filter _ segments) as [|s ms] eqn:E.
    + apply list_elem_of_singleton in Hx as ->. simpl. split; [done|].
      intros s Hs Hid. by apply (filter_nil_not_elem_of _ _ s E Hid).
    + apply list_elem_of_fmap in Hx as (s' & -> & Hs'). simpl. split; [done|].
      rewrite <- E in Hs'. apply list_elem_of_filter in Hs'. tauto.
  - destruct x as [r v o]. simpl. intros [Hrv Ho]. exists (r, v).
    rewrite <- !list_elem_of_In. split; [done|].
    destruct o as [s|].
    + destruct Ho as [Hs Hid].
      assert (Hin : s ∈ filter (fun s => Segment.segment_id s = HourlyStat.segment_id r)
                             segments) by (by apply list_elem_of_filter).
      destruct (filter _ segments) as [|s0 ms]; [by apply elem_of_nil in Hin|].
      apply (list_elem_of_fmap_2 (fun s => HourlyRow.mk r v (Some s)) _ _ Hin).
    + rewrite filter_none; [left|]. exact Ho.
Qed.

Lemma time_column_rows (stats : list (HourlyStat.t Geom)) (reference_hour : option Z)
    (name : string) (col : list (HourlyStat.t Geom * Q)) :
  PlotHourly.time_column stats reference_hour = Ok (name, col) ->
  map fst col = stats
  /\ name = match reference_hour with
            | None => "mean"
            | Some h => "mean_diff_" +:+ format_02d h
            end.
Proof.
  destruct reference_hour as [h|].
  - intros Hcol. destruct (time_column_cases stats h) as [(r0 & Hr0 & Hh)|Hno].
    + rewrite (time_column_Ok _ _ _ Hr0 Hh) in Hcol. injection Hcol as <- <-.
      rewrite map_map. simpl. by rewrite map_id.
    + by rewrite time_column_Raise in Hcol.
  - simpl. intros [= <- <-]. rewrite map_map. simpl. by rewrite map_id.
Qed.
End ChoroplethFrame.

(** X13.  The figure [plot_hourly] returns is rendered from a frame in
    the order of the hours, coloured by the column [mean] or, with a
    reference hour, [mean_diff_hh].  The frame holds every row of the
    statistics once for each segment of the route (of either direction
    and any shape) that has its segment identifier, and once when there
    is none. *)
Theorem plot_hourly_renders_rows_in_hour_order {Geom Fig : Type}
    `{Geo Geom} `{Clock} `{Plotly Geom Fig}
    (self : RouteInfo.t Geom) (direction : Z) (time_range : Q * Q)
    (reference_hour : option Z) (save_dir : option Path)
    (st : State.t Geom Fig) (fig : Fig) (st' : State.t Geom Fig) :
  PlotHourly.plot_hourly self direction time_range reference_hour save_dir st
  = (Ok fig, st') ->
  exists f st1 name col frame,
    points self direction st = (Ok f, st1)
    /\ PlotHourly.time_column
         (PlotHourly.hourly_segment_times (PlotHourly.segment_times f)) reference_hour
       = Ok (name, col)
    /\ map fst col = PlotHourly.hourly_segment_times (PlotHourly.segment_times f)
    /\ name = match reference_hour with
              | None => "mean"
              | Some h => "mean_diff_" +:+ format_02d h
              end
    /\ choropleth_mapbox frame name time_range = Ok fig
    /\ (forall i j a b,
          (i < j)%nat -> frame !! i = Some a -> frame !! j = Some b ->
          HourlyStat.hour_of_day (HourlyRow.stat a)
          <= HourlyStat.hour_of_day (HourlyRow.stat b))
    /\ length frame
       = sum_list
           (map (fun rv =>
                   Nat.max 1
                     (length (filter (fun s => Segment.segment_id s
                                               = HourlyStat.segment_id (fst rv))
                                     (RouteInfo._segments self))))
                col)
    /\ (forall x, x ∈ frame <->
          (HourlyRow.stat x, HourlyRow.time_value x) ∈ col
          /\ match HourlyRow.attributes x with
             | Some s => s ∈ RouteInfo._segments self
                         /\ Segment.segment_id s = HourlyStat.segment_id (HourlyRow.stat x)
             | None => forall s, s ∈ RouteInfo._segments self ->
                         Segment.segment_id s <> HourlyStat.segment_id (HourlyRow.stat x)
             end).
Proof.
  unfold PlotHourly.plot_hourly.
  intros (f & st1 & Hp & Hrun)%bind_Ok.
  apply bind_Ok in Hrun as ([name col] & st2 & [Hcol ->]%lift_Ok & Hrun).
  apply bind_Ok in Hrun as ([] & st2 & [_ ->]%lift_Ok & Hrun).
  apply bind_Ok in Hrun as (fig0 & st3 & [Hfig ->]%lift_Ok & Hsave).
  assert (fig0 = fig) as ->.
  { unfold save in Hsave. destruct save_dir as [dir|].
    - apply bind_Ok in Hsave as (n & st4 & _ & Hsave).
      apply bind_Ok in Hsave as (u & st5 & _ & Hret). unfold ret in Hret. congruence.
    - unfold ret in Hsave. congruence. }
  destruct (time_column_rows _ _ _ _ Hcol) as [Hrows Hname].
  pose proof (by_hour_total (Geom:=Geom)) as Htotal.
  pose proof (by_hour_trans (Geom:=Geom)) as Htrans.
  simpl in Hfig.
  exists f, st1, name, col,
    (merge_sort PlotHourly.by_hour (PlotHourly.join_segments col (RouteInfo._segments self))).
  split_and!; try done.
  - intros i j a b Hij Hi Hj.
    eapply (StronglySorted_lookup PlotHourly.by_hour _ i j a b); [|done|exact Hi|exact Hj].
    apply Sorted_StronglySorted; [done|]. by apply Sorted_merge_sort.
  - rewrite merge_sort_Permutation. apply length_join_segments.
  - intros x. rewrite merge_sort_Permutation. apply elem_of_join_segments.
Qed.

(** X13 on the route with two shapes, whose segments both carry the
    identifier A-B: each of the two rows of the statistics is drawn
    twice. *)
Lemma plot_hourly_renders_rows_in_hour_order_witness :
  exists fig st',
    PlotHourly.plot_hourly Street.two_shapes 0 (10%Q, 60%Q) None None Street.fresh
    = (Ok fig, st')
    /\ fig = 4%nat.
Proof.
  assert (Hrun : exists fig st',
             PlotHourly.plot_hourly Street.two_shapes 0 (10%Q, 60%Q) None None Street.fresh
             = (Ok fig, st'))
    by (eexists _, _; vm_compute; reflexivity).
  destruct Hrun as (fig & st' & Hrun). exists fig, st'. split; [exact Hrun|].
  destruct (plot_hourly_renders_rows_in_hour_order _ _ _ _ _ _ _ _ Hrun)
    as (f & st1 & name & col & frame & Hp & Hcol & _ & _ & Hfig & _ & Hlen & _).
  vm_compute in Hp. injection Hp as <- <-.
  vm_compute in Hcol. injection Hcol as <- <-.
  simpl in Hfig. injection Hfig as <-. rewrite Hlen. vm_compute. reflexivity.
Defined.



(** ** Saving is the last step *)

Section FigureFacts.
Context {Geom Fig : Type} `{Geo Geom} `{Clock} `{Plotly Geom Fig}.

Implicit Types (self : RouteInfo.t Geom) (st : State.t Geom Fig).

Lemma bind_assoc {A B C : Type} (m : M Geom Fig A) (k : A -> M Geom Fig B)
    (k' : B -> M Geom Fig C) st :
  bind (bind m k) k' st = bind m (fun a => bind (k a) k') st.
Proof.
  unfold bind. destruct (m st) as [[a|e] st1]; [|done].
  by destruct (k a st1) as [[b|e] st2].
Qed.

Lemma bind_ext {A B : Type} (m : M Geom Fig A) (k k' : A -> M Geom Fig B) st :
  (forall a st1, k a st1 = k' a st1) -> bind m k st = bind m k' st.
Proof. intros Hk. unfold bind. destruct (m st) as [[a|e] st1]; [apply Hk|done]. Qed.

(** A plot method makes its figure and then saves it. *)
Lemma render_figure_then_save self (direction : Z) (v : View)
    (save_dir : option Path) st :
  render self direction v save_dir st
  = bind (figure self direction v)
         (fun fig => save self direction (view_name v) save_dir fig) st.
Proof.
  unfold figure. rewrite bind_assoc.
  destruct v; simpl; unfold plot_points, plot_slow_zones, PlotHourly.plot_hourly,
    PlotHourlyDistributions.plot_hourly_distributions;
    apply bind_ext; intros f st1; try reflexivity.
  - unfold bind, lift, rbind. destruct (PlotHourly.time_column _ _); [|done].
    by destruct (PlotHourly.key_column _ _).
  - unfold bind, lift, rbind. by destruct (PlotHourlyDistributions.segment_times _).
Qed.

Lemma never_writes_bind {A B : Type} (m : M Geom Fig A) (k : A -> M Geom Fig B) :
  never_writes m -> (forall a, never_writes (k a)) -> never_writes (bind m k).
Proof.
  intros Hm Hk st r st'. unfold bind.
  destruct (m st) as [[a|e] st1] eqn:Em.
  - intros Hka. rewrite (Hk a st1 r st' Hka). exact (Hm st _ st1 Em).
  - intros [= <- <-]. exact (Hm st _ st1 Em).
Qed.

Lemma never_writes_lift {A : Type} (r : result A) :
  never_writes (Geom:=Geom) (Fig:=Fig) (lift r).
Proof. intros st r' st'. unfold lift. by intros [= _ <-]. Qed.

Lemma never_writes_points self (direction : Z) :
  never_writes (points (Fig:=Fig) self direction).
Proof. intros st r st' Hp. by apply points_written in Hp. Qed.

Lemma never_writes_figure self (direction : Z) (v : View) :
  never_writes (figure self direction v).
Proof.
  unfold figure. apply never_writes_bind; [apply never_writes_points|].
  intros f. apply never_writes_lift.
Qed.

Lemma save_None self (direction : Z) (view : string) (fig : Fig) st :
  save self direction view None fig st = (Ok fig, st).
Proof. reflexivity. Qed.

Lemma save_Some self (direction : Z) (view : string) (dir : Path) (fig : Fig) st :
  save self direction view (Some dir) fig st
  = match tuple_getitem (RouteInfo.directions self) direction with
    | Ok label =>
        (Ok fig,
         State.mk (State._point_data st)
           (State.written st
            ++ [(path_join dir (pretty direction +:+ "-" +:+ label +:+ "_"
                                +:+ view +:+ ".html"), fig)]))
    | Raise e => (Raise e, st)
    end.
Proof.
  unfold save, bind, lift, filename.
  by destruct (tuple_getitem (RouteInfo.directions self) direction).
Qed.

Lemma tuple_getitem_out_of_range (t : string * string) (i : Z) :
  i < -2 \/ 1 < i -> tuple_getitem t i = Raise IndexError.
Proof.
  intros Hi. unfold tuple_getitem.
  rewrite decide_False by lia. by rewrite decide_False by lia.
Qed.
End FigureFacts.

(** X14.  A plot method that raises has written no file, and neither
    has one called without a save directory: the only write is the last
    step of a call that returns. *)
Theorem render_writes_nothing_unless_it_returns {Geom Fig : Type}
    `{Geo Geom} `{Clock} `{Plotly Geom Fig}
    (self : RouteInfo.t Geom) (direction : Z) (v : View) (save_dir : option Path)
    (st : State.t Geom Fig) (r : result Fig) (st' : State.t Geom Fig) :
  render self direction v save_dir st = (r, st') ->
  (save_dir = None -> State.written st' = State.written st)
  /\ (forall e, r = Raise e -> State.written st' = State.written st).
Proof.
  rewrite render_figure_then_save. unfold bind.
  destruct (figure self direction v st) as [[fig|e] st1] eqn:Ef.
  - pose proof (never_writes_figure self direction v st _ st1 Ef) as Hw.
    destruct save_dir as [dir|].
    + rewrite save_Some.
      destruct (tuple_getitem (RouteInfo.directions self) direction) as [label|e].
      * intros [= <- <-]. split; [done|]. by intros e.
      * intros [= <- <-]. split; [done|]. by intros _ _.
    + rewrite save_None. intros [= <- <-]. split; [done|]. by intros e.
  - intros [= <- <-].
    pose proof (never_writes_figure self direction v st _ st1 Ef) as Hw. done.
Qed.

(** X14 on a reference hour without data: the call raises and the file
    list is as before. *)
Lemma render_writes_nothing_unless_it_returns_witness :
  exists e st',
    render Street.one_segment 0 (HourlyChoropleth (10%Q, 60%Q) (Some 6))
      (Some ["figures"; "6-VIC"]) Street.fresh = (Raise e, st')
    /\ State.written st' = [].
Proof.
  assert (Hrun : exists e st',
             render Street.one_segment 0 (HourlyChoropleth (10%Q, 60%Q) (Some 6))
               (Some ["figures"; "6-VIC"]) Street.fresh = (Raise e, st'))
    by (eexists _, _; vm_compute; reflexivity).
  destruct Hrun as (e & st' & Hrun). exists e, st'. split; [exact Hrun|].
  destruct (render_writes_nothing_unless_it_returns _ _ _ _ _ _ _ Hrun) as [_ Hraise].
  by rewrite (Hraise e eq_refl).
Defined.

(** X15.  The save directory changes nothing but the file.  When the
    frame and the figure of a view can be made, the call without a
    directory leaves the object as making them left it, and the call
    with a directory leaves the same dictionary and one more file, which
    holds that figure; when the direction is no position of the pair of
    labels (below -2 or above 1) the call with a directory raises
    [IndexError] instead, after the figure was made.  When they cannot
    be made the call raises their error, with or without a directory. *)
Theorem save_directory_changes_only_the_file {Geom Fig : Type}
    `{Geo Geom} `{Clock} `{Plotly Geom Fig}
    (self : RouteInfo.t Geom) (direction : Z) (v : View) (dir : Path)
    (st : State.t Geom Fig) (r : result Fig) (st1 : State.t Geom Fig) :
  figure self direction v st = (r, st1) ->
  match r with
  | Ok fig =>
      snd (render self direction v None st) = st1
      /\ (forall label,
            tuple_getitem (RouteInfo.directions self) direction = Ok label ->
            snd (render self direction v (Some dir) st)
            = State.mk (State._point_data st1)
                (State.written st
                 ++ [(path_join dir (pretty direction +:+ "-" +:+ label +:+ "_"
                                     +:+ view_name v +:+ ".html"), fig)]))
      /\ (direction < -2 \/ 1 < direction ->
          render self direction v (Some dir) st = (Raise IndexError, st1))
  | Raise e =>
      forall save_dir, render self direction v save_dir st = (Raise e, st1)
  end.
Proof.
  intros Ef. pose proof (never_writes_figure self direction v st _ st1 Ef) as Hw.
  destruct r as [fig|e].
  - rewrite !render_figure_then_save. unfold bind. rewrite Ef.
    rewrite save_None, save_Some. split; [done|]. split.
    + intros label ->. simpl. by rewrite Hw.
    + intros Hout. by rewrite tuple_getitem_out_of_range.
  - intros save_dir. rewrite render_figure_then_save. unfold bind. by rewrite Ef.
Qed.

(** X15 on a route whose table and schedule use a direction 2: the
    point map is made, and saving it raises. *)
Lemma save_directory_changes_only_the_file_witness :
  exists st1,
    figure Street2.third_direction 2 PointMap Street.fresh = (Ok 1%nat, st1)
    /\ render Street2.third_direction 2 PointMap (Some ["figures"]) Street.fresh
       = (Raise IndexError, st1).
Proof.
  assert (Hrun : exists st1,
             figure Street2.third_direction 2 PointMap Street.fresh = (Ok 1%nat, st1))
    by (eexists; vm_compute; reflexivity).
  destruct Hrun as (st1 & Hrun). exists st1. split; [exact Hrun|].
  destruct (save_directory_changes_only_the_file _ _ _ ["figures"] _ _ _ Hrun)
    as (_ & _ & Hout).
  apply Hout. lia.
Defined.

(** ** File names *)

Section FileNames.
Lemma list_ascii_of_string_app (a b : string) :
  String.list_ascii_of_string (a +:+ b)
  = String.list_ascii_of_string a ++ String.list_ascii_of_string b.
Proof. induction a as [|c a IH]; simpl; [done|]. by rewrite IH. Qed.

Lemma string_app_inv_tail (a b s : string) : a +:+ s = b +:+ s -> a = b.
Proof.
  intros Heq. apply (f_equal String.list_ascii_of_string) in Heq.
  rewrite !list_ascii_of_string_app in Heq. apply app_inv_tail in Heq.
  rewrite <- (String.string_of_list_ascii_of_string a),
    <- (String.string_of_list_ascii_of_string b).
  by rewrite Heq.
Qed.

(** A number is printed with digits and a sign only. *)
Lemma pretty_N_go_ne_capital_n (x : N) (s s' : string) :
  s <> "N" +:+ s' -> pretty_N_go x s <> "N" +:+ s'.
Proof.
  revert s. induction (N.lt_wf_0 x) as [x _ IH]; intros s Hs.
  assert (x = 0 \/ 0 < x)%N as [->|Hx] by lia.
  - by rewrite pretty_N_go_0.
  - rewrite pretty_N_go_step by done. apply IH.
    { by apply N.div_lt. }
    unfold pretty_N_char. by repeat case_match.
Qed.

Lemma pretty_Z_ne_None (h : Z) : pretty h <> "None".
Proof.
  destruct h as [|p|p]; [done| |done].
  unfold pretty, pretty_Z, pretty, pretty_positive, pretty, pretty_N.
  rewrite decide_False by done. by apply pretty_N_go_ne_capital_n.
Qed.

Lemma format_optional_inj (o1 o2 : option Z) :
  format_optional o1 = format_optional o2 -> o1 = o2.
Proof.
  destruct o1 as [h1|], o2 as [h2|]; simpl; intros Heq.
  - f_equal. by apply (inj pretty).
  - by apply pretty_Z_ne_None in Heq.
  - symmetry in Heq. by apply pretty_Z_ne_None in Heq.
  - done.
Qed.

(** Two views have one word for the file name when they are of the
    same method and, for the hourly map, of the same reference hour. *)
Lemma view_name_eq (v1 v2 : View) :
  view_name v1 = view_name v2 <->
  match v1, v2 with
  | PointMap, PointMap => True
  | SlowZones _, SlowZones _ => True
  | HourlyChoropleth _ r1, HourlyChoropleth _ r2 => r1 = r2
  | HourlyDistributions _ _, HourlyDistributions _ _ => True
  | _, _ => False
  end.
Proof.
  destruct v1, v2; simpl; split; try done.
  - intros [= Heq]. by apply format_optional_inj.
  - by intros ->.
Qed.

Lemma filename_direction_inj (d1 d2 : Z) (s1 s2 : string) :
  (d1 = 0 \/ d1 = -2 \/ d1 = 1 \/ d1 = -1) ->
  (d2 = 0 \/ d2 = -2 \/ d2 = 1 \/ d2 = -1) ->
  pretty d1 +:+ "-" +:+ s1 = pretty d2 +:+ "-" +:+ s2 -> d1 = d2.
Proof.
  intros [-> | [-> | [-> | ->]]] [-> | [-> | [-> | ->]]]; done.
Qed.
End FileNames.

(** X16.  Which calls on one object share a file: two calls that write
    give the same file name exactly when they are of the same
    direction and the same method, and for [plot_hourly] of the same
    reference hour.  The other arguments (the threshold of the slow
    zones, the clip and the variants of the distributions, the time
    range) do not enter the name, so a second call that differs in
    them only writes to the file of the first. *)
Theorem file_name_tells_direction_and_method {Geom : Type}
    (self : RouteInfo.t Geom) (d1 d2 : Z) (v1 v2 : View) (n1 n2 : string) :
  filename self d1 (view_name v1) = Ok n1 ->
  filename self d2 (view_name v2) = Ok n2 ->
  (n1 = n2 <->
   d1 = d2
   /\ match v1, v2 with
      | PointMap, PointMap => True
      | SlowZones _, SlowZones _ => True
      | HourlyChoropleth _ r1, HourlyChoropleth _ r2 => r1 = r2
      | HourlyDistributions _ _, HourlyDistributions _ _ => True
      | _, _ => False
      end).
Proof.
  unfold filename, rbind.
  destruct (tuple_getitem _ d1) as [l1|] eqn:E1; [|done].
  destruct (tuple_getitem _ d2) as [l2|] eqn:E2; [|done].
  intros [= <-] [= <-]. rewrite <- view_name_eq. split.
  - intros Heq.
    assert (Hd : d1 = d2).
    { pose proof (tuple_getitem_label _ _ _ E1) as H1.
      pose proof (tuple_getitem_label _ _ _ E2) as H2.
      eapply (filename_direction_inj d1 d2); [tauto|tauto|exact Heq]. }
    split; [done|]. subst d2. rewrite E1 in E2. injection E2 as <-.
    do 4 apply (inj (String.append _)) in Heq.
    by apply string_app_inv_tail in Heq.
  - intros [<- Hv]. rewrite E1 in E2. injection E2 as <-. by rewrite Hv.
Qed.

(** X16 on two slow-zone maps of one direction with thresholds of 15
    and 20 km/h: one file name. *)
Lemma file_name_tells_direction_and_method_witness :
  exists n1 n2,
    filename Street.one_segment 0 (view_name (SlowZones 15)) = Ok n1
    /\ filename Street.one_segment 0 (view_name (SlowZones 20)) = Ok n2
    /\ n1 = n2.
Proof.
  eexists _, _. split; [reflexivity|]. split; [reflexivity|].
  apply (file_name_tells_direction_and_method Street.one_segment 0 0
           (SlowZones 15) (SlowZones 20) _ _ eq_refl eq_refl).
  done.
Defined.

(** ** [strictmode] and the order of the rows *)

Section StrictModeOrder.
Import Series.

Lemma count_Permutation (s s' : list Z) (v : Z) :
  s ≡ₚ s' -> count v s = count v s'.
Proof. intros Hp. unfold count. by rewrite Hp. Qed.

Lemma max_count_Permutation (s s' : list Z) : s ≡ₚ s' -> max_count s = max_count s'.
Proof.
  assert (Hle : forall a b : list Z, a ≡ₚ b -> (max_count a <= max_count b)%nat).
  { intros a b Hp. destruct a as [|x a]; [unfold max_count at 1; simpl; lia|].
    destruct (max_count_attained_in (x :: a) (x :: a)) as (v & _ & Hv); [done|].
    fold (max_count (x :: a)) in Hv. rewrite <- Hv, (count_Permutation _ _ _ Hp).
    apply count_le_max_count. }
  intros Hp. apply Nat.le_antisymm; apply Hle; [done|by symmetry].
Qed.

Lemma mode_Permutation (s s' : list Z) : s ≡ₚ s' -> mode s = mode s'.
Proof.
  intros Hp. apply (Sorted_unique Z.le).
  - unfold mode. apply Sorted_merge_sort; apply _.
  - unfold mode. apply Sorted_merge_sort; apply _.
  - apply NoDup_Permutation; [apply NoDup_mode..|].
    intros v. rewrite !elem_of_mode, (count_Permutation _ _ _ Hp),
      (max_count_Permutation _ _ Hp). by rewrite Hp.
Qed.

Lemma strictmode_Ok_iff (name : string) (s : list Z) (v : Z) :
  strictmode (Series.mk name s) = Ok v <-> mode s = [v].
Proof.
  unfold strictmode. simpl. destruct (mode s) as [|a [|b m]]; simpl; split;
    try done; by intros [= ->].
Qed.

Lemma count_two_le_length (s : list Z) (v w : Z) :
  v <> w -> (count v s + count w s <= length s)%nat.
Proof.
  intros Hvw. unfold count. induction s as [|x s IH]; simpl; [lia|].
  rewrite !filter_cons. repeat case_decide; simpl; try lia; congruence.
Qed.
End StrictModeOrder.

(** X17.  [strictmode] does not look at the order of the values: on two
    series with the same values in any order the modes are the same
    list, it returns the same value on both or raises on both. *)
Theorem strictmode_ignores_the_order (name : string) (s s' : list Z) :
  s ≡ₚ s' ->
  Series.mode s = Series.mode s'
  /\ (forall v, strictmode (Series.mk name s) = Ok v <->
                strictmode (Series.mk name s') = Ok v)
  /\ ((exists e, strictmode (Series.mk name s) = Raise e) <->
      (exists e, strictmode (Series.mk name s') = Raise e)).
Proof.
  intros Hp. pose proof (mode_Permutation s s' Hp) as Hm. split; [done|]. split.
  - intros v. by rewrite !strictmode_Ok_iff, Hm.
  - unfold strictmode. simpl. rewrite Hm.
    destruct (Series.mode s') as [|a [|b m]]; simpl; split; intros [e He]; eauto; done.
Qed.

(** X17 on the stop sequences 3, 5, 3 and 5, 3, 3. *)
Lemma strictmode_ignores_the_order_witness :
  [3; 5; 3] ≡ₚ [5; 3; 3]
  /\ (strictmode (Series.mk "stop_sequence" [3; 5; 3]) = Ok 3 <->
      strictmode (Series.mk "stop_sequence" [5; 3; 3]) = Ok 3).
Proof.
  assert (Hp : [3; 5; 3] ≡ₚ [5; 3; 3]) by apply Permutation_swap.
  split; [exact Hp|].
  apply (strictmode_ignores_the_order "stop_sequence" [3; 5; 3] [5; 3; 3] Hp).
Defined.

(** X18.  A value that holds more than half of the series is what
    [strictmode] returns, whatever the other values are. *)
Theorem strictmode_returns_the_majority (name : string) (s : list Z) (v : Z) :
  (length s < 2 * Series.count v s)%nat ->
  strictmode (Series.mk name s) = Ok v.
Proof.
  intros Hmaj. apply strictmode_Ok_iff.
  assert (Hv : v ∈ s) by (apply count_pos; lia).
  assert (Hmode : forall w, w ∈ Series.mode s <-> w = v).
  { intros w. rewrite <- most_frequent_mode. unfold most_frequent.
    rewrite <- list_elem_of_In. split.
    - intros [_ Hmax]. destruct (decide (w = v)) as [|Hne]; [done|].
      pose proof (count_two_le_length s v w (not_eq_sym Hne)).
      specialize (Hmax v). lia.
    - intros ->. split; [done|]. intros w.
      destruct (decide (w = v)) as [->|Hne]; [done|].
      pose proof (count_two_le_length s v w (not_eq_sym Hne)). lia. }
  pose proof (NoDup_mode s) as Hnd.
  destruct (Series.mode s) as [|a [|b m]] eqn:Em.
  - specialize (Hmode v). rewrite elem_of_nil in Hmode. tauto.
  - f_equal. apply Hmode. left.
  - exfalso. apply NoDup_cons in Hnd as [Hnotin _]. apply Hnotin.
    assert (a = v) as -> by (apply Hmode; left).
    assert (b = v) as -> by (apply Hmode; right; left). left.
Qed.

(** X18 on three rows of stop sequence 3 and two others. *)
Lemma strictmode_returns_the_majority_witness :
  strictmode (Series.mk "stop_sequence" [3; 5; 3; 7; 3]) = Ok 3.
Proof.
  apply (strictmode_returns_the_majority "stop_sequence" [3; 5; 3; 7; 3] 3).
  vm_compute. lia.
Defined.

(** ** The script *)

Section ScriptFacts.
Context {Geom Fig : Type} `{Geo Geom} `{Clock} `{Plotly Geom Fig}.

Implicit Types (self : RouteInfo.t Geom) (st : State.t Geom Fig).

(** A plot method called with a directory, step by step. *)
Lemma render_with_directory self (direction : Z) (v : View) (dir : Path) st :
  render self direction v (Some dir) st
  = match points self direction st with
    | (Ok f, st1) =>
        match draw self v f with
        | Ok fig =>
            match tuple_getitem (RouteInfo.directions self) direction with
            | Ok label =>
                (Ok fig,
                 State.mk (State._point_data st1)
                   (State.written st1
                    ++ [(path_join dir (pretty direction +:+ "-" +:+ label +:+ "_"
                                        +:+ view_name v +:+ ".html"), fig)]))
            | Raise e => (Raise e, st1)
            end
        | Raise e => (Raise e, st1)
        end
    | (Raise e, st1) => (Raise e, st1)
    end.
Proof.
  rewrite render_figure_then_save. unfold figure, bind, lift.
  destruct (points self direction st) as [[f|e] st1]; [|done].
  destruct (draw self v f) as [fig|e]; [|done]. apply save_Some.
Qed.

#[local] Ltac refute_run :=
  split; [done|];
  intros (? & ? & ? & ? & ? & ? & ? & ? & ? & ? & ?); congruence.

(** One pass of the loop on a direction that is not in the
    dictionary: the point map is drawn from the frame of the join,
    the other two figures from the frame the dictionary holds. *)
Lemma plot_direction_spec self (dir : Path) (direction : Z) st st' :
  State._point_data st !! direction = None ->
  DelayAnalysis.plot_direction self dir direction st = (Ok tt, st') <->
  exists (f : GeoFrame.t Geom) (label : string) (p d s : Fig),
    join_points self direction = Ok f
    /\ tuple_getitem (RouteInfo.directions self) direction = Ok label
    /\ draw self PointMap f = Ok p
    /\ draw self (HourlyDistributions 1000 false) (to_crs WGS84 f) = Ok d
    /\ draw self (SlowZones 15) (to_crs WGS84 f) = Ok s
    /\ st' = State.mk (<[direction := to_crs WGS84 f]> (State._point_data st))
               (State.written st
                ++ DelayAnalysis.direction_files dir direction label p d s).
Proof.
  intros Hnone. unfold DelayAnalysis.plot_direction.
  change (plot_points self direction (Some dir))
    with (render self direction PointMap (Some dir)).
  change (PlotHourlyDistributions.plot_hourly_distributions self direction 1000 false
            (Some dir))
    with (render self direction (HourlyDistributions 1000 false) (Some dir)).
  change (plot_slow_zones self direction 15 (Some dir))
    with (render self direction (SlowZones 15) (Some dir)).
  unfold bind at 1. rewrite render_with_directory, points_miss by done.
  destruct (join_points self direction) as [f|e] eqn:Ej; [|refute_run].
  destruct (draw self PointMap f) as [p|e] eqn:Ep; [|refute_run].
  destruct (tuple_getitem (RouteInfo.directions self) direction) as [label|e]
    eqn:El; [|refute_run].
  unfold bind at 1. rewrite render_with_directory.
  rewrite (points_hit _ _ _ (to_crs WGS84 f)) by (simpl; apply lookup_insert_eq).
  destruct (draw self (HourlyDistributions 1000 false) (to_crs WGS84 f)) as [d|e]
    eqn:Ed; [|refute_run].
  rewrite El. cbn [State._point_data State.written].
  unfold bind at 1. rewrite render_with_directory.
  rewrite (points_hit _ _ _ (to_crs WGS84 f)) by (simpl; apply lookup_insert_eq).
  destruct (draw self (SlowZones 15) (to_crs WGS84 f)) as [s|e] eqn:Es;
    [|refute_run].
  rewrite El.
  unfold ret, DelayAnalysis.direction_files.
  cbn [State._point_data State.written view_name].
  rewrite <- !app_assoc. cbn [app]. split.
  - intros [= <-]. by exists f, label, p, d, s.
  - intros (f' & label' & p' & d' & s' & [= <-] & [= <-] & Hp & Hd & Hs & ->).
    rewrite Ep in Hp. rewrite Ed in Hd. rewrite Es in Hs.
    injection Hp as <-. injection Hd as <-. injection Hs as <-. reflexivity.
Qed.
End ScriptFacts.

Section ScriptLoop.
Context {Geom Fig : Type} `{Geo Geom} `{Clock} `{Plotly Geom Fig}.

Implicit Types (self : RouteInfo.t Geom) (st : State.t Geom Fig).

Lemma tuple_getitem_0 (t : string * string) : tuple_getitem t 0 = Ok (fst t).
Proof. reflexivity. Qed.

Lemma tuple_getitem_1 (t : string * string) : tuple_getitem t 1 = Ok (snd t).
Proof. reflexivity. Qed.

(** The loop over the two directions on an object whose dictionary
    holds neither. *)
Lemma plot_directions_spec self (dir : Path) st st' :
  State._point_data st !! 0 = None ->
  State._point_data st !! 1 = None ->
  DelayAnalysis.plot_directions self dir st = (Ok tt, st') <->
  exists (f0 f1 : GeoFrame.t Geom) (p0 d0 s0 p1 d1 s1 : Fig),
    join_points self 0 = Ok f0
    /\ join_points self 1 = Ok f1
    /\ draw self PointMap f0 = Ok p0
    /\ draw self (HourlyDistributions 1000 false) (to_crs WGS84 f0) = Ok d0
    /\ draw self (SlowZones 15) (to_crs WGS84 f0) = Ok s0
    /\ draw self PointMap f1 = Ok p1
    /\ draw self (HourlyDistributions 1000 false) (to_crs WGS84 f1) = Ok d1
    /\ draw self (SlowZones 15) (to_crs WGS84 f1) = Ok s1
    /\ st' = State.mk
               (<[1 := to_crs WGS84 f1]>
                  (<[0 := to_crs WGS84 f0]> (State._point_data st)))
               (State.written st
                ++ DelayAnalysis.direction_files dir 0
                     (fst (RouteInfo.directions self)) p0 d0 s0
                ++ DelayAnalysis.direction_files dir 1
                     (snd (RouteInfo.directions self)) p1 d1 s1).
Proof.
  intros Hnone0 Hnone1. unfold DelayAnalysis.plot_directions. split.
  - intros ([] & st1 & Hfirst & Hsecond)%bind_Ok.
    apply plot_direction_spec in Hfirst as (f0 & l0 & p0 & d0 & s0 & Hj0 & Hl0 & Hp0
                                            & Hd0 & Hs0 & ->); [|done].
    apply plot_direction_spec in Hsecond as (f1 & l1 & p1 & d1 & s1 & Hj1 & Hl1 & Hp1
                                             & Hd1 & Hs1 & ->);
      [|simpl; by rewrite lookup_insert_ne].
    rewrite tuple_getitem_0 in Hl0. rewrite tuple_getitem_1 in Hl1.
    injection Hl0 as <-. injection Hl1 as <-.
    exists f0, f1, p0, d0, s0, p1, d1, s1. simpl. by rewrite <- app_assoc.
  - intros (f0 & f1 & p0 & d0 & s0 & p1 & d1 & s1 & Hj0 & Hj1 & Hp0 & Hd0 & Hs0
            & Hp1 & Hd1 & Hs1 & ->).
    unfold bind.
    assert (Hfirst : DelayAnalysis.plot_direction self dir 0 st
              = (Ok tt,
                 State.mk (<[0 := to_crs WGS84 f0]> (State._point_data st))
                   (State.written st
                    ++ DelayAnalysis.direction_files dir 0
                         (fst (RouteInfo.directions self)) p0 d0 s0))).
    { apply plot_direction_spec; [done|].
      exists f0, (fst (RouteInfo.directions self)), p0, d0, s0. by rewrite tuple_getitem_0. }
    rewrite Hfirst. apply plot_direction_spec; [simpl; by rewrite lookup_insert_ne|].
    exists f1, (snd (RouteInfo.directions self)), p1, d1, s1.
    rewrite tuple_getitem_1. simpl. by rewrite <- app_assoc.
Qed.

(** The names of the files a block of the script writes. *)
Lemma plot_route_views_files (feed : Feed.t Geom) (db_path : list VehiclePosition.t)
    (route : string) (directions : string * string) (route_dir : Path) st st' :
  DelayAnalysis.plot_route_views feed db_path route directions route_dir st
  = (Ok tt, st') ->
  map fst (State.written st')
  = map fst (State.written st)
    ++ map (fun name => path_join route_dir name)
         ["0-" +:+ fst directions +:+ "_points.html";
          "0-" +:+ fst directions +:+ "_distr_hourly.html";
          "0-" +:+ fst directions +:+ "_slow_zones.html";
          "1-" +:+ snd directions +:+ "_points.html";
          "1-" +:+ snd directions +:+ "_distr_hourly.html";
          "1-" +:+ snd directions +:+ "_slow_zones.html"].
Proof.
  unfold DelayAnalysis.plot_route_views. intros Hrun.
  apply plot_directions_spec in Hrun
    as (f0 & f1 & p0 & d0 & s0 & p1 & d1 & s1 & _ & _ & _ & _ & _ & _ & _ & _ & ->);
    [|done..].
  cbn [State.written]. rewrite !map_app. reflexivity.
Qed.
End ScriptLoop.

(** X19.  The loop of the script over the directions 0 and 1, on an
    object whose dictionary holds neither (a new one).  When it returns,
    both joins have returned and six figures were drawn: the point map
    of a direction from the frame of the join, in EPSG:26910, the
    distributions and the slow zones from the frame the dictionary
    holds, in WGS-84; six files were written, three for direction 0 and
    then three for direction 1, and the dictionary holds the two
    frames. *)
Theorem script_loop_draws_six_figures {Geom Fig : Type}
    `{Geo Geom} `{Clock} `{Plotly Geom Fig}
    (self : RouteInfo.t Geom) (route_dir : Path) (st st' : State.t Geom Fig) :
  State._point_data st !! 0 = None ->
  State._point_data st !! 1 = None ->
  DelayAnalysis.plot_directions self route_dir st = (Ok tt, st') ->
  exists (f0 f1 : GeoFrame.t Geom) (p0 d0 s0 p1 d1 s1 : Fig),
    join_points self 0 = Ok f0
    /\ join_points self 1 = Ok f1
    /\ draw self PointMap f0 = Ok p0
    /\ draw self (HourlyDistributions 1000 false) (to_crs WGS84 f0) = Ok d0
    /\ draw self (SlowZones 15) (to_crs WGS84 f0) = Ok s0
    /\ draw self PointMap f1 = Ok p1
    /\ draw self (HourlyDistributions 1000 false) (to_crs WGS84 f1) = Ok d1
    /\ draw self (SlowZones 15) (to_crs WGS84 f1) = Ok s1
    /\ st' = State.mk
               (<[1 := to_crs WGS84 f1]>
                  (<[0 := to_crs WGS84 f0]> (State._point_data st)))
               (State.written st
                ++ DelayAnalysis.direction_files route_dir 0
                     (fst (RouteInfo.directions self)) p0 d0 s0
                ++ DelayAnalysis.direction_files route_dir 1
                     (snd (RouteInfo.directions self)) p1 d1 s1).
Proof. intros Hnone0 Hnone1 Hrun. by apply plot_directions_spec in Hrun. Qed.

(** X19 on route 6-VIC of a schedule and a table with two pings in each
    direction, at 36 km/h: in each direction a point map of two rows,
    one crossing and no slow ping. *)
Lemma script_loop_draws_six_figures_witness :
  exists st',
    DelayAnalysis.plot_directions Street2.route_6 ["figures"; "6-VIC"] Street.fresh
    = (Ok tt, st')
    /\ State.written st'
       = DelayAnalysis.direction_files ["figures"; "6-VIC"] 0 "Royal Oak" 2%nat 1%nat 0%nat
         ++ DelayAnalysis.direction_files ["figures"; "6-VIC"] 1 "Downtown" 2%nat 1%nat
              0%nat.
Proof.
  assert (Hrun : exists st',
             DelayAnalysis.plot_directions Street2.route_6 ["figures"; "6-VIC"]
               Street.fresh = (Ok tt, st'))
    by (eexists; vm_compute; reflexivity).
  destruct Hrun as (st' & Hrun). exists st'. split; [exact Hrun|].
  destruct (script_loop_draws_six_figures Street2.route_6 ["figures"; "6-VIC"]
              Street.fresh st' (lookup_empty _) (lookup_empty _) Hrun)
    as (f0 & f1 & p0 & d0 & s0 & p1 & d1 & s1 & E0 & E1 & Hp0 & Hd0 & Hs0 & Hp1 & Hd1
        & Hs1 & ->).
  vm_compute in E0, E1. injection E0 as <-. injection E1 as <-.
  vm_compute in Hp0, Hd0, Hs0, Hp1, Hd1, Hs1.
  injection Hp0 as <-. injection Hd0 as <-. injection Hs0 as <-.
  injection Hp1 as <-. injection Hd1 as <-. injection Hs1 as <-.
  reflexivity.
Defined.

(** X20.  The script, when it runs through, writes twenty-four files:
    for each of its four routes, in the order 6, 10, 26, 24, into the
    directory of the route under [figures], the point map, the
    distributions and the slow zones of direction 0 and then those of
    direction 1, each named with the label of the direction. *)
Theorem script_writes_twenty_four_files {Geom Fig : Type}
    `{Geo Geom} `{Clock} `{Plotly Geom Fig}
    (feed : Feed.t Geom) (db_path : list VehiclePosition.t)
    (st st' : State.t Geom Fig) :
  DelayAnalysis.main feed db_path st = (Ok tt, st') ->
  map fst (State.written st')
  = map fst (State.written st)
    ++ [["figures"; "6-VIC"; "0-Royal Oak_points.html"];
        ["figures"; "6-VIC"; "0-Royal Oak_distr_hourly.html"];
        ["figures"; "6-VIC"; "0-Royal Oak_slow_zones.html"];
        ["figures"; "6-VIC"; "1-Downtown_points.html"];
        ["figures"; "6-VIC"; "1-Downtown_distr_hourly.html"];
        ["figures"; "6-VIC"; "1-Downtown_slow_zones.html"];
        ["figures"; "10-VIC"; "0-Royal Jubilee_points.html"];
        ["figures"; "10-VIC"; "0-Royal Jubilee_distr_hourly.html"];
        ["figures"; "10-VIC"; "0-Royal Jubilee_slow_zones.html"];
        ["figures"; "10-VIC"; "1-James Bay_points.html"];
        ["figures"; "10-VIC"; "1-James Bay_distr_hourly.html"];
        ["figures"; "10-VIC"; "1-James Bay_slow_zones.html"];
        ["figures"; "26-VIC"; "0-UVic_points.html"];
        ["figures"; "26-VIC"; "0-UVic_distr_hourly.html"];
        ["figures"; "26-VIC"; "0-UVic_slow_zones.html"];
        ["figures"; "26-VIC"; "1-Dockyard_points.html"];
        ["figures"; "26-VIC"; "1-Dockyard_distr_hourly.html"];
        ["figures"; "26-VIC"; "1-Dockyard_slow_zones.html"];
        ["figures"; "24-VIC"; "0-Cedar Hill_points.html"];
        ["figures"; "24-VIC"; "0-Cedar Hill_distr_hourly.html"];
        ["figures"; "24-VIC"; "0-Cedar Hill_slow_zones.html"];
        ["figures"; "24-VIC"; "1-Tillicum Ctr_points.html"];
        ["figures"; "24-VIC"; "1-Tillicum Ctr_distr_hourly.html"];
        ["figures"; "24-VIC"; "1-Tillicum Ctr_slow_zones.html"]].
Proof.
  unfold DelayAnalysis.main.
  intros ([] & st1 & H6 & ([] & st2 & H10 & ([] & st3 & H26 & H24)%bind_Ok)%bind_Ok)%bind_Ok.
  apply plot_route_views_files in H6, H10, H26, H24.
  rewrite H24, H26, H10, H6. rewrite <- !app_assoc. reflexivity.
Qed.

(** X20 on a schedule and a table with two pings of every route in both
    directions. *)
Lemma script_writes_twenty_four_files_witness :
  length (State.written
            (snd (DelayAnalysis.main Street2.four_routes_feed Street2.four_routes_db
                    Street.fresh))) = 24%nat.
Proof.
  assert (Hrun : DelayAnalysis.main Street2.four_routes_feed Street2.four_routes_db
                   Street.fresh
                 = (Ok tt, snd (DelayAnalysis.main Street2.four_routes_feed
                                  Street2.four_routes_db Street.fresh)))
    by (vm_compute; reflexivity).
  pose proof (script_writes_twenty_four_files _ _ _ _ Hrun) as Hfiles.
  apply (f_equal length) in Hfiles. rewrite length_map in Hfiles. exact Hfiles.
Defined.
